(** * GeoJSON ingestion into PostGIS: a model of [ingest.py]

    The script reads a GeoJSON document, derives a table layout from it,
    asks the operator for confirmation and loads every feature as one row.
    The model below follows [ingest.py] statement by statement.  Python
    values read from the document are kept dynamically typed ([json]); console
    output, file access and database calls are events of a trace, and the
    exceptions of the script are values of [exn] carried by a small
    state-and-error monad. *)

From Stdlib Require Import ZArith NArith Ascii String SpecFloat.
From Stdlib.Strings Require Import Byte.
From stdpp Require Import gmap strings list pretty.

Set Warnings "-register-all,-clear-no-such-hyp".
Local Open Scope string_scope.

(** ** Python strings

    A Python [str] is modelled by the bytes of its UTF-8 form.  Every
    operation the script applies to a string takes an ASCII argument
    ([replace('-', '_')], [split(':')], ['EPSG' in name], [', '.join]),
    so it acts on the UTF-8 bytes as it does on the code points. *)

Module PyStr.

Definition dquote : string := String (ascii_of_nat 34) EmptyString.
Definition nl : string := String (ascii_of_nat 10) EmptyString.

(** [s.replace(old, new)] for one-character [old] and [new]. *)
Fixpoint replace (old new : ascii) (s : string) : string :=
  match s with
  | EmptyString => EmptyString
  | String c r =>
      String (if Ascii.eqb c old then new else c) (replace old new r)
  end.

(** [sep.join(parts)]. *)
Fixpoint join (sep : string) (parts : list string) : string :=
  match parts with
  | [] => EmptyString
  | [p] => p
  | p :: rest => p +:+ sep +:+ join sep rest
  end.

(** [s.split(sep)] for a one-character separator: the fields between
    the separators, empty fields kept; never the empty list. *)
Fixpoint split (sep : ascii) (s : string) : list string :=
  match s with
  | EmptyString => [EmptyString]
  | String c r =>
      if Ascii.eqb c sep then EmptyString :: split sep r
      else match split sep r with
           | [] => [String c EmptyString]
           | f :: fs => String c f :: fs
           end
  end.

(** [needle in s] on strings: substring test. *)
Fixpoint contains (needle s : string) : bool :=
  String.prefix needle s ||
  match s with
  | EmptyString => false
  | String _ r => contains needle r
  end.

Definition lower_ascii (c : ascii) : ascii :=
  let n := nat_of_ascii c in
  if (65 <=? n)%nat && (n <=? 90)%nat then ascii_of_nat (n + 32) else c.

(** [s.lower()], on the ASCII letters.  No character outside ASCII
    has a lower-case form made of the letters y, e or s, so the test of
    the confirmation answer is decided by this part of [lower] alone. *)
Fixpoint lower (s : string) : string :=
  match s with
  | EmptyString => EmptyString
  | String c r => String (lower_ascii c) (lower r)
  end.

Definition is_digit (c : ascii) : bool :=
  let n := nat_of_ascii c in (48 <=? n)%nat && (n <=? 57)%nat.

Definition is_space (c : ascii) : bool :=
  let n := nat_of_ascii c in
  (n =? 32)%nat || ((9 <=? n)%nat && (n <=? 13)%nat)
  || ((28 <=? n)%nat && (n <=? 31)%nat).

(** [s.isdigit()]: at least one character and all of them digits, on
    ASCII text.  The digits outside ASCII that [isdigit] also accepts
    (superscripts, the digits of other scripts) are not part of this
    model. *)
Definition isdigit (s : string) : bool :=
  match s with
  | EmptyString => false
  | _ => forallb is_digit (list_ascii_of_string s)
  end.

Fixpoint lstrip (s : string) : string :=
  match s with
  | String c r => if is_space c then lstrip r else s
  | EmptyString => EmptyString
  end.

Definition strip (s : string) : string :=
  String.rev (lstrip (String.rev (lstrip s))).

(** Digits of a decimal literal, most significant first; a single
    underscore is allowed between two digits.  [after_digit] tells
    whether the previous character was a digit. *)
Fixpoint digits (s : string) (after_digit : bool) (acc : Z) : option Z :=
  match s with
  | EmptyString => if after_digit then Some acc else None
  | String c r =>
      if is_digit c
      then digits r true (10 * acc + (Z.of_nat (nat_of_ascii c) - 48))
      else if Ascii.eqb c "_" && after_digit
           then match r with
                | String d _ => if is_digit d then digits r false acc else None
                | EmptyString => None
                end
           else None
  end.

(** [int(s)]: surrounding white space, an optional sign, decimal digits.
    [None] stands for [ValueError].  White space and decimal digits
    outside ASCII, which [int] also reads, and the limit Python puts on
    the number of digits are not part of this model. *)
Definition int (s : string) : option Z :=
  match strip s with
  | String "-" r => Z.opp <$> digits r false 0
  | String "+" r => digits r false 0
  | t => digits t false 0
  end.

(** [repr] of a list of strings, as an f-string prints it:
    [['utf-8', 'latin-1']]. *)
Definition repr_list (l : list string) : string :=
  "[" +:+ join ", " (map (fun s => "'" +:+ s +:+ "'") l) +:+ "]".

End PyStr.

(** ** Values of the parsed document *)

Inductive json : Type :=
| JNull
| JBool (b : bool)
| JInt (n : Z)
| JFloat (x : spec_float)
| JString (s : string)
| JArray (items : list json)
| JObject (members : list (string * json)).

(** Exceptions the script can meet. *)
Inductive exn : Type :=
| UnicodeDecodeError
| JSONDecodeError
| FileNotFoundError
| OSError
| EOFError
| AttributeError
| TypeError
| KeyError
| IndexError
| ValueError
| UnboundLocalError
| DatabaseError (msg : string)
| Exception (msg : string).

Inductive result (A : Type) : Type :=
| Ok (a : A)
| Raise (e : exn).
Arguments Ok {A} a.
Arguments Raise {A} e.

(** ** Operations of Python objects, on [json] *)

Module Py.

(** A [dict] keeps its keys, which are distinct, in insertion order: an
    association list. *)
Fixpoint assoc (k : string) (members : list (string * json)) : option json :=
  match members with
  | [] => None
  | (k', v) :: rest => if String.eqb k k' then Some v else assoc k rest
  end.

Definition is_str (s : string) (v : json) : bool :=
  match v with
  | JString t => String.eqb t s
  | _ => false
  end.

(** [s in container] for a string literal [s]. *)
Definition contains (s : string) (container : json) : result bool :=
  match container with
  | JObject members => Ok (bool_decide (is_Some (assoc s members)))
  | JArray items => Ok (existsb (is_str s) items)
  | JString t => Ok (PyStr.contains s t)
  | _ => Raise TypeError
  end.

(** [container[key]] for a string key. *)
Definition getitem (container : json) (key : string) : result json :=
  match container with
  | JObject members =>
      match assoc key members with
      | Some v => Ok v
      | None => Raise KeyError
      end
  | _ => Raise TypeError
  end.

(** [container[0]]. *)
Definition first (container : json) : result json :=
  match container with
  | JArray (x :: _) => Ok x
  | JArray [] => Raise IndexError
  | JString (String c _) => Ok (JString (String c EmptyString))
  | JString EmptyString => Raise IndexError
  | JObject _ => Raise KeyError
  | _ => Raise TypeError
  end.

(** [obj.get(key, default)]: only a [dict] has the method. *)
Definition get (obj : json) (key : string) (default : json) : result json :=
  match obj with
  | JObject members =>
      Ok (match assoc key members with Some v => v | None => default end)
  | _ => Raise AttributeError
  end.

Definition len (v : json) : result nat :=
  match v with
  | JArray items => Ok (length items)
  | JObject members => Ok (length members)
  | JString s => Ok (String.length s)
  | _ => Raise TypeError
  end.

(** The values a [for] loop over [v] visits. *)
Definition iter (v : json) : result (list json) :=
  match v with
  | JArray items => Ok items
  | JObject members => Ok (map (fun kv => JString (fst kv)) members)
  | JString s =>
      Ok (map (fun c => JString (String c EmptyString)) (list_ascii_of_string s))
  | _ => Raise TypeError
  end.

(** [obj.items()], [obj.keys()], [obj.values()]. *)
Definition items (obj : json) : result (list (string * json)) :=
  match obj with
  | JObject members => Ok members
  | _ => Raise AttributeError
  end.

(** [v.split(sep)]: only a [str] has the method. *)
Definition split (v : json) (sep : ascii) : result (list string) :=
  match v with
  | JString s => Ok (PyStr.split sep s)
  | _ => Raise AttributeError
  end.

(** [isinstance(v, int)]: [bool] is a subclass of [int]. *)
Definition isinstance_int (v : json) : bool :=
  match v with
  | JInt _ | JBool _ => true
  | _ => false
  end.

Definition isinstance_float (v : json) : bool :=
  match v with
  | JFloat _ => true
  | _ => false
  end.

Definition isinstance_bool (v : json) : bool :=
  match v with
  | JBool _ => true
  | _ => false
  end.

End Py.

(** ** Text encodings

    [open(path, 'r', encoding=...)] decodes the bytes of the file to code
    points.  [None] stands for [UnicodeDecodeError]. *)

Module Codec.

Definition cont (b : N) : bool := (128 <=? b)%N && (b <=? 191)%N.
Definition within (lo hi b : N) : bool := (lo <=? b)%N && (b <=? hi)%N.

(** Strict UTF-8: shortest forms only, no surrogates, at most U+10FFFF. *)
Fixpoint utf8 (bs : list N) : option (list N) :=
  match bs with
  | [] => Some []
  | b0 :: r0 =>
      if (b0 <? 128)%N then cons b0 <$> utf8 r0
      else if within 194 223 b0 then
        match r0 with
        | b1 :: r1 =>
            if cont b1
            then cons ((b0 - 192) * 64 + (b1 - 128))%N <$> utf8 r1
            else None
        | _ => None
        end
      else if within 224 239 b0 then
        match r0 with
        | b1 :: b2 :: r2 =>
            if within (if (b0 =? 224)%N then 160 else 128)
                      (if (b0 =? 237)%N then 159 else 191) b1 && cont b2
            then cons ((b0 - 224) * 4096 + (b1 - 128) * 64 + (b2 - 128))%N
                   <$> utf8 r2
            else None
        | _ => None
        end
      else if within 240 244 b0 then
        match r0 with
        | b1 :: b2 :: b3 :: r3 =>
            if within (if (b0 =? 240)%N then 144 else 128)
                      (if (b0 =? 244)%N then 143 else 191) b1
               && cont b2 && cont b3
            then cons ((b0 - 240) * 262144 + (b1 - 128) * 4096
                       + (b2 - 128) * 64 + (b3 - 128))%N <$> utf8 r3
            else None
        | _ => None
        end
      else None
  end.

(** ISO 8859-1: every byte is the code point of that number. *)
Definition latin1 (bs : list N) : option (list N) := Some bs.

(** The 32 positions in which Windows-1252 departs from ISO 8859-1; five
    of them are not assigned. *)
Definition cp1252_high : list (option N) :=
  [ Some 8364; None; Some 8218; Some 402; Some 8222; Some 8230; Some 8224;
    Some 8225; Some 710; Some 8240; Some 352; Some 8249; Some 338; None;
    Some 381; None; None; Some 8216; Some 8217; Some 8220; Some 8221;
    Some 8226; Some 8211; Some 8212; Some 732; Some 8482; Some 353;
    Some 8250; Some 339; None; Some 382; Some 376 ]%N.

Definition cp1252_char (b : N) : option N :=
  if within 128 159 b
  then mjoin (cp1252_high !! N.to_nat (b - 128))
  else Some b.

Definition cp1252 (bs : list N) : option (list N) := mapM cp1252_char bs.

Definition decode (encoding : string) (bytes : list byte) : option (list N) :=
  let bs := map Byte.to_N bytes in
  if String.eqb encoding "utf-8" then utf8 bs
  else if String.eqb encoding "latin-1" then latin1 bs
  else if String.eqb encoding "cp1252" then cp1252 bs
  else None.

End Codec.

(** ** What the script talks to *)

(** A statement handed to [cursor.execute]: the SQL text and the values
    bound to its [%s] placeholders. *)
Record statement : Type := Stmt { sql : string; params : list json }.

(** The database behind the psycopg2 connection.  A call that raises
    yields the text of the error. *)
Class Database (DB : Type) : Type := {
  db_connect : DB → option string;
  db_execute : DB → statement → DB * option string;
  db_fetchone : DB → json;
  db_commit : DB → DB * option string
}.

(** The parts of the Python library the script relies on: the codecs,
    [json.load] on the decoded text ([None]: [JSONDecodeError]),
    [json.dumps], and the order in which a [set] of strings is iterated,
    which is some listing of its members. *)
Class Runtime : Type := {
  codec_decode : string → list byte → option (list N);
  json_loads : list N → option json;
  json_dumps : json → string;
  set_order : gset string → list string;
  set_order_perm : ∀ s, set_order s ≡ₚ elements s
}.

(** What a run does to the outside, in order. *)
Inductive event : Type :=
| Print (text : string)
| PrintError (prefix : string) (e : exn)
| PrintValue (prefix : string) (v : json)
| PPrint (v : json)
| Progress (inserted total : nat)
| OpenRead (path encoding : string)
| WriteFile (path content : string)
| Input (prompt : string)
| Connect
| Execute (stmt : statement)
| Commit
| CursorClose
| ConnClose.

Record World (DB : Type) : Type := mkWorld {
  w_files : gmap string (list byte);
  w_readonly : gset string;
  w_stdin : list string;
  w_db : DB
}.
Arguments mkWorld {DB}.
Arguments w_files {DB}.
Arguments w_readonly {DB}.
Arguments w_stdin {DB}.
Arguments w_db {DB}.

Definition with_db {DB} (w : World DB) (db : DB) : World DB :=
  mkWorld (w_files w) (w_readonly w) (w_stdin w) db.

(** ** The monad of the script: state, trace and exceptions *)

Definition M (DB A : Type) : Type := World DB → result A * World DB * list event.

Definition ret {DB A} (a : A) : M DB A := λ w, (Ok a, w, []).

Definition raise {DB A} (e : exn) : M DB A := λ w, (Raise e, w, []).

Definition lift {DB A} (r : result A) : M DB A := λ w, (r, w, []).

Definition bind {DB A B} (m : M DB A) (k : A → M DB B) : M DB B := λ w,
  match m w with
  | (Ok a, w1, o1) => let '(r, w2, o2) := k a w1 in (r, w2, (o1 ++ o2)%list)
  | (Raise e, w1, o1) => (Raise e, w1, o1)
  end.

(** [try: m except ...: h e] *)
Definition catch {DB A} (m : M DB A) (h : exn → M DB A) : M DB A := λ w,
  match m w with
  | (Raise e, w1, o1) => let '(r, w2, o2) := h e w1 in (r, w2, (o1 ++ o2)%list)
  | returned => returned
  end.

Definition emit {DB} (e : event) : M DB unit := λ w, (Ok tt, w, [e]).

Notation "x <- m ;; k" := (bind m (λ x, k))
  (at level 100, m at next level, right associativity).
Notation "m ;; k" := (bind m (λ _, k))
  (at level 100, right associativity).

Definition rbind {A B} (r : result A) (k : A → result B) : result B :=
  match r with
  | Ok a => k a
  | Raise e => Raise e
  end.

Notation "'let?' x := r 'in' k" := (rbind r (λ x, k))
  (at level 100, x name, r at next level, right associativity).

(** [except ValueError] also catches its subclasses. *)
Definition is_ValueError (e : exn) : bool :=
  match e with
  | ValueError | UnicodeDecodeError | JSONDecodeError => true
  | _ => false
  end.

Section Script.

Context {DB : Type} `{!Database DB} `{!Runtime}.

Local Abbreviation M := (M DB).

(** *** Console, files, database *)

Definition print (text : string) : M unit := emit (Print text).

(** [input(prompt)]: the next line of standard input. *)
Definition input (prompt : string) : M string := λ w,
  match w_stdin w with
  | [] => (Raise EOFError, w, [Input prompt])
  | line :: rest =>
      (Ok line, mkWorld (w_files w) (w_readonly w) rest (w_db w), [Input prompt])
  end.

Definition read_bytes (path : string) : M (list byte) := λ w,
  match w_files w !! path with
  | Some bytes => (Ok bytes, w, [])
  | None => (Raise FileNotFoundError, w, [])
  end.

(** [with open(path, "w") as f: f.write(content)] *)
Definition write_text (path content : string) : M unit := λ w,
  if bool_decide (path ∈ w_readonly w) then (Raise OSError, w, [])
  else (Ok tt,
        mkWorld (<[path := list_byte_of_string content]> (w_files w))
                (w_readonly w) (w_stdin w) (w_db w),
        [WriteFile path content]).

Definition path_exists (path : string) : M bool := λ w,
  (Ok (bool_decide (is_Some (w_files w !! path))), w, []).

Definition cursor_execute (stmt : statement) : M unit := λ w,
  let '(db, err) := db_execute (w_db w) stmt in
  let w' := with_db w db in
  match err with
  | None => (Ok tt, w', [Execute stmt])
  | Some msg => (Raise (DatabaseError msg), w', [Execute stmt])
  end.

Definition conn_commit : M unit := λ w,
  let '(db, err) := db_commit (w_db w) in
  let w' := with_db w db in
  match err with
  | None => (Ok tt, w', [Commit])
  | Some msg => (Raise (DatabaseError msg), w', [Commit])
  end.

(** *** [examine_geojson] *)

Definition encodings_to_try : list string := ["utf-8"; "latin-1"; "cp1252"].

(** [with open(file_path, 'r', encoding=encoding) as f: data = json.load(f)] *)
Definition open_and_load (file_path encoding : string) : M json :=
  emit (OpenRead file_path encoding) ;;
  bytes <- read_bytes file_path ;;
  match codec_decode encoding bytes with
  | None => raise UnicodeDecodeError
  | Some text =>
      match json_loads text with
      | None => raise JSONDecodeError
      | Some data => ret data
      end
  end.

Definition could_not_decode : string :=
  "Could not decode file with any of these encodings: "
  +:+ PyStr.repr_list encodings_to_try.

(** The loop over the encodings (lines 21-29); [todo] is what is left of
    [encodings_to_try].  Leaving the loop without [break] would leave
    [data] unbound. *)
Fixpoint load_document (file_path : string) (todo : list string) : M json :=
  match todo with
  | [] => raise UnboundLocalError
  | encoding :: rest =>
      catch (open_and_load file_path encoding)
        (λ e, match e with
              | UnicodeDecodeError =>
                  if bool_decide (Some encoding = last encodings_to_try)
                  then raise (Exception could_not_decode)
                  else load_document file_path rest
              | _ => raise e
              end)
  end.

(** The set [geometry_types].  The labels that are strings are kept in a
    [gset]; the flag records that a label of another hashable type (a
    number, a boolean, [null]) was added, which makes [', '.join] raise
    before anything about the set is reported. *)
Definition type_set : Type := gset string * bool.

(** One turn of the loop of lines 39-41. *)
Definition add_geometry_type (feature : json) (acc : type_set)
  : result type_set :=
  let? has_geometry := Py.contains "geometry" feature in
  if has_geometry then
    let? geometry := Py.getitem feature "geometry" in
    let? has_type := Py.contains "type" geometry in
    if has_type then
      let? label := Py.getitem geometry "type" in
      match label with
      | JString s => Ok ({[ s ]} ∪ acc.1, acc.2)
      | JArray _ | JObject _ => Raise TypeError
      | _ => Ok (acc.1, true)
      end
    else Ok acc
  else Ok acc.

Fixpoint collect_geometry_types (features : list json) (acc : type_set)
  : result type_set :=
  match features with
  | [] => Ok acc
  | feature :: rest =>
      let? acc' := add_geometry_type feature acc in
      collect_geometry_types rest acc'
  end.

(** Lines 43-51. *)
Definition resolve_geometry_type (geometry_types : gset string)
  : option string :=
  if bool_decide ("MultiPolygon" ∈ geometry_types)
     || (bool_decide ("Polygon" ∈ geometry_types)
         && bool_decide ("MultiPolygon" ∈ geometry_types))
  then Some "MultiPolygon"
  else if bool_decide ("MultiLineString" ∈ geometry_types)
          || (bool_decide ("LineString" ∈ geometry_types)
              && bool_decide ("MultiLineString" ∈ geometry_types))
  then Some "MultiLineString"
  else if bool_decide ("MultiPoint" ∈ geometry_types)
          || (bool_decide ("Point" ∈ geometry_types)
              && bool_decide ("MultiPoint" ∈ geometry_types))
  then Some "MultiPoint"
  else if bool_decide (geometry_types ≠ ∅)
  then head (set_order geometry_types)
  else None.

Record geojson_info : Type := Info {
  feature_count : nat;
  geometry_type : option string;
  properties : json;
  raw_data : json
}.

(** Lines 35-41: the first feature's properties and the geometry types. *)
Definition scan_features (data : json) (feature_count : nat)
  : result (json * type_set) :=
  if (0 <? feature_count)%nat then
    let? features := Py.getitem data "features" in
    let? first_feature := Py.first features in
    let? properties := Py.get first_feature "properties" (JObject []) in
    let? all := Py.iter features in
    let? geometry_types := collect_geometry_types all (∅, false) in
    Ok (properties, geometry_types)
  else Ok (JNull, (∅, false)).

(** The body of the [try] of [examine_geojson]. *)
Definition examine_document (file_path : string) : M geojson_info :=
  data <- load_document file_path encodings_to_try ;;
  features <- lift (Py.get data "features" (JArray [])) ;;
  feature_count <- lift (Py.len features) ;;
  scanned <- lift (scan_features data feature_count) ;;
  let properties := scanned.1 in
  let geometry_types := scanned.2 in
  let geometry_type := resolve_geometry_type geometry_types.1 in
  print (PyStr.nl +:+ "GeoJSON Analysis:") ;;
  print ("Total features: " +:+ pretty feature_count) ;;
  (if geometry_types.2 then raise TypeError else ret tt) ;;
  print ("Geometry types found: "
         +:+ PyStr.join ", " (set_order geometry_types.1)) ;;
  print ("Selected geometry type for table: "
         +:+ default "None" geometry_type) ;;
  print "Properties structure:" ;;
  emit (PPrint properties) ;;
  ret (Info feature_count geometry_type properties data).

Definition examine_geojson (file_path : string) : M (option geojson_info) :=
  catch (info <- examine_document file_path ;; ret (Some info))
    (λ e, emit (PrintError "Error examining GeoJSON: " e) ;; ret None).

(** *** [ingest_geojson_to_postgis] *)

Definition postgis_type_map : gmap string string :=
  list_to_map
    [ ("Point", "POINT"); ("LineString", "LINESTRING");
      ("Polygon", "POLYGON"); ("MultiPoint", "MULTIPOINT");
      ("MultiLineString", "MULTILINESTRING");
      ("MultiPolygon", "MULTIPOLYGON") ].

(** [postgis_type_map.get(geometry_type, 'GEOMETRY')] *)
Definition postgis_type_of (geometry_type : option string) : string :=
  default "GEOMETRY" (geometry_type ≫= λ t, postgis_type_map !! t).

(** Lines 97-106: the SRID named by the CRS block of the document. *)
Definition detect_crs (raw_data : json) : M (option Z) :=
  has_crs <- lift (Py.contains "crs" raw_data) ;;
  if has_crs : bool then
    crs <- lift (Py.getitem raw_data "crs") ;;
    crs_type <- lift (Py.get crs "type" JNull) ;;
    named <- (if Py.is_str "name" crs_type
              then lift (Py.contains "properties" crs)
              else ret false) ;;
    if named : bool then
      crs_properties <- lift (Py.getitem crs "properties") ;;
      name <- lift (Py.get crs_properties "name" (JString EmptyString)) ;;
      has_epsg <- lift (Py.contains "EPSG" name) ;;
      if has_epsg : bool then
        catch
          (fields <- lift (Py.split name ":") ;;
           match PyStr.int (default EmptyString (last fields)) with
           | None => raise ValueError
           | Some srid =>
               print ("Detected source SRID: " +:+ pretty srid) ;;
               ret (Some srid)
           end)
          (λ e, if is_ValueError e then ret None else raise e)
      else ret None
    else ret None
  else ret None.

(** Lines 96-110. *)
Definition choose_source_srid (source_srid : option Z) (raw_data : json)
  : M Z :=
  match source_srid with
  | Some srid => ret srid
  | None =>
      detected <- detect_crs raw_data ;;
      match detected with
      | Some srid => ret srid
      | None =>
          print ("No CRS specified in GeoJSON. Assuming EPSG:"
                 +:+ pretty 4326%Z) ;;
          ret 4326%Z
      end
  end.

(** Lines 114-120. *)
Definition column_type (prop_value : json) : string :=
  if Py.isinstance_int prop_value then "INTEGER"
  else if Py.isinstance_float prop_value then "NUMERIC"
  else if Py.isinstance_bool prop_value then "BOOLEAN"
  else "TEXT".

Definition quoted (name : string) : string :=
  PyStr.dquote +:+ name +:+ PyStr.dquote.

(** Line 122. *)
Definition column (prop : string * json) : string :=
  quoted prop.1 +:+ " " +:+ column_type prop.2.

Definition indent8 : string := "        ".
Definition indent12 : string := "            ".
Definition indent16 : string := "                ".

(** Lines 125-131. *)
Definition create_table_statement
  (table_name columns_sql postgis_type : string) (target_srid : Z) : string :=
  PyStr.nl
  +:+ indent8 +:+ "CREATE TABLE IF NOT EXISTS " +:+ table_name +:+ " ("
  +:+ PyStr.nl
  +:+ indent12 +:+ "id SERIAL PRIMARY KEY," +:+ PyStr.nl
  +:+ indent12 +:+ columns_sql +:+ "," +:+ PyStr.nl
  +:+ indent12 +:+ "geom GEOMETRY(" +:+ postgis_type +:+ ", "
  +:+ pretty target_srid +:+ ")" +:+ PyStr.nl
  +:+ indent8 +:+ ");" +:+ PyStr.nl
  +:+ indent8.

(** Lines 164-172. *)
Definition insert_statement
  (table_name : string) (prop_names placeholders : list string)
  (source_srid target_srid : Z) : string :=
  PyStr.nl
  +:+ indent12 +:+ "INSERT INTO " +:+ table_name +:+ " (" +:+ PyStr.nl
  +:+ indent16 +:+ PyStr.join ", " prop_names +:+ "," +:+ PyStr.nl
  +:+ indent16 +:+ "geom" +:+ PyStr.nl
  +:+ indent12 +:+ ") VALUES (" +:+ PyStr.nl
  +:+ indent16 +:+ PyStr.join ", " placeholders +:+ "," +:+ PyStr.nl
  +:+ indent16 +:+ "ST_Transform(ST_SetSRID(ST_GeomFromGeoJSON(%s), "
  +:+ pretty source_srid +:+ "), " +:+ pretty target_srid +:+ ")"
  +:+ PyStr.nl
  +:+ indent12 +:+ ");" +:+ PyStr.nl
  +:+ indent12.

Definition structure_file (table_name : string) : string :=
  table_name +:+ "_table_structure.sql".

Definition confirm_prompt : string :=
  PyStr.nl +:+ "Do you want to create the table and insert data? (yes/no): ".

(** [proceed in ["yes", "y"]] *)
Definition confirmed (proceed : string) : bool :=
  String.eqb proceed "yes" || String.eqb proceed "y".

(** Lines 155-172: the statement that inserts one feature. *)
Definition row_statement
  (table_name : string) (source_srid target_srid : Z) (feature : json)
  : result statement :=
  let? feature_props := Py.get feature "properties" (JObject []) in
  let? members := Py.items feature_props in
  let prop_names := map (λ kv, quoted kv.1) members in
  let placeholders := replicate (length prop_names) "%s" in
  let prop_values := map snd members in
  let? geometry := Py.get feature "geometry" (JObject []) in
  let geometry_json := json_dumps geometry in
  let insert_sql :=
    insert_statement table_name prop_names placeholders
      source_srid target_srid in
  Ok (Stmt insert_sql (prop_values ++ [JString geometry_json])).

(** [inserted % 100 == 0 or inserted == total] *)
Definition progress_due (inserted total : nat) : bool :=
  (inserted mod 100 =? 0)%nat || (inserted =? total)%nat.

(** One turn of the loop of lines 154-183; the result is the new value of
    [inserted]. *)
Definition insert_feature
  (table_name : string) (source_srid target_srid : Z) (total : nat)
  (feature : json) (inserted : nat) : M nat :=
  row <- lift (row_statement table_name source_srid target_srid feature) ;;
  catch
    (cursor_execute row ;;
     let inserted := S inserted in
     (if progress_due inserted total
      then emit (Progress inserted total)
      else ret tt) ;;
     ret inserted)
    (λ e, emit (PrintError "Error inserting feature: " e) ;; ret inserted).

Fixpoint insert_features
  (table_name : string) (source_srid target_srid : Z) (total : nat)
  (features : list json) (inserted : nat) : M nat :=
  match features with
  | [] => ret inserted
  | feature :: rest =>
      inserted' <- insert_feature table_name source_srid target_srid total
                     feature inserted ;;
      insert_features table_name source_srid target_srid total rest inserted'
  end.

Definition completed_message (inserted total : nat) : string :=
  PyStr.nl +:+ "Completed: " +:+ pretty inserted +:+ " out of "
  +:+ pretty total +:+ " features inserted successfully.".

Definition transformed_message (source_srid target_srid : Z) : string :=
  "Data was automatically transformed from EPSG:" +:+ pretty source_srid
  +:+ " to EPSG:" +:+ pretty target_srid.

(** Lines 146-189: what follows a positive answer. *)
Definition create_and_load
  (table_name create_table_sql : string) (source_srid target_srid : Z)
  (raw_data : json) : M bool :=
  cursor_execute (Stmt create_table_sql []) ;;
  features <- lift (Py.getitem raw_data "features") ;;
  total <- lift (Py.len features) ;;
  print (PyStr.nl +:+ "Inserting " +:+ pretty total
         +:+ " features into the database...") ;;
  all <- lift (Py.iter features) ;;
  inserted <- insert_features table_name source_srid target_srid total all 0 ;;
  conn_commit ;;
  print (completed_message inserted total) ;;
  print (transformed_message source_srid target_srid) ;;
  ret true.

(** Lines 80-138, once [examine_geojson] has returned [info]: the table
    layout is derived, shown and written to the side file.  The result is
    [create_table_sql] and the source SRID.  Opening the cursor (line 80)
    sends nothing to the database and leaves no event. *)
Definition plan_table
  (table_name : string) (info : geojson_info)
  (source_srid : option Z) (target_srid : Z) : M (string * Z) :=
  let postgis_type := postgis_type_of (geometry_type info) in
  source_srid <- choose_source_srid source_srid (raw_data info) ;;
  members <- lift (Py.items (properties info)) ;;
  let columns := map column members in
  let columns_sql := PyStr.join ", " columns in
  let create_table_sql :=
    create_table_statement table_name columns_sql postgis_type target_srid in
  print (PyStr.nl +:+ "Proposed table structure:") ;;
  print create_table_sql ;;
  print ("Source SRID: " +:+ pretty source_srid +:+ ", Target SRID: "
         +:+ pretty target_srid) ;;
  write_text (structure_file table_name) create_table_sql ;;
  ret (create_table_sql, source_srid).

(** Lines 140-146: the question, and what follows either answer. *)
Definition confirm_and_load
  (table_name create_table_sql : string) (source_srid target_srid : Z)
  (raw_data : json) : M bool :=
  answer <- input confirm_prompt ;;
  let proceed := PyStr.lower answer in
  if negb (confirmed proceed) then
    print "Operation cancelled by user." ;;
    ret false
  else
    create_and_load table_name create_table_sql source_srid target_srid
      raw_data.

(** Lines 80-189. *)
Definition ingest_document
  (table_name : string) (info : geojson_info)
  (source_srid : option Z) (target_srid : Z) : M bool :=
  planned <- plan_table table_name info source_srid target_srid ;;
  confirm_and_load table_name planned.1 planned.2 target_srid (raw_data info).

Definition ingest_geojson_to_postgis
  (file_path table_name : string) (source_srid : option Z) (target_srid : Z)
  : M bool :=
  catch
    (let table_name := PyStr.replace "-" "_" table_name in
     geojson_info <- examine_geojson file_path ;;
     match geojson_info with
     | None => ret false
     | Some info => ingest_document table_name info source_srid target_srid
     end)
    (λ e, emit (PrintError "Error ingesting GeoJSON: " e) ;; ret false).

(** *** The script itself (lines 195-225) *)

(** [psycopg2.connect] with the parameters of [db_params]. *)
Definition connect : M unit := λ w,
  match db_connect (w_db w) with
  | None => (Ok tt, w, [Connect])
  | Some msg => (Raise (DatabaseError msg), w, [])
  end.

Definition fetchone : M json := λ w, (Ok (db_fetchone (w_db w)), w, []).

(** [int(s) if s and s.isdigit() else fallback] *)
Definition srid_of_answer (s : string) (fallback : option Z) : M (option Z) :=
  if negb (String.eqb s EmptyString) && PyStr.isdigit s then
    match PyStr.int s with
    | Some n => ret (Some n)
    | None => raise ValueError
    end
  else ret fallback.

Definition main_body : M unit :=
  connect ;;
  cursor_execute (Stmt "SELECT postgis_version();" []) ;;
  version <- fetchone ;;
  version0 <- lift (Py.first version) ;;
  emit (PrintValue "Connected to PostGIS version: " version0) ;;
  geojson_file <- input "Enter the path to your GeoJSON file: " ;;
  found <- path_exists geojson_file ;;
  (if found : bool then
     table_name <- input "Enter the name for the PostGIS table: " ;;
     source <- input "Enter source SRID (press Enter for auto-detection): " ;;
     source_srid <- srid_of_answer source None ;;
     target <- input "Enter target SRID (press Enter for 4326/WGS84): " ;;
     target_srid <- srid_of_answer target (Some 4326%Z) ;;
     ingest_geojson_to_postgis geojson_file table_name source_srid
       (default 4326%Z target_srid) ;;
     ret tt
   else print ("File not found: " +:+ geojson_file)) ;;
  emit CursorClose ;;
  emit ConnClose.

Definition main_script : M unit :=
  catch main_body (λ e, emit (PrintError "Error: " e)).

End Script.

Arguments progress_due : simpl never.

(** ** A runtime and a database to run the model on examples *)

Module Fixture.

(** JSON text is written with apostrophes in place of double quotes. *)
Definition text (s : string) : string :=
  PyStr.replace "'" (ascii_of_nat 34) s.

Definition bytes_of (s : string) : list byte := list_byte_of_string s.

Definition code_points (s : string) : list N :=
  map Byte.to_N (list_byte_of_string s).

Definition point (x y : Z) : json :=
  JObject [("type", JString "Point"); ("coordinates", JArray [JInt x; JInt y])].

Definition geometry (label : string) : json :=
  JObject [("type", JString label); ("coordinates", JArray [])].

Definition feature (geom : json) (props : list (string * json)) : json :=
  JObject [("type", JString "Feature"); ("geometry", geom);
           ("properties", JObject props)].

Definition collection (features : list json) : json :=
  JObject [("type", JString "FeatureCollection"); ("features", JArray features)].

(** Three parcels, all of them plain polygons. *)
Definition parcels_text : string :=
  text "{'type': 'FeatureCollection', 'features': [{'type': 'Feature', 'geometry': {'type': 'Polygon', 'coordinates': []}, 'properties': {'id': 1}}, {'type': 'Feature', 'geometry': {'type': 'Polygon', 'coordinates': []}, 'properties': {'id': 2}}, {'type': 'Feature', 'geometry': {'type': 'Polygon', 'coordinates': []}, 'properties': {'id': 3}}]}".

Definition parcels : json :=
  collection
    [ feature (geometry "Polygon") [("id", JInt 1)];
      feature (geometry "Polygon") [("id", JInt 2)];
      feature (geometry "Polygon") [("id", JInt 3)] ].

(** Two districts, the second one made of several polygons. *)
Definition districts_text : string :=
  text "{'type': 'FeatureCollection', 'features': [{'type': 'Feature', 'geometry': {'type': 'Polygon', 'coordinates': []}, 'properties': {'id': 1}}, {'type': 'Feature', 'geometry': {'type': 'MultiPolygon', 'coordinates': []}, 'properties': {'id': 2}}]}".

Definition districts : json :=
  collection
    [ feature (geometry "Polygon") [("id", JInt 1)];
      feature (geometry "MultiPolygon") [("id", JInt 2)] ].

(** An empty collection whose name has the byte 0xE9, an e with an acute
    accent in ISO 8859-1 and not valid UTF-8. *)
Definition e_acute : string := String (ascii_of_nat 233) EmptyString.

Definition cafe_text : string :=
  text "{'type': 'FeatureCollection', 'name': 'caf" +:+ e_acute
  +:+ text "', 'features': []}".

Definition cafe : json :=
  JObject [("type", JString "FeatureCollection");
           ("name", JString ("caf" +:+ String (ascii_of_nat 195)
                                     (String (ascii_of_nat 169) EmptyString)));
           ("features", JArray [])].

(** Three labelled points; the label of the second one is an object. *)
Definition stations_text : string :=
  text "{'type': 'FeatureCollection', 'features': [{'type': 'Feature', 'geometry': {'type': 'Point', 'coordinates': [1, 2]}, 'properties': {'label': 'A'}}, {'type': 'Feature', 'geometry': {'type': 'Point', 'coordinates': [3, 4]}, 'properties': {'label': {'nested': 'B'}}}, {'type': 'Feature', 'geometry': {'type': 'Point', 'coordinates': [5, 6]}, 'properties': {'label': 'C'}}]}".

Definition stations : json :=
  collection
    [ feature (point 1 2) [("label", JString "A")];
      feature (point 3 4) [("label", JObject [("nested", JString "B")])];
      feature (point 5 6) [("label", JString "C")] ].

(** One point whose properties have the four scalar types. *)
Definition typed_text : string :=
  text "{'type': 'FeatureCollection', 'features': [{'type': 'Feature', 'geometry': {'type': 'Point', 'coordinates': [1, 2]}, 'properties': {'a': true, 'b': 3, 'c': 1.5, 'd': 'x'}}]}".

Definition typed_properties : list (string * json) :=
  [ ("a", JBool true); ("b", JInt 3);
    ("c", JFloat (S754_finite false 3 (-1))); ("d", JString "x") ].

Definition typed : json := collection [feature (point 1 2) typed_properties].

(** One point in Web Mercator, declared by a CRS block. *)
Definition mercator_text : string :=
  text "{'type': 'FeatureCollection', 'crs': {'type': 'name', 'properties': {'name': 'urn:ogc:def:crs:EPSG::3857'}}, 'features': [{'type': 'Feature', 'geometry': {'type': 'Point', 'coordinates': [1, 2]}, 'properties': {'label': 'A'}}]}".

Definition mercator_crs : json :=
  JObject [("type", JString "name");
           ("properties",
            JObject [("name", JString "urn:ogc:def:crs:EPSG::3857")])].

Definition mercator : json :=
  JObject [("type", JString "FeatureCollection"); ("crs", mercator_crs);
           ("features",
            JArray [feature (point 1 2) [("label", JString "A")]])].

(** [json.load] on the texts above. *)
Definition documents : list (list N * json) :=
  [ (code_points parcels_text, parcels);
    (code_points districts_text, districts);
    (code_points cafe_text, cafe);
    (code_points stations_text, stations);
    (code_points typed_text, typed);
    (code_points mercator_text, mercator) ].

Fixpoint lookup_text (t : list N) (table : list (list N * json)) : option json :=
  match table with
  | [] => None
  | (t', doc) :: rest => if bool_decide (t = t') then Some doc else lookup_text t rest
  end.

(** [json.dumps] with its default separators; strings are written
    without escapes and floats are not written out. *)
Fixpoint dumps (v : json) : string :=
  match v with
  | JNull => "null"
  | JBool true => "true"
  | JBool false => "false"
  | JInt n => pretty n
  | JFloat _ => "<float>"
  | JString s => PyStr.dquote +:+ s +:+ PyStr.dquote
  | JArray items => "[" +:+ PyStr.join ", " (map dumps items) +:+ "]"
  | JObject members =>
      "{" +:+ PyStr.join ", "
                (map (λ kv, PyStr.dquote +:+ kv.1 +:+ PyStr.dquote +:+ ": "
                            +:+ dumps kv.2) members)
      +:+ "}"
  end.

#[export] Instance runtime : Runtime := {|
  codec_decode := Codec.decode;
  json_loads := λ t, lookup_text t documents;
  json_dumps := dumps;
  set_order := elements;
  set_order_perm := λ s, reflexivity (elements s)
|}.

(** A database that keeps the statements it has accepted.  It refuses a
    statement one of whose values is an object, as psycopg2 does for a
    [dict] it cannot adapt. *)
Record store : Type := Store {
  pending : list statement;
  durable : list statement
}.

Definition adaptable (v : json) : bool :=
  match v with
  | JObject _ => false
  | _ => true
  end.

#[export] Instance database : Database store := {|
  db_connect := λ _, None;
  db_execute := λ db stmt,
    if forallb adaptable (params stmt)
    then (Store (pending db ++ [stmt]) (durable db), None)
    else (db, Some "can't adapt type 'dict'");
  db_fetchone := λ _, JArray [JString "3.4 USE_GEOS=1 USE_PROJ=1 USE_STATS=1"];
  db_commit := λ db, (Store [] (durable db ++ pending db), None)
|}.

Definition world (path content : string) (stdin : list string) : World store :=
  mkWorld {[ path := bytes_of content ]} ∅ stdin (Store [] []).

(** A server that accepts the connection but has no PostGIS extension:
    the version query fails. *)
Inductive plain_postgres : Type := PlainPostgres.

Definition no_postgis : string :=
  "function postgis_version() does not exist".

#[export] Instance plain_database : Database plain_postgres := {|
  db_connect := λ _, None;
  db_execute := λ db _, (db, Some no_postgis);
  db_fetchone := λ _, JNull;
  db_commit := λ db, (db, None)
|}.

(** A runtime whose three codecs read 7-bit text only, to run the last
    turn of the loop over the encodings. *)
Definition seven_bit (bytes : list byte) : option (list N) :=
  mapM (λ b, if (Byte.to_N b <? 128)%N then Some (Byte.to_N b) else None) bytes.

Definition seven_bit_runtime : Runtime := {|
  codec_decode := λ _, seven_bit;
  json_loads := λ t, lookup_text t documents;
  json_dumps := dumps;
  set_order := elements;
  set_order_perm := λ s, reflexivity (elements s)
|}.

(** The runs used below. *)
Definition parcels_world : World store := world "parcels.geojson" parcels_text [].
Definition districts_world : World store :=
  world "districts.geojson" districts_text [].
Definition cafe_world : World store := world "cafe.geojson" cafe_text [].
Definition stations_world : World store :=
  world "stations.geojson" stations_text ["YES"].
Definition declined_world : World store :=
  world "typed.geojson" typed_text ["no"].
Definition mercator_world : World store :=
  world "mercator.geojson" mercator_text ["y"].

(** A file that is valid UTF-8 and not JSON: an opening brace alone. *)
Definition broken_text : string := "{".
Definition broken_world : World store := world "broken.geojson" broken_text [].

End Fixture.

(** ** Notions used to state the properties *)

(** The CRS block of a document in Web Mercator. *)
Definition epsg_3857_crs : json :=
  JObject [("type", JString "name");
           ("properties",
            JObject [("name", JString "urn:ogc:def:crs:EPSG::3857")])].

(** Events that only show something on the console or read a file. *)
Definition quiet (e : event) : Prop :=
  match e with
  | Print _ | PrintError _ _ | PrintValue _ _ | PPrint _ | Progress _ _
  | OpenRead _ _ => True
  | _ => False
  end.

(** The statements handed to [cursor.execute], in order. *)
Definition attempts (o : list event) : list statement :=
  omap (λ e, match e with Execute s => Some s | _ => None end) o.

(** The errors reported on the console, in order. *)
Definition reported (o : list event) : list (string * exn) :=
  omap (λ e, match e with PrintError p x => Some (p, x) | _ => None end) o.

Definition commits (o : list event) : nat :=
  length (omap (λ e, match e with Commit => Some tt | _ => None end) o).

(** A feature whose geometry carries the type [label]. *)
Definition has_label (feature : json) (label : string) : Prop :=
  ∃ members geometry,
    feature = JObject members
    ∧ Py.assoc "geometry" members = Some (JObject geometry)
    ∧ Py.assoc "type" geometry = Some (JString label).

(** What line 40 sees of a feature that is an object.  With a geometry
    that is an object whose type is the string [label], the feature is
    marked [Some label]; without a geometry member, or with a geometry
    that is an object without a type member, it is skipped and marked
    [None]. *)
Definition marked (feature : json) (mark : option string) : Prop :=
  ∃ members,
    feature = JObject members
    ∧ match mark with
      | Some label =>
          ∃ geometry,
            Py.assoc "geometry" members = Some (JObject geometry)
            ∧ Py.assoc "type" geometry = Some (JString label)
      | None =>
          Py.assoc "geometry" members = None
          ∨ ∃ geometry,
              Py.assoc "geometry" members = Some (JObject geometry)
              ∧ Py.assoc "type" geometry = None
      end.

(** A feature from which a row can be built: an object whose properties,
    when it has any, are an object. *)
Definition is_feature (feature : json) : Prop :=
  ∃ members,
    feature = JObject members
    ∧ match Py.assoc "properties" members with
      | Some v => ∃ props, v = JObject props
      | None => True
      end.

Definition multi_labels : list string :=
  ["MultiPolygon"; "MultiLineString"; "MultiPoint"].

Section Replay.

Context {DB : Type} `{!Database DB}.

(** What the database answers to a sequence of statements: for each one
    the error it raises, if any. *)
Fixpoint replay (db : DB) (stmts : list statement) : list (option string) :=
  match stmts with
  | [] => []
  | s :: rest => let '(db', err) := db_execute db s in err :: replay db' rest
  end.

Fixpoint db_after (db : DB) (stmts : list statement) : DB :=
  match stmts with
  | [] => db
  | s :: rest => db_after (db_execute db s).1 rest
  end.

End Replay.

Definition accepted (answers : list (option string)) : nat :=
  length (filter (λ a, a = None) answers).

Definition refusals (answers : list (option string)) : list (string * exn) :=
  omap (λ a, (λ msg, ("Error inserting feature: ", DatabaseError msg)) <$> a)
       answers.

(** Events that show something other than an error, or read a file. *)
Definition plain (e : event) : Prop :=
  match e with
  | Print _ | PPrint _ | OpenRead _ _ => True
  | _ => False
  end.

(** Exceptions raised by the operations of Python objects. *)
Definition builtin (e : exn) : Prop :=
  match e with
  | AttributeError | TypeError | KeyError | IndexError | ValueError => True
  | _ => False
  end.

Definition not_Exception (e : exn) : Prop :=
  match e with
  | Exception _ => False
  | _ => True
  end.

(** The text of the CREATE TABLE statement, character by character as
    the literal of lines 125-131 lays it out around the table name, the
    columns, the geometry type and the target SRID. *)
Definition create_table_text
           (table_name columns_sql postgis_type : string) (target_srid : Z)
  : string :=
  PyStr.nl
  +:+ "        CREATE TABLE IF NOT EXISTS " +:+ table_name +:+ " (" +:+ PyStr.nl
  +:+ "            id SERIAL PRIMARY KEY," +:+ PyStr.nl
  +:+ "            " +:+ columns_sql +:+ "," +:+ PyStr.nl
  +:+ "            geom GEOMETRY(" +:+ postgis_type +:+ ", "
  +:+ pretty target_srid +:+ ")" +:+ PyStr.nl
  +:+ "        );" +:+ PyStr.nl
  +:+ "        ".

(** The text of an INSERT statement, character by character as the
    literal of lines 164-172 lays it out: the geometry is read from its
    GeoJSON form, given the source SRID and transformed to the target
    SRID. *)
Definition insert_text
           (table_name : string) (prop_names placeholders : list string)
           (source_srid target_srid : Z) : string :=
  PyStr.nl
  +:+ "            INSERT INTO " +:+ table_name +:+ " (" +:+ PyStr.nl
  +:+ "                " +:+ PyStr.join ", " prop_names +:+ "," +:+ PyStr.nl
  +:+ "                geom" +:+ PyStr.nl
  +:+ "            ) VALUES (" +:+ PyStr.nl
  +:+ "                " +:+ PyStr.join ", " placeholders +:+ "," +:+ PyStr.nl
  +:+ "                ST_Transform(ST_SetSRID(ST_GeomFromGeoJSON(%s), "
  +:+ pretty source_srid +:+ "), " +:+ pretty target_srid +:+ ")" +:+ PyStr.nl
  +:+ "            );" +:+ PyStr.nl
  +:+ "            ".

(** Every statement and every written file of the trace carries
    [table_name] in its text: a statement is the CREATE TABLE text or an
    INSERT text around this name, and a file is named by this name
    followed by _table_structure.sql. *)
Definition names_table (table_name : string) (target_srid : Z) (e : event)
  : Prop :=
  match e with
  | Execute s =>
      (∃ columns_sql postgis_type,
          s = Stmt (create_table_text table_name columns_sql postgis_type
                      target_srid) [])
      ∨ (∃ prop_names placeholders source_srid,
            sql s = insert_text table_name prop_names placeholders
                      source_srid target_srid)
  | WriteFile path _ => path = table_name +:+ "_table_structure.sql"
  | _ => True
  end.

Section Obeys.

Context {DB : Type}.

(** [m] relates the world it starts in to the one it leaves by [Q],
    emits only events of [P] and raises only exceptions of [E]. *)
Definition obeys {A} (Q : relation (World DB)) (P : event → Prop)
           (E : exn → Prop) (m : M DB A) : Prop :=
  ∀ w, Q w (m w).1.2
       ∧ Forall P (m w).2
       ∧ ∀ e, (m w).1.1 = Raise e → E e.

Definition same_files : relation (World DB) :=
  λ w w', w_files w' = w_files w.

End Obeys.

(** ** The other scripts: [main.py] and [list_tables.py] *)

(** The rows a cursor holds after a statement, as [fetchall] returns them:
    a list of tuples. *)
Class Fetch (DB : Type) : Type := {
  db_fetchall : DB → list (list json)
}.

(** The parts of the Python library used to show values:
    [tabulate(rows, headers=..., tablefmt="grid")] and [str(value)]. *)
Class Display : Type := {
  tabulate_grid : list string → list (list json) → string;
  py_str : json → string
}.

Module PyValue.

(** The truth value of an object in a condition. *)
Definition truthy (v : json) : bool :=
  match v with
  | JNull => false
  | JBool b => b
  | JInt n => negb (n =? 0)%Z
  | JFloat (S754_zero _) => false
  | JFloat _ => true
  | JString s => negb (String.eqb s EmptyString)
  | JArray items => negb (bool_decide (items = []))
  | JObject members => negb (bool_decide (members = []))
  end.

(** [v += text] for a string [text]: a string is extended, a list
    receives the characters of [text], nothing else can be added to. *)
Definition iadd_str (v : json) (text : string) : result json :=
  match v with
  | JString s => Ok (JString (s +:+ text))
  | JArray items =>
      Ok (JArray (items ++ map (λ c, JString (String c EmptyString))
                               (list_ascii_of_string text)))
  | _ => Raise TypeError
  end.

End PyValue.

Section MainPy.

Context {DB : Type} `{!Database DB}.

Local Abbreviation M := (M DB).

(** The [try] body of [main.py] (lines 14-24). *)
Definition version_check_body : M unit :=
  connect ;;
  cursor_execute (Stmt "SELECT postgis_version();" []) ;;
  version <- fetchone ;;
  version0 <- lift (Py.first version) ;;
  emit (PrintValue "Connected to PostGIS version: " version0) ;;
  emit CursorClose ;;
  emit ConnClose.

(** [main.py]. *)
Definition version_check : M unit :=
  catch version_check_body (λ e, emit (PrintError "Error: " e)).

End MainPy.

(** Lines 23-34: the user tables of the database. *)
Definition tables_query : string :=
  PyStr.join PyStr.nl
    [ EmptyString;
      "            SELECT ";
      "                table_schema, ";
      "                table_name ";
      "            FROM ";
      "                information_schema.tables ";
      "            WHERE ";
      "                table_schema NOT IN ('pg_catalog', 'information_schema') ";
      "                AND table_type = 'BASE TABLE'";
      "            ORDER BY ";
      "                table_schema, table_name;";
      "        " ].

(** Lines 50-62: the columns of one table, bound to [%s]. *)
Definition columns_query : string :=
  PyStr.join PyStr.nl
    [ EmptyString;
      "                SELECT ";
      "                    column_name, ";
      "                    data_type, ";
      "                    character_maximum_length,";
      "                    is_nullable";
      "                FROM ";
      "                    information_schema.columns ";
      "                WHERE ";
      "                    table_name = %s";
      "                ORDER BY ";
      "                    ordinal_position;";
      "            " ].

(** Lines 80-90: the geometry columns of one table, bound to [%s]. *)
Definition geometry_query : string :=
  PyStr.join PyStr.nl
    [ EmptyString;
      "                    SELECT ";
      "                        f_geometry_column, ";
      "                        type, ";
      "                        srid,";
      "                        coord_dimension";
      "                    FROM ";
      "                        geometry_columns ";
      "                    WHERE ";
      "                        f_table_name = %s;";
      "                " ].

Section ListTables.

Context {DB : Type} `{!Database DB} `{!Fetch DB} `{!Display}.

Local Abbreviation M := (M DB).

Definition fetchall : M (list (list json)) := λ w,
  (Ok (db_fetchall (w_db w)), w, []).

(** Lines 70-74: one row of [formatted_columns]. *)
Definition format_column (col : list json) : result (list json) :=
  match col with
  | [name; dtype; max_length; nullable] =>
      let? type_info :=
        (if PyValue.truthy max_length
         then PyValue.iadd_str dtype ("(" +:+ py_str max_length +:+ ")")
         else Ok dtype) in
      Ok [name; type_info;
          JString (if Py.is_str "YES" nullable then "YES" else "NO")]
  | _ => Raise ValueError
  end.

(** The loop of lines 69-74. *)
Fixpoint format_columns (columns : list (list json))
  : result (list (list json)) :=
  match columns with
  | [] => Ok []
  | col :: rest =>
      let? row := format_column col in
      let? rows := format_columns rest in
      Ok (row :: rows)
  end.

(** Line 101. *)
Definition count_query (table_info : string) : string :=
  "SELECT COUNT(*) FROM " +:+ table_info +:+ ";".

Definition schema_prompt : string :=
  PyStr.nl +:+ "Enter a table name to see its schema (or press Enter to skip): ".

(** Lines 66-105: what is shown of the table [table_info], whose columns
    are [columns]. *)
Definition describe_table (table_info : string) (columns : list (list json))
  : M unit :=
  if bool_decide (columns = []) then
    print ("Table '" +:+ table_info +:+ "' not found or has no columns.")
  else
    formatted_columns <- lift (format_columns columns) ;;
    print (PyStr.nl +:+ "Schema for table '" +:+ table_info +:+ "':") ;;
    print (tabulate_grid ["Column"; "Data Type"; "Nullable"] formatted_columns) ;;
    cursor_execute (Stmt geometry_query [JString table_info]) ;;
    geometry_info <- fetchall ;;
    (if bool_decide (geometry_info = []) then ret tt
     else
       print (PyStr.nl +:+ "Geometry Information:") ;;
       print (tabulate_grid ["Geometry Column"; "Type"; "SRID"; "Dimensions"]
                geometry_info)) ;;
    cursor_execute (Stmt (count_query table_info) []) ;;
    row <- fetchone ;;
    row_count <- lift (Py.first row) ;;
    emit (PrintValue (PyStr.nl +:+ "Total rows: ") row_count).

(** Lines 42-108: the tables are shown, the operator is asked for one of
    them, and the cursor and the connection are closed. *)
Definition show_tables (tables : list (list json)) : M unit :=
  print (PyStr.nl +:+ "Found " +:+ pretty (length tables)
         +:+ " tables in the database:") ;;
  print (tabulate_grid ["Schema"; "Table Name"] tables) ;;
  table_info <- input schema_prompt ;;
  (if String.eqb table_info EmptyString then ret tt
   else
     cursor_execute (Stmt columns_query [JString table_info]) ;;
     columns <- fetchall ;;
     describe_table table_info columns) ;;
  emit CursorClose ;;
  emit ConnClose.

(** The [try] body of [list_tables] (lines 16-108); the [return] of line
    40 leaves the function before the connection is closed. *)
Definition list_tables_body : M unit :=
  connect ;;
  print "Connected to PostgreSQL database." ;;
  cursor_execute (Stmt tables_query []) ;;
  tables <- fetchall ;;
  if bool_decide (tables = []) then print "No tables found in the database."
  else show_tables tables.

(** [list_tables]. *)
Definition list_tables : M unit :=
  catch list_tables_body (λ e, emit (PrintError "Error: " e)).

End ListTables.

(** Any change of the world. *)
Definition any_change {DB} : relation (World DB) := λ _ _, True.

(** Events other than opening or closing the connection or the cursor. *)
Definition within_session (e : event) : Prop :=
  match e with
  | Connect | CursorClose | ConnClose => False
  | _ => True
  end.

(** The statements of the trace are the CREATE TABLE text of
    [table_name], which declares [target_srid], or INSERT texts of
    [table_name] that transform from [source_srid] to [target_srid]. *)
Definition uses_srids (table_name : string) (source_srid target_srid : Z)
           (e : event) : Prop :=
  match e with
  | Execute s =>
      (∃ columns_sql postgis_type,
          s = Stmt (create_table_text table_name columns_sql postgis_type
                      target_srid) [])
      ∨ (∃ prop_names placeholders,
            sql s = insert_text table_name prop_names placeholders
                      source_srid target_srid)
  | _ => True
  end.


(** Every character of [s] passes the test [p]. *)
Fixpoint all_chars (p : ascii → bool) (s : string) : bool :=
  match s with
  | EmptyString => true
  | String c r => p c && all_chars p r
  end.

(** A run that closes the cursor and then the connection at its end,
    or raises, with nothing but events within the session before. *)
Definition ends_session {DB A} (run : result A * World DB * list event)
  : Prop :=
  match run.1.1 with
  | Ok _ =>
      ∃ body, run.2 = (body ++ [CursorClose; ConnClose])%list
              ∧ Forall within_session body
  | Raise _ => Forall within_session run.2
  end.

(** The trace of a script that connected, worked and closed the cursor
    and the connection, once each and last. *)
Definition closed_session (o : list event) : Prop :=
  ∃ body, o = (Connect :: body ++ [CursorClose; ConnClose])%list
          ∧ Forall within_session body.

(** The trace of a script whose handler printed the error [e]: the
    connection was not made, or it was made and is not closed. *)
Definition failed_session (o : list event) : Prop :=
  ∃ body e,
    o = (body ++ [PrintError "Error: " e])%list
    ∧ (body = [] ∨ ∃ body', body = Connect :: body'
                            ∧ Forall within_session body').

(** The statements [list_tables] can execute when the operator names
    the table [table_info], in the order of the source. *)
Definition catalog_statements (table_info : string) : list statement :=
  [ Stmt tables_query [];
    Stmt columns_query [JString table_info];
    Stmt geometry_query [JString table_info];
    Stmt ("SELECT COUNT(*) FROM " +:+ table_info +:+ ";") [] ].

(** The trace of [list_tables] on a database without user tables. *)
Definition no_tables_trace : list event :=
  [ Connect; Print "Connected to PostgreSQL database.";
    Execute (Stmt tables_query []);
    Print "No tables found in the database." ].

(** A row of [information_schema.columns] from which a row of the schema
    table is made. *)
Definition formatted `{!Display} (col row : list json) : Prop :=
  ∃ name dtype max_length nullable type_info,
    col = [name; dtype; max_length; nullable]
    ∧ row = [name; type_info;
             JString (if Py.is_str "YES" nullable then "YES" else "NO")]
    ∧ (if PyValue.truthy max_length
       then PyValue.iadd_str dtype ("(" +:+ py_str max_length +:+ ")")
            = Ok type_info
       else type_info = dtype).

(** A row of [information_schema.columns] on which the loop of lines
    69-74 fails with [e]. *)
Definition unformattable (e : exn) (col : list json) : Prop :=
  (e = ValueError ∧ length col ≠ 4)
  ∨ (e = TypeError
     ∧ ∃ name dtype max_length nullable,
         col = [name; dtype; max_length; nullable]
         ∧ PyValue.truthy max_length = true
         ∧ (∀ s, dtype ≠ JString s) ∧ (∀ items, dtype ≠ JArray items)).

(** ** query_1.py *)

(** The methods of [str] and the rounding that query_1.py relies on:
    [s.upper()], [s.strip()] and [round(x, 2)] on a float. *)
Class Text : Type := {
  str_upper : string → string;
  str_strip : string → string;
  round2 : spec_float → spec_float
}.

(** What query_1.py raises: the exceptions of the scripts above and two
    more, both of class [Exception]. *)
Inductive raised : Type :=
| Builtin (e : exn)
| StopIteration
| AssertionError (msg : string).

Inductive outcome (A : Type) : Type :=
| Returned (a : A)
| Thrown (e : raised).
Arguments Returned {A}.
Arguments Thrown {A}.

(** The monad of query_1.py: the one of the scripts above with the
    larger set of exceptions. *)
Definition Q (DB A : Type) : Type :=
  World DB → outcome A * World DB * list event.

Definition qret {DB A} (a : A) : Q DB A := λ w, (Returned a, w, []).

Definition qraise {DB A} (e : raised) : Q DB A := λ w, (Thrown e, w, []).

Definition qlift {DB A} (r : outcome A) : Q DB A := λ w, (r, w, []).

(** A computation of the scripts above, run in query_1.py. *)
Definition up {DB A} (m : M DB A) : Q DB A := λ w,
  match m w with
  | (Ok a, w1, o1) => (Returned a, w1, o1)
  | (Raise e, w1, o1) => (Thrown (Builtin e), w1, o1)
  end.

Definition qbind {DB A B} (m : Q DB A) (k : A → Q DB B) : Q DB B := λ w,
  match m w with
  | (Returned a, w1, o1) =>
      let '(r, w2, o2) := k a w1 in (r, w2, (o1 ++ o2)%list)
  | (Thrown e, w1, o1) => (Thrown e, w1, o1)
  end.

(** [try: m except Exception as e: h e] *)
Definition qcatch {DB A} (m : Q DB A) (h : raised → Q DB A) : Q DB A := λ w,
  match m w with
  | (Thrown e, w1, o1) =>
      let '(r, w2, o2) := h e w1 in (r, w2, (o1 ++ o2)%list)
  | returned => returned
  end.

(** [try: m finally: cleanup]: the cleanup runs on every exit of [m];
    what it raises replaces the outcome of [m]. *)
Definition qfinally {DB A} (m : Q DB A) (cleanup : Q DB unit) : Q DB A := λ w,
  let '(r, w1, o1) := m w in
  match cleanup w1 with
  | (Returned _, w2, o2) => (r, w2, (o1 ++ o2)%list)
  | (Thrown e, w2, o2) => (Thrown e, w2, (o1 ++ o2)%list)
  end.

Declare Scope query_scope.
Notation "x <- m ;; k" := (qbind m (λ x, k))
  (at level 100, m at next level, right associativity) : query_scope.
Notation "m ;; k" := (qbind m (λ _, k))
  (at level 100, right associativity) : query_scope.

(** [[f(x) for x in items]]: the first failure ends the comprehension. *)
Fixpoint comprehension {A B} (f : A → result B) (items : list A)
  : result (list B) :=
  match items with
  | [] => Ok []
  | x :: rest =>
      let? y := f x in
      let? ys := comprehension f rest in
      Ok (y :: ys)
  end.

(** [row[i]] on a tuple or a list, for an index that is not negative. *)
Definition field {A} (i : nat) (row : list A) : result A :=
  match row !! i with
  | Some v => Ok v
  | None => Raise IndexError
  end.

(** [round(v, 2)]: an [int] is returned as it is, a [bool] as an [int]. *)
Definition round_2 `{!Text} (v : json) : result json :=
  match v with
  | JFloat x => Ok (JFloat (round2 x))
  | JInt n => Ok (JInt n)
  | JBool b => Ok (JInt (if b then 1 else 0))
  | _ => Raise TypeError
  end.

(** Lines 20-24: the column names of a table; schema and table are bound
    to [%s]. *)
Definition column_names_query : string :=
  PyStr.join PyStr.nl
    [ EmptyString;
      "            SELECT column_name";
      "            FROM information_schema.columns";
      "            WHERE table_schema = %s AND table_name = %s";
      "            " ].

(** Lines 47-53: the dams by the area of their polygon; the limit is
    bound to [%s]. *)
Definition dams_query (name_col type_col geom_col : string) : string :=
  PyStr.join PyStr.nl
    [ EmptyString;
      "            SELECT " +:+ quoted name_col +:+ ", " +:+ quoted type_col
      +:+ ",";
      "                   ST_Area(" +:+ quoted geom_col
      +:+ "::geography) / 1e6 AS area_sq_km";
      "            FROM utah_dams";
      "            ORDER BY area_sq_km DESC";
      "            LIMIT %s";
      "            " ].

(** Lines 82-89: the power plants that meet the polygon of the dam whose
    name is bound to [%s]. *)
Definition plants_query
           (name_col_pp type_col_pp fuel_col cap_col geom_col_dam geom_col_pp
              name_col_dam : string) : string :=
  PyStr.join PyStr.nl
    [ EmptyString;
      "            SELECT p." +:+ quoted name_col_pp +:+ ", p."
      +:+ quoted type_col_pp +:+ ", p." +:+ quoted fuel_col +:+ ", p."
      +:+ quoted cap_col;
      "            FROM   utah_dams d";
      "            JOIN   power_plants p";
      "              ON   ST_Intersects(d." +:+ quoted geom_col_dam +:+ ", p."
      +:+ quoted geom_col_pp +:+ ")";
      "            WHERE  d." +:+ quoted name_col_dam +:+ " = %s";
      "            ORDER  BY p." +:+ quoted cap_col +:+ " DESC NULLS LAST";
      "            " ].

(** ["=" * 60] *)
Definition rule : string := string_of_list_ascii (replicate 60 "="%char).

Section QueryOne.

Context {DB : Type} `{!Database DB} `{!Fetch DB} `{!Display} `{!Text}.

Local Abbreviation Q := (Q DB).
Local Open Scope query_scope.

(** [with conn.cursor() as cur: body]: the cursor is closed when the
    block is left, by its end, a [return] or an exception. *)
Definition with_cursor {A} (body : Q A) : Q A :=
  qfinally body (up (emit CursorClose)).

(** Lines 16-27. *)
Definition get_actual_column_names (table schema : string) : Q (list json) :=
  with_cursor
    (up (cursor_execute
           (Stmt column_names_query [JString schema; JString table])) ;;
     rows <- up fetchall ;;
     up (lift (comprehension (field 0) rows))).

(** [next(c for c in cols if c.upper() == target)]: the columns are
    looked at in order, up to the first that matches; [upper] is a method
    of [str] alone. *)
Fixpoint next_named (target : string) (cols : list json) : outcome string :=
  match cols with
  | [] => Thrown StopIteration
  | JString c :: rest =>
      if String.eqb (str_upper c) target then Returned c
      else next_named target rest
  | _ :: _ => Thrown (Builtin AttributeError)
  end.

(** Lines 29-36: the connection, or [None]. *)
Definition connect_to_db : Q (option unit) :=
  qcatch
    (up connect ;;
     up (print "Connected to PostgreSQL database.") ;;
     qret (Some tt))
    (λ e,
       match e with
       | Builtin x => up (emit (PrintError "Error connecting to database: " x))
       | StopIteration => up (print "Error connecting to database: ")
       | AssertionError msg =>
           up (print ("Error connecting to database: " +:+ msg))
       end ;;
       qret None).

(** Line 60: one row of the table of the dams. *)
Definition dam_row (r : list json) : result (list json) :=
  let? name := field 0 r in
  let? type := field 1 r in
  let? area := field 2 r in
  let? rounded := round_2 area in
  Ok [name; type; rounded].

(** Lines 38-61. *)
Definition list_available_dams (limit : Z) : Q (list (list json)) :=
  rows <- with_cursor
            (dam_cols <- get_actual_column_names "utah_dams" "public" ;;
             name_col <- qlift (next_named "NAME" dam_cols) ;;
             type_col <- qlift (next_named "TYPE" dam_cols) ;;
             let geom_col := "geom" in
             up (cursor_execute
                   (Stmt (dams_query name_col type_col geom_col)
                      [JInt limit])) ;;
             up fetchall) ;;
  up (print (PyStr.nl +:+ "Top " +:+ pretty limit
             +:+ " Utah dams by inundation area:")) ;;
  shown <- up (lift (comprehension dam_row rows)) ;;
  up (print (tabulate_grid ["Dam Name"; "Type"; "Inundation Area (sq km)"]
               shown)) ;;
  qret rows.

(** Lines 64-100. *)
Definition analyze_power_plants_at_risk (dam_name : json)
  : Q (list (list json)) :=
  rows <- with_cursor
            (dam_cols <- get_actual_column_names "utah_dams" "public" ;;
             name_col_dam <- qlift (next_named "NAME" dam_cols) ;;
             let geom_col_dam := "geom" in
             pp_cols <- get_actual_column_names "power_plants" "public" ;;
             name_col_pp <- qlift (next_named "NAME" pp_cols) ;;
             type_col_pp <- qlift (next_named "TYPE" pp_cols) ;;
             fuel_col <- qlift (next_named "PRIM_FUEL" pp_cols) ;;
             cap_col <- qlift (next_named "SUMMER_CAP" pp_cols) ;;
             let geom_col_pp := "geom" in
             up (cursor_execute
                   (Stmt (plants_query name_col_pp type_col_pp fuel_col cap_col
                            geom_col_dam geom_col_pp name_col_dam)
                      [dam_name])) ;;
             up fetchall) ;;
  up (print (PyStr.nl +:+ "--- Power Plants at Risk ---")) ;;
  (if bool_decide (rows = []) then
     up (print ("No power plants found within the inundation zone of '"
                +:+ py_str dam_name +:+ "'."))
   else
     up (print (tabulate_grid
                  ["Plant Name"; "Type"; "Primary Fuel"; "Capacity (MW)"]
                  rows))) ;;
  qret rows.

(** Lines 122-129: the loop over the names of the dams. *)
Fixpoint report_dams (dam_names : list json) : Q unit :=
  match dam_names with
  | [] => qret tt
  | dam :: rest =>
      up (print (PyStr.nl +:+ rule)) ;;
      up (print ("POWER-PLANT RISK REPORT FOR " +:+ py_str dam)) ;;
      up (print rule) ;;
      plants <- analyze_power_plants_at_risk dam ;;
      up (print (PyStr.nl +:+ "Total plants at risk: "
                 +:+ pretty (length plants) +:+ PyStr.nl)) ;;
      report_dams rest
  end.

(** [selected.upper()]: a name taken from the rows need not be a [str]. *)
Definition upper_of (v : json) : result string :=
  match v with
  | JString s => Ok (str_upper s)
  | _ => Raise AttributeError
  end.

(** Lines 108-129: the body of the [try] of [main]. *)
Definition analysis : Q unit :=
  dams <- list_available_dams 50 ;;
  up (print (PyStr.nl
             +:+ "Enter a dam name to analyze or type 'ALL' for every dam")) ;;
  answer <- up (input "Dam name: ") ;;
  selected <- (if String.eqb (str_strip answer) EmptyString
               then up (lift (let? largest := field 0 dams in field 0 largest))
               else qret (JString (str_strip answer))) ;;
  selected_upper <- up (lift (upper_of selected)) ;;
  dam_names <- (if String.eqb selected_upper "ALL"
                then up (lift (comprehension (field 0) dams))
                else qret [selected]) ;;
  report_dams dam_names.

(** Lines 131-132. *)
Definition report_error (e : raised) : Q unit :=
  match e with
  | Builtin x => up (emit (PrintError "Error during analysis: " x))
  | StopIteration => up (print "Error during analysis: ")
  | AssertionError msg => up (print ("Error during analysis: " +:+ msg))
  end.

(** Lines 103-134. *)
Definition main : Q unit :=
  conn <- connect_to_db ;;
  match conn with
  | None => qraise (AssertionError "Database connection failed.")
  | Some _ => qfinally (qcatch analysis report_error) (up (emit ConnClose))
  end.

End QueryOne.

(** Events other than opening or closing the connection. *)
Definition keeps_connection (e : event) : Prop :=
  match e with
  | Connect | ConnClose => False
  | _ => True
  end.

(** The statements of query_1.py: the query of the column names of a
    table, the query of the dams with its limit, and the query of the
    power plants of a dam.  The identifiers spliced into the text are
    column names whose upper-case form is the name looked for; the name of
    the dam is a bound value. *)
Definition query_statement `{!Text} (e : event) : Prop :=
  match e with
  | Execute s =>
      (∃ table, s = Stmt column_names_query [JString "public"; JString table])
      ∨ (∃ name_col type_col,
            str_upper name_col = "NAME" ∧ str_upper type_col = "TYPE"
            ∧ s = Stmt (dams_query name_col type_col "geom") [JInt 50])
      ∨ (∃ name_col_pp type_col_pp fuel_col cap_col name_col_dam dam_name,
            str_upper name_col_pp = "NAME" ∧ str_upper type_col_pp = "TYPE"
            ∧ str_upper fuel_col = "PRIM_FUEL"
            ∧ str_upper cap_col = "SUMMER_CAP"
            ∧ str_upper name_col_dam = "NAME"
            ∧ s = Stmt (plants_query name_col_pp type_col_pp fuel_col cap_col
                          "geom" "geom" name_col_dam) [dam_name])
  | _ => True
  end.

(** ** Further documents and a catalog to run the scripts on *)

Module Cases.

Import Fixture.

(** One point in a document whose CRS is declared unassigned. *)
Definition unassigned_text : string :=
  text "{'type': 'FeatureCollection', 'crs': null, 'features': [{'type': 'Feature', 'geometry': {'type': 'Point', 'coordinates': [1, 2]}, 'properties': {'label': 'A'}}]}".

Definition unassigned : json :=
  JObject [("type", JString "FeatureCollection"); ("crs", JNull);
           ("features",
            JArray [feature (point 1 2) [("label", JString "A")]])].

(** Three points; the second one has null properties. *)
Definition bare : json :=
  JObject [("type", JString "Feature"); ("geometry", point 3 4);
           ("properties", JNull)].

Definition orphans_text : string :=
  text "{'type': 'FeatureCollection', 'features': [{'type': 'Feature', 'geometry': {'type': 'Point', 'coordinates': [1, 2]}, 'properties': {'label': 'A'}}, {'type': 'Feature', 'geometry': {'type': 'Point', 'coordinates': [3, 4]}, 'properties': null}, {'type': 'Feature', 'geometry': {'type': 'Point', 'coordinates': [5, 6]}, 'properties': {'label': 'C'}}]}".

Definition orphans : json :=
  collection
    [ feature (point 1 2) [("label", JString "A")];
      bare;
      feature (point 5 6) [("label", JString "C")] ].

(** Three points: the label of the first one is an object, which the
    database refuses; the second one has null properties; the third one
    is as the loader expects it. *)
Definition mixed_text : string :=
  text "{'type': 'FeatureCollection', 'features': [{'type': 'Feature', 'geometry': {'type': 'Point', 'coordinates': [1, 2]}, 'properties': {'label': {'nested': 'A'}}}, {'type': 'Feature', 'geometry': {'type': 'Point', 'coordinates': [3, 4]}, 'properties': null}, {'type': 'Feature', 'geometry': {'type': 'Point', 'coordinates': [5, 6]}, 'properties': {'label': 'C'}}]}".

Definition mixed : json :=
  collection
    [ feature (point 1 2) [("label", JObject [("nested", JString "A")])];
      bare;
      feature (point 5 6) [("label", JString "C")] ].

(** Three districts: a polygon, one that has no geometry member, and
    one made of several polygons. *)
Definition unlocated : json :=
  JObject [("type", JString "Feature"); ("properties", JObject [("id", JInt 2)])].

Definition sparse_text : string :=
  text "{'type': 'FeatureCollection', 'features': [{'type': 'Feature', 'geometry': {'type': 'Polygon', 'coordinates': []}, 'properties': {'id': 1}}, {'type': 'Feature', 'properties': {'id': 2}}, {'type': 'Feature', 'geometry': {'type': 'MultiPolygon', 'coordinates': []}, 'properties': {'id': 3}}]}".

Definition sparse : json :=
  collection
    [ feature (geometry "Polygon") [("id", JInt 1)];
      unlocated;
      feature (geometry "MultiPolygon") [("id", JInt 3)] ].

(** A district made of several polygons and a feature without
    location. *)
Definition adrift : json :=
  collection
    [ feature (geometry "MultiPolygon") [("id", JInt 1)];
      JObject [("type", JString "Feature"); ("geometry", JNull);
               ("properties", JObject [("id", JInt 2)])] ].

Definition adrift_text : string :=
  text "{'type': 'FeatureCollection', 'features': [{'type': 'Feature', 'geometry': {'type': 'MultiPolygon', 'coordinates': []}, 'properties': {'id': 1}}, {'type': 'Feature', 'geometry': null, 'properties': {'id': 2}}]}".

(** The runtime of the examples, with the documents above. *)
Definition extended_runtime : Runtime := {|
  codec_decode := Codec.decode;
  json_loads := λ t,
    lookup_text t ((code_points unassigned_text, unassigned)
                   :: (code_points orphans_text, orphans)
                   :: (code_points mixed_text, mixed)
                   :: (code_points sparse_text, sparse)
                   :: (code_points adrift_text, adrift) :: documents);
  json_dumps := dumps;
  set_order := elements;
  set_order_perm := λ s, reflexivity (elements s)
|}.

Definition unassigned_world : World store :=
  world "unassigned.geojson" unassigned_text ["y"].
Definition orphans_world : World store :=
  world "orphans.geojson" orphans_text ["y"].
Definition mixed_world : World store :=
  world "mixed.geojson" mixed_text ["yes"].
Definition sparse_world : World store :=
  world "sparse.geojson" sparse_text [].
Definition adrift_world : World store :=
  world "adrift.geojson" adrift_text ["yes"].

End Cases.

Module Catalog.

(** A database with the tables of [relations]: the name of each one, its
    rows in [information_schema.columns] and the number of its rows.  The
    cursor holds the rows of the last statement.  No table is spatial. *)
Record catalog : Type := Catalog {
  relations : list (string * (list (list json) * Z));
  cursor_rows : list (list json)
}.

Fixpoint relation (name : string)
         (tables : list (string * (list (list json) * Z)))
  : option (list (list json) * Z) :=
  match tables with
  | [] => None
  | (name', r) :: rest =>
      if String.eqb name name' then Some r else relation name rest
  end.

Fixpoint counted (text : string)
         (tables : list (string * (list (list json) * Z))) : option Z :=
  match tables with
  | [] => None
  | (name, r) :: rest =>
      if String.eqb text (count_query name) then Some r.2
      else counted text rest
  end.

Definition rows_of (db : catalog) (stmt : statement)
  : option (list (list json)) :=
  if String.eqb (sql stmt) tables_query then
    Some (map (λ r, [JString "public"; JString r.1]) (relations db))
  else if String.eqb (sql stmt) columns_query then
    match params stmt with
    | [JString name] =>
        Some (match relation name (relations db) with
              | Some r => r.1
              | None => []
              end)
    | _ => None
    end
  else if String.eqb (sql stmt) geometry_query then Some []
  else (λ n, [[JInt n]]) <$> counted (sql stmt) (relations db).

#[export] Instance database : Database catalog := {|
  db_connect := λ _, None;
  db_execute := λ db stmt,
    match rows_of db stmt with
    | Some rows => (Catalog (relations db) rows, None)
    | None => (db, Some "syntax error")
    end;
  db_fetchone := λ db,
    match cursor_rows db with
    | row :: _ => JArray row
    | [] => JNull
    end;
  db_commit := λ db, (db, None)
|}.

#[export] Instance fetch : Fetch catalog := {|
  db_fetchall := cursor_rows
|}.

(** Rows are shown one per line, their fields separated by bars, in
    place of the grid that [tabulate] draws. *)
#[export] Instance display : Display := {|
  tabulate_grid := λ headers rows,
    PyStr.join PyStr.nl
      (PyStr.join " | " headers
       :: map (λ row, PyStr.join " | " (map Fixture.dumps row)) rows);
  py_str := λ v,
    match v with
    | JString s => s
    | _ => Fixture.dumps v
    end
|}.

(** A database with one table, [roads], of twelve rows. *)
Definition roads_columns : list (list json) :=
  [ [JString "id"; JString "integer"; JNull; JString "NO"];
    [JString "name"; JString "character varying"; JInt 80; JString "YES"] ].

Definition roads_world (stdin : list string) : World catalog :=
  mkWorld ∅ ∅ stdin (Catalog [("roads", (roads_columns, 12%Z))] []).

Definition empty_world : World catalog := mkWorld ∅ ∅ ["roads"] (Catalog [] []).

End Catalog.

Module Dams.

(** A database with the dams of Utah and the power plants, whose cursor
    holds the rows of the last statement.  The columns of the dams are
    named in mixed case. *)
Record reservoirs : Type := Reservoirs { cursor_rows : list (list json) }.

Definition dam_columns : list string := ["Name"; "Type"; "geom"].

Definition plant_columns : list string :=
  ["NAME"; "TYPE"; "PRIM_FUEL"; "SUMMER_CAP"; "geom"].

(** Two dams, of 12.5 and 4.25 square kilometres. *)
Definition dams : list (list json) :=
  [ [JString "Deer Creek"; JString "Earth"; JFloat (S754_finite false 25 (-1))];
    [JString "Echo"; JString "Earth"; JFloat (S754_finite false 17 (-2))] ].

Definition plants_of (dam : json) : list (list json) :=
  if Py.is_str "Deer Creek" dam
  then [[JString "Deer Creek Hydro"; JString "Hydro"; JString "WAT"; JInt 5]]
  else [].

Definition rows_of (stmt : statement) : option (list (list json)) :=
  if String.eqb (sql stmt) column_names_query then
    match params stmt with
    | [JString schema; JString table] =>
        Some (if String.eqb schema "public" && String.eqb table "utah_dams"
              then map (λ c, [JString c]) dam_columns
              else if String.eqb schema "public"
                      && String.eqb table "power_plants"
                   then map (λ c, [JString c]) plant_columns
                   else [])
    | _ => None
    end
  else if String.eqb (sql stmt) (dams_query "Name" "Type" "geom") then
    match params stmt with
    | [JInt limit] => Some (take (Z.to_nat limit) dams)
    | _ => None
    end
  else if String.eqb (sql stmt)
            (plants_query "NAME" "TYPE" "PRIM_FUEL" "SUMMER_CAP" "geom" "geom"
               "Name") then
    match params stmt with
    | [dam] => Some (plants_of dam)
    | _ => None
    end
  else None.

#[export] Instance database : Database reservoirs := {|
  db_connect := λ _, None;
  db_execute := λ db stmt,
    match rows_of stmt with
    | Some rows => (Reservoirs rows, None)
    | None => (db, Some "syntax error")
    end;
  db_fetchone := λ db,
    match cursor_rows db with
    | row :: _ => JArray row
    | [] => JNull
    end;
  db_commit := λ db, (db, None)
|}.

#[export] Instance fetch : Fetch reservoirs := {|
  db_fetchall := cursor_rows
|}.

Definition upper_ascii (c : ascii) : ascii :=
  let n := nat_of_ascii c in
  if (97 <=? n)%nat && (n <=? 122)%nat then ascii_of_nat (n - 32) else c.

Fixpoint upper (s : string) : string :=
  match s with
  | EmptyString => EmptyString
  | String c r => String (upper_ascii c) (upper r)
  end.

(** The methods of [str] on ASCII text; the areas of the example have
    two decimal digits at most, and are their own rounding. *)
#[export] Instance ascii_text : Text := {|
  str_upper := upper;
  str_strip := PyStr.strip;
  round2 := λ x, x
|}.

Definition world (stdin : list string) : World reservoirs :=
  mkWorld ∅ ∅ stdin (Reservoirs []).

End Dams.

(** ** Properties *)

(** C2: the column type chosen for a boolean property is INTEGER, not
    BOOLEAN, because [isinstance(value, int)] is tested first and holds of
    booleans; for the properties a: true, b: 3, c: 1.5, d: x the types are
    INTEGER, INTEGER, NUMERIC, TEXT, and BOOLEAN is never chosen.  The
    other three cases are as the mapping policy says. *)
Theorem column_type_of_boolean :
  (∀ b, column_type (JBool b) = "INTEGER")
  ∧ map column_type (map snd Fixture.typed_properties)
    = ["INTEGER"; "INTEGER"; "NUMERIC"; "TEXT"]
  ∧ (∀ v, column_type v ≠ "BOOLEAN")
  ∧ (∀ n, column_type (JInt n) = "INTEGER")
  ∧ (∀ x, column_type (JFloat x) = "NUMERIC")
  ∧ (∀ s, column_type (JString s) = "TEXT")
  ∧ column_type JNull = "TEXT".
Proof.
  repeat split; try reflexivity.
  intros v; destruct v; discriminate.
Qed.

Section Properties.

Context {DB : Type} `{!Database DB} `{!Runtime}.

Local Abbreviation M := (M DB).

(** *** Rules for [obeys] *)

Section Rules.

Context (Q : relation (World DB)) `{!PreOrder Q}.
Context (P : event → Prop).

Lemma obeys_ret {A} (E : exn → Prop) (a : A) : obeys Q P E (ret a).
Proof. intros w; cbn. split; [reflexivity|]. split; [constructor|discriminate]. Qed.

Lemma obeys_raise {A} (E : exn → Prop) (e : exn) :
  E e → obeys Q P E (raise (A:=A) e).
Proof.
  intros He w; cbn. split; [reflexivity|]. split; [constructor|].
  intros e' [= <-]. exact He.
Qed.

Lemma obeys_lift {A} (E : exn → Prop) (r : result A) :
  (∀ e, r = Raise e → E e) → obeys Q P E (lift r).
Proof.
  intros Hr w; cbn. split; [reflexivity|]. split; [constructor|exact Hr].
Qed.

Lemma obeys_emit (E : exn → Prop) (ev : event) :
  P ev → obeys (DB:=DB) Q P E (emit ev).
Proof.
  intros Hev w; cbn. split; [reflexivity|].
  split; [repeat constructor; exact Hev|discriminate].
Qed.

Lemma obeys_bind {A B} (E : exn → Prop) (m : M A) (k : A → M B) :
  obeys Q P E m → (∀ a, obeys Q P E (k a)) → obeys Q P E (bind m k).
Proof.
  intros Hm Hk w. unfold bind.
  destruct (Hm w) as (Hq & Hp & He).
  destruct (m w) as [[[a|e] w1] o1]; cbn in *.
  - destruct (Hk a w1) as (Hq' & Hp' & He').
    destruct (k a w1) as [[r w2] o2]; cbn in *.
    split; [etrans; eassumption|].
    split; [apply Forall_app; split; assumption|assumption].
  - split; [assumption|]. split; [assumption|]. intros e' [= <-]. apply He. reflexivity.
Qed.

Lemma obeys_catch {A} (E E' : exn → Prop) (m : M A) (h : exn → M A) :
  obeys Q P E' m → (∀ e, E' e → obeys Q P E (h e)) →
  obeys Q P E (catch m h).
Proof.
  intros Hm Hh w. unfold catch.
  destruct (Hm w) as (Hq & Hp & He).
  destruct (m w) as [[[a|e] w1] o1]; cbn in *.
  - split; [assumption|]. split; [assumption|discriminate].
  - destruct (Hh e (He e eq_refl) w1) as (Hq' & Hp' & He').
    destruct (h e w1) as [[r w2] o2]; cbn in *.
    split; [etrans; eassumption|].
    split; [apply Forall_app; split; assumption|assumption].
Qed.

Lemma obeys_bind_lift {A B} (E : exn → Prop) (r : result A) (k : A → M B) :
  (∀ a, r = Ok a → obeys Q P E (k a)) →
  (∀ e, r = Raise e → E e) →
  obeys Q P E (bind (lift r) k).
Proof.
  intros Hk He w. unfold bind, lift. destruct r as [a|e]; cbn.
  - destruct (Hk a eq_refl w) as (Hq & Hp & Hr).
    destruct (k a w) as [[r w'] o]; cbn in *. split; [assumption|].
    split; assumption.
  - split; [reflexivity|]. split; [constructor|].
    intros e' [= <-]. apply He. reflexivity.
Qed.

End Rules.

(** C8: with no source SRID given, a document whose CRS block names
    urn:ogc:def:crs:EPSG::3857 has source SRID 3857, and a document
    without a CRS block has source SRID 4326. *)
Theorem source_srid_detection (members : list (string * json)) (w : World DB) :
  (Py.assoc "crs" members = Some epsg_3857_crs →
   choose_source_srid None (JObject members) w
   = (Ok 3857%Z, w, [Print "Detected source SRID: 3857"]))
  ∧ (Py.assoc "crs" members = None →
     choose_source_srid None (JObject members) w
     = (Ok 4326%Z, w,
        [Print "No CRS specified in GeoJSON. Assuming EPSG:4326"])).
Proof.
  split; intros Hcrs.
  - unfold choose_source_srid, detect_crs, bind, lift; cbn.
    rewrite Hcrs. rewrite bool_decide_true by eauto. reflexivity.
  - unfold choose_source_srid, detect_crs, bind, lift; cbn.
    rewrite Hcrs. rewrite bool_decide_false by (intros [? ?]; discriminate).
    reflexivity.
Qed.

(** One attempt of the loop, by what the codec and the parser say. *)
Lemma open_and_load_run (file_path encoding : string) (bytes : list byte)
      (w : World DB) :
  w_files w !! file_path = Some bytes →
  open_and_load file_path encoding w
  = (match codec_decode encoding bytes with
     | None => Raise UnicodeDecodeError
     | Some text =>
         match json_loads text with
         | None => Raise JSONDecodeError
         | Some data => Ok data
         end
     end, w, [OpenRead file_path encoding]).
Proof.
  intros Hfile. unfold open_and_load, bind, emit, read_bytes; cbn.
  rewrite Hfile.
  destruct (codec_decode encoding bytes) as [text|]; [|reflexivity].
  destruct (json_loads text); reflexivity.
Qed.

(** One turn of the loop over the encodings. *)
Lemma load_document_step (file_path encoding : string) (rest : list string)
      (bytes : list byte) (w : World DB) :
  w_files w !! file_path = Some bytes →
  load_document file_path (encoding :: rest) w
  = match codec_decode encoding bytes with
    | Some text =>
        (match json_loads text with
         | Some data => Ok data
         | None => Raise JSONDecodeError
         end, w, [OpenRead file_path encoding])
    | None =>
        if bool_decide (Some encoding = last encodings_to_try)
        then (Raise (Exception could_not_decode), w,
              [OpenRead file_path encoding])
        else let '(r, w', o) := load_document file_path rest w in
             (r, w', OpenRead file_path encoding :: o)
    end.
Proof.
  intros Hfile. cbn [load_document]. unfold catch.
  rewrite (open_and_load_run _ _ bytes) by done.
  destruct (codec_decode encoding bytes) as [text|].
  - destruct (json_loads text); reflexivity.
  - destruct (bool_decide _); [reflexivity|].
    destruct (load_document file_path rest w) as [[r w'] o]. reflexivity.
Qed.

(** C4, as the code has it: the encodings are utf-8, latin-1, cp1252,
    tried in this order; the loop stops at the first one under which the
    bytes of the file decode, and its result is then what the parser
    makes of that text: the document, or the parse error, after which no
    further encoding is tried.  So a document is returned under the first
    encoding under which the file parses, and no later encoding is
    opened.  When the file decodes under none of the three, the loop
    raises an error whose message names them, and [examine_geojson]
    reports it and returns nothing. *)
Theorem encodings_tried_in_order (file_path : string) (bytes : list byte)
        (w : World DB) :
  w_files w !! file_path = Some bytes →
  encodings_to_try = ["utf-8"; "latin-1"; "cp1252"]
  ∧ (∀ tried encoding rest text,
        encodings_to_try = (tried ++ encoding :: rest)%list →
        Forall (λ e, codec_decode e bytes = None) tried →
        codec_decode encoding bytes = Some text →
        load_document file_path encodings_to_try w
        = (match json_loads text with
           | Some data => Ok data
           | None => Raise JSONDecodeError
           end, w, map (OpenRead file_path) (tried ++ [encoding])%list))
  ∧ (Forall (λ e, codec_decode e bytes = None) encodings_to_try →
     load_document file_path encodings_to_try w
     = (Raise (Exception could_not_decode), w,
        map (OpenRead file_path) encodings_to_try)
     ∧ examine_geojson file_path w
       = (Ok None, w,
          (map (OpenRead file_path) encodings_to_try
           ++ [PrintError "Error examining GeoJSON: "
                 (Exception could_not_decode)])%list)
     ∧ could_not_decode
       = "Could not decode file with any of these encodings: ['utf-8', 'latin-1', 'cp1252']"
     ∧ Forall (λ e, PyStr.contains e could_not_decode = true)
         encodings_to_try).
Proof.
  intros Hfile. split; [reflexivity|]. split.
  - intros tried encoding rest text Hsplit Htried Hdec.
    unfold encodings_to_try in Hsplit.
    destruct tried as [|t1 [|t2 [|t3 tried]]]; simpl in Hsplit;
      [| | |destruct tried; discriminate]; simplify_eq;
      repeat match goal with
             | H : Forall _ (_ :: _) |- _ => apply Forall_cons in H; destruct H
             end;
      unfold encodings_to_try;
      repeat (rewrite (load_document_step _ _ _ bytes) by done;
              match goal with
              | E : codec_decode ?e bytes = _
                |- context [codec_decode ?e bytes] => rewrite E
              end;
              try rewrite bool_decide_false by (cbn; discriminate));
      reflexivity.
  - intros Hall. unfold encodings_to_try in Hall.
    repeat match goal with
           | H : Forall _ (_ :: _) |- _ => apply Forall_cons in H; destruct H
           end.
    assert (Hload : load_document file_path encodings_to_try w
                    = (Raise (Exception could_not_decode), w,
                       map (OpenRead file_path) encodings_to_try)).
    { unfold encodings_to_try.
      repeat (rewrite (load_document_step _ _ _ bytes) by done;
              match goal with
              | E : codec_decode ?e bytes = _
                |- context [codec_decode ?e bytes] => rewrite E
              end;
              try rewrite bool_decide_false by (cbn; discriminate)).
      reflexivity. }
    split; [exact Hload|]. split; [|split].
    + unfold examine_geojson, examine_document, catch, bind.
      rewrite Hload. reflexivity.
    + reflexivity.
    + repeat constructor.
Qed.

(** *** Exceptions of the operations on Python objects *)

Ltac py_raise :=
  intros;
  repeat match goal with
         | H : context [match ?x with _ => _ end] |- _ => destruct x; cbn in H
         end;
  simplify_eq; exact I.

Lemma contains_builtin s c e : Py.contains s c = Raise e → builtin e.
Proof. unfold Py.contains. py_raise. Qed.

Lemma getitem_builtin c k e : Py.getitem c k = Raise e → builtin e.
Proof. unfold Py.getitem. py_raise. Qed.

Lemma first_builtin c e : Py.first c = Raise e → builtin e.
Proof. unfold Py.first. py_raise. Qed.

Lemma get_builtin o k d e : Py.get o k d = Raise e → builtin e.
Proof. unfold Py.get. py_raise. Qed.

Lemma len_builtin v e : Py.len v = Raise e → builtin e.
Proof. unfold Py.len. py_raise. Qed.

Lemma iter_builtin v e : Py.iter v = Raise e → builtin e.
Proof. unfold Py.iter. py_raise. Qed.

Lemma items_builtin v e : Py.items v = Raise e → builtin e.
Proof. unfold Py.items. py_raise. Qed.

Lemma split_builtin v c e : Py.split v c = Raise e → builtin e.
Proof. unfold Py.split. py_raise. Qed.

Lemma rbind_raise {A B} (r : result A) (k : A → result B) e :
  rbind r k = Raise e → r = Raise e ∨ ∃ a, r = Ok a ∧ k a = Raise e.
Proof.
  destruct r as [a|e']; cbn; intros Hr; [right; exists a; split; [reflexivity|exact Hr]|left; congruence].
Qed.

Create HintDb py.

Hint Resolve contains_builtin getitem_builtin first_builtin get_builtin
  len_builtin iter_builtin items_builtin split_builtin : py.

Ltac rbind_cases H :=
  apply rbind_raise in H as [H|(? & _ & H)]; [solve [eauto with py]|].

Lemma add_geometry_type_builtin feature acc e :
  add_geometry_type feature acc = Raise e → builtin e.
Proof.
  unfold add_geometry_type. intros Hr.
  rbind_cases Hr. case_match; [|discriminate].
  rbind_cases Hr. rbind_cases Hr. case_match; [|discriminate].
  rbind_cases Hr. case_match; simplify_eq; exact I.
Qed.

Lemma collect_geometry_types_builtin features acc e :
  collect_geometry_types features acc = Raise e → builtin e.
Proof.
  revert acc. induction features as [|f fs IH]; intros acc; cbn; [discriminate|].
  intros Hr. apply rbind_raise in Hr as [Hr|(acc' & _ & Hr)].
  - eapply add_geometry_type_builtin, Hr.
  - eapply IH, Hr.
Qed.

Lemma scan_features_builtin data n e :
  scan_features data n = Raise e → builtin e.
Proof.
  unfold scan_features. case_match; [|discriminate]. intros Hr.
  do 4 rbind_cases Hr.
  apply rbind_raise in Hr as [Hr|(? & _ & Hr)]; [|discriminate].
  eapply collect_geometry_types_builtin, Hr.
Qed.

Hint Resolve scan_features_builtin : py.

Lemma builtin_not_Exception e : builtin e → not_Exception e.
Proof. destruct e; cbn; tauto. Qed.

(** *** [examine_geojson] changes nothing and only prints *)

Lemma examine_document_obeys (file_path : string) (E : exn → Prop) :
  obeys (DB:=DB) eq plain E (load_document file_path encodings_to_try) →
  (∀ e, builtin e → E e) →
  obeys (DB:=DB) eq plain E (examine_document file_path).
Proof.
  intros Hload HE. unfold examine_document, print.
  apply obeys_bind; [apply _|exact Hload|intros data].
  apply obeys_bind; [apply _|apply obeys_lift; [apply _|eauto with py]|intros features].
  apply obeys_bind; [apply _|apply obeys_lift; [apply _|eauto with py]|intros n].
  apply obeys_bind; [apply _|apply obeys_lift; [apply _|eauto with py]|intros scanned].
  repeat (apply obeys_bind;
          [apply _
          |first [apply obeys_emit; [apply _|exact I]
                 |case_match; [apply obeys_raise; [apply _|apply HE; exact I]
                              |apply obeys_ret; apply _]]
          |intros ?]).
  apply obeys_ret; apply _.
Qed.

Lemma examine_geojson_run (file_path : string) (E : exn → Prop) (w : World DB) :
  obeys (DB:=DB) eq plain E (examine_document file_path) →
  ∃ o, Forall plain o
       ∧ ((∃ info, examine_geojson file_path w = (Ok (Some info), w, o)
                   ∧ examine_document file_path w = (Ok info, w, o))
          ∨ (∃ e, E e
                  ∧ examine_geojson file_path w
                    = (Ok None, w,
                       (o ++ [PrintError "Error examining GeoJSON: " e])%list))).
Proof.
  intros Hdoc. destruct (Hdoc w) as (Hw & Ho & He).
  unfold examine_geojson, catch, bind.
  destruct (examine_document file_path w) as [[[info|e] w1] o]; cbn in *; subst w1.
  - exists o. split; [assumption|]. left. exists info.
    rewrite app_nil_r. split; reflexivity.
  - exists o. split; [assumption|]. right. exists e. split; [eauto|reflexivity].
Qed.

Lemma open_and_load_obeys (file_path encoding : string) :
  obeys (DB:=DB) eq plain (λ _, True) (open_and_load file_path encoding).
Proof.
  intros w. unfold open_and_load, bind, emit, read_bytes; cbn.
  destruct (w_files w !! file_path) as [bytes|]; cbn.
  - destruct (codec_decode encoding bytes) as [text|]; cbn;
      [destruct (json_loads text); cbn|];
      (split; [reflexivity|]; split; [repeat constructor|done]).
  - split; [reflexivity|]; split; [repeat constructor|done].
Qed.

Lemma load_document_obeys (file_path : string) (todo : list string) :
  obeys (DB:=DB) eq plain (λ _, True) (load_document file_path todo).
Proof.
  induction todo as [|encoding rest IH]; cbn [load_document].
  - apply obeys_raise; [apply _|exact I].
  - eapply obeys_catch; [apply _|apply open_and_load_obeys|].
    intros e _. destruct e; try (apply obeys_raise; [apply _|exact I]).
    case_match; [apply obeys_raise; [apply _|exact I]|exact IH].
Qed.

(** With a total latin-1 codec the loop ends at its first or second turn,
    and never by the error of its last turn. *)
Lemma load_document_latin1 (file_path : string) (w : World DB) :
  (∀ bytes, is_Some (codec_decode "latin-1" bytes)) →
  ∃ r o, load_document file_path encodings_to_try w = (r, w, o)
         ∧ (∀ e, r = Raise e → not_Exception e ∧ e ≠ UnicodeDecodeError)
         ∧ (o = [OpenRead file_path "utf-8"]
            ∨ o = [OpenRead file_path "utf-8"; OpenRead file_path "latin-1"]).
Proof.
  intros Hlatin1. unfold encodings_to_try.
  destruct (w_files w !! file_path) as [bytes|] eqn:Hfile.
  - rewrite (load_document_step _ _ _ bytes) by done.
    destruct (codec_decode "utf-8" bytes) as [text|].
    + eexists _, _. split; [reflexivity|]. split; [|left; reflexivity].
      intros e. destruct (json_loads text); intros [= <-]. split; [exact I|done].
    + rewrite bool_decide_false by (cbn; discriminate).
      rewrite (load_document_step _ _ _ bytes) by done.
      destruct (Hlatin1 bytes) as [text ->].
      eexists _, _. split; [reflexivity|]. split; [|right; reflexivity].
      intros e. destruct (json_loads text); intros [= <-]. split; [exact I|done].
  - cbn [load_document]. unfold catch, open_and_load, bind, emit, read_bytes; cbn.
    rewrite Hfile. cbn.
    eexists _, _. split; [reflexivity|]. split; [|left; reflexivity].
    intros e [= <-]. split; [exact I|done].
Qed.

(** C9: since latin-1 decodes every sequence of bytes, the loop over the
    encodings ends at its first or second turn: it never raises the error
    of its last turn (nor any decoding error), cp1252 is never opened,
    and [examine_geojson] never reports that error. *)
Theorem decode_error_unreachable (file_path : string) (w : World DB) :
  (∀ bytes, is_Some (codec_decode "latin-1" bytes)) →
  (∀ msg, (load_document file_path encodings_to_try w).1.1
          ≠ Raise (Exception msg))
  ∧ (load_document file_path encodings_to_try w).1.1 ≠ Raise UnicodeDecodeError
  ∧ ((load_document file_path encodings_to_try w).2
     = [OpenRead file_path "utf-8"]
     ∨ (load_document file_path encodings_to_try w).2
       = [OpenRead file_path "utf-8"; OpenRead file_path "latin-1"])
  ∧ ∀ prefix msg,
      PrintError prefix (Exception msg) ∉ (examine_geojson file_path w).2.
Proof.
  intros Hlatin1.
  destruct (load_document_latin1 file_path w Hlatin1) as (r & o & Hrun & Hr & Ho).
  rewrite Hrun; cbn. split; [|split; [|split]].
  - intros msg ->. destruct (Hr _ eq_refl) as [[] _].
  - intros ->. destruct (Hr _ eq_refl) as [_ []]. reflexivity.
  - exact Ho.
  - intros prefix msg.
    assert (Hdoc : obeys (DB:=DB) eq plain not_Exception
                     (examine_document file_path)).
    { apply examine_document_obeys; [|apply builtin_not_Exception].
      intros w0.
      destruct (load_document_latin1 file_path w0 Hlatin1)
        as (r0 & o0 & Hrun0 & Hr0 & _).
      destruct (load_document_obeys file_path encodings_to_try w0)
        as (_ & Hplain & _).
      rewrite Hrun0 in *; cbn in *.
      split; [reflexivity|]. split; [assumption|].
      intros e He. apply Hr0, He. }
    destruct (examine_geojson_run file_path not_Exception w Hdoc)
      as (o' & Hplain & [(info & -> & _)|(e & He & ->)]); cbn.
    + intros Hin. eapply Forall_forall in Hplain; [|exact Hin]. exact Hplain.
    + intros Hin. apply elem_of_app in Hin as [Hin|Hin].
      * eapply Forall_forall in Hplain; [|exact Hin]. exact Hplain.
      * apply list_elem_of_singleton in Hin. simplify_eq. exact He.
Qed.

(** *** The geometry type of a collection *)

Lemma add_geometry_type_marked feature mark acc :
  marked feature mark →
  add_geometry_type feature acc
  = Ok (match mark with
        | Some label => {[ label ]} ∪ acc.1
        | None => acc.1
        end, acc.2).
Proof.
  intros (members & -> & Hmark). destruct acc as [types other].
  unfold add_geometry_type, Py.contains, Py.getitem; cbn.
  destruct mark as [label|].
  - destruct Hmark as (geometry & Hgeometry & Htype).
    rewrite Hgeometry; cbn. rewrite ?bool_decide_true by eauto; cbn.
    rewrite Htype; cbn. rewrite ?bool_decide_true by eauto; cbn.
    reflexivity.
  - destruct Hmark as [Hnone|(geometry & Hgeometry & Htype)].
    + rewrite Hnone; cbn.
      rewrite ?bool_decide_false by (intros [? ?]; discriminate). reflexivity.
    + rewrite Hgeometry; cbn. rewrite ?bool_decide_true by eauto; cbn.
      rewrite Htype; cbn.
      rewrite ?bool_decide_false by (intros [? ?]; discriminate). reflexivity.
Qed.

Lemma collect_geometry_types_marked features marks acc :
  Forall2 marked features marks →
  collect_geometry_types features acc
  = Ok (list_to_set (omap id marks) ∪ acc.1, acc.2).
Proof.
  intros Hall. revert acc.
  induction Hall as [|f m fs ms Hf _ IH]; intros [types other]; cbn.
  - replace (∅ ∪ types) with types by set_solver. reflexivity.
  - rewrite (add_geometry_type_marked f m (types, other) Hf); cbn.
    rewrite IH; cbn. destruct m as [label|]; cbn; [|reflexivity].
    replace (list_to_set (omap id ms) ∪ ({[ label ]} ∪ types))
      with ({[ label ]} ∪ list_to_set (omap id ms) ∪ types) by set_solver.
    reflexivity.
Qed.

Lemma collect_geometry_types_app features rest acc :
  collect_geometry_types (features ++ rest) acc
  = rbind (collect_geometry_types features acc) (collect_geometry_types rest).
Proof.
  revert acc. induction features as [|f fs IH]; intros acc; cbn; [reflexivity|].
  destruct (add_geometry_type f acc) as [acc'|e]; cbn; [apply IH|reflexivity].
Qed.

Lemma resolve_multipolygon (types : gset string) :
  "MultiPolygon" ∈ types → resolve_geometry_type types = Some "MultiPolygon".
Proof.
  intros Hin. unfold resolve_geometry_type.
  rewrite (bool_decide_true _ Hin). reflexivity.
Qed.

Lemma resolve_multilinestring (types : gset string) :
  "MultiPolygon" ∉ types → "MultiLineString" ∈ types →
  resolve_geometry_type types = Some "MultiLineString".
Proof.
  intros Hmp Hin. unfold resolve_geometry_type.
  rewrite (bool_decide_false _ Hmp), (bool_decide_true _ Hin).
  rewrite andb_false_r. reflexivity.
Qed.

Lemma resolve_multipoint (types : gset string) :
  "MultiPolygon" ∉ types → "MultiLineString" ∉ types → "MultiPoint" ∈ types →
  resolve_geometry_type types = Some "MultiPoint".
Proof.
  intros Hmp Hml Hin. unfold resolve_geometry_type.
  rewrite (bool_decide_false _ Hmp), (bool_decide_false _ Hml),
    (bool_decide_true _ Hin).
  rewrite !andb_false_r. reflexivity.
Qed.

Lemma set_order_singleton (t : string) : set_order {[ t ]} = [t].
Proof.
  apply Permutation_singleton_r.
  rewrite set_order_perm, elements_singleton. reflexivity.
Qed.

Lemma resolve_single (t : string) :
  t ∉ multi_labels → resolve_geometry_type {[ t ]} = Some t.
Proof.
  intros Hmulti. unfold resolve_geometry_type.
  assert (Hne : ∀ m, m ∈ multi_labels → m ∉ ({[ t ]} : gset string)).
  { intros m Hm Hin. apply elem_of_singleton in Hin. subst m. auto. }
  rewrite (bool_decide_false ("MultiPolygon" ∈ _))
    by (apply Hne; unfold multi_labels; set_solver).
  rewrite (bool_decide_false ("MultiLineString" ∈ _))
    by (apply Hne; unfold multi_labels; set_solver).
  rewrite (bool_decide_false ("MultiPoint" ∈ _))
    by (apply Hne; unfold multi_labels; set_solver).
  rewrite !andb_false_r; cbn.
  rewrite bool_decide_true by set_solver.
  rewrite set_order_singleton. reflexivity.
Qed.

Lemma list_to_set_uniform (t : string) (labels : list string) :
  labels ≠ [] → Forall (eq t) labels →
  list_to_set labels = ({[ t ]} : gset string).
Proof.
  intros Hne Hall. apply set_eq. intros x.
  rewrite elem_of_list_to_set, elem_of_singleton. split.
  - intros Hin. eapply Forall_forall in Hall; [|exact Hin]. congruence.
  - intros ->. destruct labels as [|l ls]; [done|].
    apply Forall_cons in Hall as [<- _]. left.
Qed.

(** C1, as the code has it.  The features of the collection are objects;
    each one counts with the type of its geometry, and one without a
    geometry member, or whose geometry has no type member, is skipped.
    [examine_geojson] then returns, and the geometry type it selects is
    MultiPolygon when some feature is a MultiPolygon, otherwise
    MultiLineString when some feature is a MultiLineString, otherwise
    MultiPoint when some feature is a MultiPoint; a collection whose
    counted features all have one type that is not a Multi type (all
    Polygon, say) keeps that type, and with no counted feature no type is
    selected. *)
Theorem geometry_type_resolution
        (file_path : string) (w : World DB) (members : list (string * json))
        (features : list json) (marks : list (option string)) :
  (load_document file_path encodings_to_try w).1.1 = Ok (JObject members) →
  Py.assoc "features" members = Some (JArray features) →
  Forall2 marked features marks →
  let labels := omap id marks in
  ∃ info o,
    examine_geojson file_path w = (Ok (Some info), w, o)
    ∧ raw_data info = JObject members
    ∧ feature_count info = length features
    ∧ ("MultiPolygon" ∈ labels → geometry_type info = Some "MultiPolygon")
    ∧ ("MultiPolygon" ∉ labels → "MultiLineString" ∈ labels →
       geometry_type info = Some "MultiLineString")
    ∧ ("MultiPolygon" ∉ labels → "MultiLineString" ∉ labels →
       "MultiPoint" ∈ labels → geometry_type info = Some "MultiPoint")
    ∧ (∀ t, labels ≠ [] → Forall (eq t) labels → t ∉ multi_labels →
            geometry_type info = Some t)
    ∧ (labels = [] → geometry_type info = None).
Proof.
  intros Hload Hfeatures Hmarks labels.
  destruct (load_document_obeys file_path encodings_to_try w) as (Hw & _ & _).
  assert (Hscan : scan_features (JObject members) (length features)
                  = Ok (match features with
                        | [] => JNull
                        | f :: _ =>
                            match f with
                            | JObject fm =>
                                default (JObject []) (Py.assoc "properties" fm)
                            | _ => JNull
                            end
                        end, (list_to_set labels, false))).
  { unfold scan_features, labels.
    destruct Hmarks as [|f m fs ms Hf Hrest]; [reflexivity|].
    pose proof (collect_geometry_types_marked (f :: fs) (m :: ms) (∅, false)
                  ltac:(constructor; assumption)) as Hcollect.
    destruct Hf as (fm & -> & _).
    cbn -[collect_geometry_types list_to_set omap].
    rewrite Hfeatures.
    cbn -[collect_geometry_types list_to_set omap].
    rewrite Hcollect.
    cbn -[list_to_set omap].
    replace (list_to_set (omap id (m :: ms)) ∪ (∅ : gset string))
      with (list_to_set (omap id (m :: ms)) : gset string) by set_solver.
    destruct (Py.assoc "properties" fm); reflexivity. }
  unfold examine_geojson, examine_document, catch, bind, lift, print, emit.
  destruct (load_document file_path encodings_to_try w) as [[r w1] o1].
  cbn in Hload, Hw. subst r w1.
  cbn. rewrite Hfeatures. cbn. rewrite Hscan. cbn.
  eexists _, _. split; [reflexivity|]. cbn.
  split; [reflexivity|]. split; [reflexivity|].
  split; [|split; [|split; [|split]]].
  - intros Hin. apply resolve_multipolygon. set_solver.
  - intros Hmp Hin. apply resolve_multilinestring; set_solver.
  - intros Hmp Hml Hin. apply resolve_multipoint; set_solver.
  - intros t Hne Hall Hmulti.
    rewrite (list_to_set_uniform t labels Hne Hall).
    apply resolve_single, Hmulti.
  - intros ->. cbn. unfold resolve_geometry_type.
    rewrite !(bool_decide_false (_ ∈ ∅)) by set_solver.
    rewrite bool_decide_false by (intros Hne; apply Hne; reflexivity).
    reflexivity.
Qed.

(** *** The phases of [ingest_geojson_to_postgis] *)

Lemma plain_quiet e : plain e → quiet e.
Proof. destruct e; cbn; tauto. Qed.

#[local] Instance same_files_preorder : PreOrder (same_files (DB:=DB)).
Proof.
  split; [intros w; reflexivity|].
  intros w1 w2 w3 H12 H23. unfold same_files in *. congruence.
Qed.

Ltac obeys_step :=
  first
    [ apply obeys_ret; apply _
    | apply obeys_raise; [apply _|exact I]
    | apply obeys_lift; [apply _|intros; exact I]
    | apply obeys_emit; [apply _|exact I]
    | apply obeys_bind; [apply _| |intros ?]
    | progress unfold print
    | case_match ].

Lemma detect_crs_obeys (raw_data : json) :
  obeys (DB:=DB) eq quiet (λ _, True) (detect_crs raw_data).
Proof.
  unfold detect_crs. repeat obeys_step.
  eapply obeys_catch; [apply _|repeat obeys_step|].
  intros e _. repeat obeys_step.
Qed.

Lemma choose_source_srid_obeys (source_srid : option Z) (raw_data : json) :
  obeys (DB:=DB) eq quiet (λ _, True) (choose_source_srid source_srid raw_data).
Proof.
  unfold choose_source_srid. destruct source_srid; [repeat obeys_step|].
  apply obeys_bind; [apply _|apply detect_crs_obeys|intros ?].
  repeat obeys_step.
Qed.

(** [examine_geojson] returns, leaves the world as it is and only prints. *)
Lemma examine_geojson_quiet (file_path : string) (w : World DB) :
  ∃ r o, examine_geojson file_path w = (Ok r, w, o) ∧ Forall quiet o.
Proof.
  assert (Hdoc : obeys (DB:=DB) eq plain (λ _, True) (examine_document file_path)).
  { apply examine_document_obeys; [apply load_document_obeys|intros; exact I]. }
  destruct (examine_geojson_run file_path _ w Hdoc)
    as (o & Hplain & [(info & -> & _)|(e & _ & ->)]);
    eexists _, _; (split; [reflexivity|]).
  - eapply Forall_impl; [exact Hplain|apply plain_quiet].
  - apply Forall_app. split; [|repeat constructor].
    eapply Forall_impl; [exact Hplain|apply plain_quiet].
Qed.

(** [plan_table] either raises, having only printed, or writes the side
    file, as the last thing it does, with the statement it returns. *)
Lemma plan_table_run (table_name : string) (info : geojson_info)
      (source_srid : option Z) (target_srid : Z) (w : World DB) :
  ∃ o, Forall quiet o
       ∧ ((∃ e, plan_table table_name info source_srid target_srid w
                = (Raise e, w, o))
          ∨ (∃ columns_sql postgis_type srid,
                let create_table_sql :=
                  create_table_statement table_name columns_sql postgis_type
                    target_srid in
                plan_table table_name info source_srid target_srid w
                = (Ok (create_table_sql, srid),
                   mkWorld (<[structure_file table_name
                              := list_byte_of_string create_table_sql]>
                              (w_files w))
                           (w_readonly w) (w_stdin w) (w_db w),
                   (o ++ [WriteFile (structure_file table_name)
                            create_table_sql])%list))).
Proof.
  unfold plan_table, bind.
  destruct (choose_source_srid_obeys source_srid (raw_data info) w)
    as (Hw & Ho & _).
  destruct (choose_source_srid source_srid (raw_data info) w)
    as [[[srid|e] w1] o1]; cbn in Hw, Ho; subst w1.
  - unfold lift. destruct (Py.items (properties info)) as [members|e].
    + unfold print, emit, write_text; cbn.
      destruct (bool_decide (structure_file table_name ∈ w_readonly w)).
      * eexists. split; [|left; eexists; reflexivity].
        apply Forall_app; split; [assumption|repeat constructor].
      * exists (o1 ++ [Print (PyStr.nl +:+ "Proposed table structure:");
                       Print (create_table_statement table_name
                                (PyStr.join ", " (map column members))
                                (postgis_type_of (geometry_type info))
                                target_srid);
                       Print ("Source SRID: " +:+ pretty srid
                              +:+ ", Target SRID: " +:+ pretty target_srid)])%list.
        split; [apply Forall_app; split; [assumption|repeat constructor]|].
        right. eexists _, _, _. cbn. rewrite <- app_assoc. reflexivity.
    + eexists. split; [|left; eexists; reflexivity].
      apply Forall_app; split; [assumption|constructor].
  - eexists. split; [|left; eexists; reflexivity]. assumption.
Qed.

(** *** The loop over the features *)

Lemma row_statement_sql table_name source_srid target_srid feature row :
  row_statement table_name source_srid target_srid feature = Ok row →
  ∃ prop_names placeholders,
    sql row = insert_statement table_name prop_names placeholders
                source_srid target_srid.
Proof.
  unfold row_statement. intros Hrow.
  destruct (Py.get feature "properties" (JObject [])) as [props|]; [|discriminate].
  cbn in Hrow. destruct (Py.items props) as [members|]; [|discriminate].
  cbn in Hrow.
  destruct (Py.get feature "geometry" (JObject [])) as [geometry|]; [|discriminate].
  cbn in Hrow. injection Hrow as <-. eexists _, _. reflexivity.
Qed.

Lemma is_feature_row table_name source_srid target_srid feature :
  is_feature feature →
  ∃ row, row_statement table_name source_srid target_srid feature = Ok row.
Proof.
  intros (members & -> & Hprops). unfold row_statement; cbn.
  destruct (Py.assoc "properties" members) as [v|].
  - destruct Hprops as (props & ->). cbn. eexists. reflexivity.
  - cbn. eexists. reflexivity.
Qed.

Lemma features_rows table_name source_srid target_srid features :
  Forall is_feature features →
  ∃ rows,
    Forall2 (λ f row, row_statement table_name source_srid target_srid f
                      = Ok row) features rows.
Proof.
  induction 1 as [|f fs Hf _ (rows & IH)]; [exists []; constructor|].
  destruct (is_feature_row table_name source_srid target_srid f Hf) as (row & Hrow).
  exists (row :: rows). constructor; assumption.
Qed.

Lemma insert_feature_run table_name source_srid target_srid total feature row
      inserted (w : World DB) :
  row_statement table_name source_srid target_srid feature = Ok row →
  insert_feature table_name source_srid target_srid total feature inserted w
  = match db_execute (w_db w) row with
    | (db, None) =>
        (Ok (S inserted), with_db w db,
         Execute row
         :: (if progress_due (S inserted) total
             then [Progress (S inserted) total] else []))
    | (db, Some msg) =>
        (Ok inserted, with_db w db,
         [Execute row;
          PrintError "Error inserting feature: " (DatabaseError msg)])
    end.
Proof.
  intros Hrow. unfold insert_feature, bind, lift. rewrite Hrow.
  unfold catch, cursor_execute, bind.
  destruct (db_execute (w_db w) row) as [db [msg|]]; [reflexivity|].
  destruct (progress_due (S inserted) total); reflexivity.
Qed.

Lemma accepted_cons (a : option string) (answers : list (option string)) :
  accepted (a :: answers)
  = match a with
    | None => S (accepted answers)
    | Some _ => accepted answers
    end.
Proof.
  unfold accepted. rewrite filter_cons.
  destruct a; destruct (decide _); try done.
Qed.

Lemma insert_features_run table_name source_srid target_srid total
      features rows :
  Forall2 (λ f row, row_statement table_name source_srid target_srid f
                    = Ok row) features rows →
  ∀ inserted (w : World DB),
    ∃ o, insert_features table_name source_srid target_srid total features
           inserted w
         = (Ok (inserted + accepted (replay (w_db w) rows)),
            with_db w (db_after (w_db w) rows), o)
         ∧ attempts o = rows
         ∧ reported o = refusals (replay (w_db w) rows)
         ∧ commits o = 0.
Proof.
  induction 1 as [|f row fs rows Hrow _ IH]; intros inserted w.
  - exists []. cbn. unfold accepted; cbn. rewrite Nat.add_0_r.
    destruct w; repeat split; reflexivity.
  - cbn [insert_features]. unfold bind.
    rewrite (insert_feature_run _ _ _ _ _ row) by assumption.
    cbn [replay db_after].
    destruct (db_execute (w_db w) row) as [db [msg|]] eqn:Hexec; cbn [fst].
    + destruct (IH inserted (with_db w db)) as (o & -> & Hatt & Hrep & Hcom).
      rewrite accepted_cons.
      eexists. split; [reflexivity|].
      unfold attempts, reported, commits in *.
      cbn. rewrite Hatt, Hrep. repeat split; try reflexivity. exact Hcom.
    + destruct (IH (S inserted) (with_db w db)) as (o & -> & Hatt & Hrep & Hcom).
      rewrite accepted_cons, Nat.add_succ_r.
      eexists. split; [reflexivity|].
      unfold attempts, reported, commits in *.
      destruct (progress_due (S inserted) total);
        cbn; rewrite ?Hatt, ?Hrep; repeat split; try reflexivity; exact Hcom.
Qed.

Lemma quiet_no_commit (o : list event) : Forall quiet o → commits o = 0.
Proof.
  unfold commits. induction 1 as [|e o He _ IH]; [reflexivity|].
  destruct e; cbn in *; try contradiction; exact IH.
Qed.

Lemma quiet_no_attempt (o : list event) : Forall quiet o → attempts o = [].
Proof.
  unfold attempts. induction 1 as [|e o He _ IH]; [reflexivity|].
  destruct e; cbn in *; try contradiction; exact IH.
Qed.

Lemma commits_app (o1 o2 : list event) :
  commits (o1 ++ o2) = commits o1 + commits o2.
Proof. unfold commits. rewrite omap_app, length_app. reflexivity. Qed.

(** X19: once the table has been created, and when a row can be built
    from every feature, every feature is tried, in order, whatever the
    database answers to the others: one [execute] per feature, each
    refusal reported with its error and the loop going on; no commit
    happens before or during the loop and one commit follows it; the
    message that ends the run reads Completed: n out of t features
    inserted successfully, n being the number of accepted rows and t the
    number of features. *)
Theorem failed_rows_are_skipped
        (file_path table_name : string) (source_srid : option Z)
        (target_srid : Z) (w w1 w2 : World DB) (info : geojson_info)
        (o1 o2 : list event) (create_table_sql : string) (srid : Z)
        (answer : string) (stdin : list string) (db : DB)
        (features : list json) :
  let table := PyStr.replace "-" "_" table_name in
  examine_geojson file_path w = (Ok (Some info), w1, o1) →
  plan_table table info source_srid target_srid w1
  = (Ok (create_table_sql, srid), w2, o2) →
  w_stdin w2 = answer :: stdin →
  confirmed (PyStr.lower answer) = true →
  db_execute (w_db w2) (Stmt create_table_sql []) = (db, None) →
  Py.getitem (raw_data info) "features" = Ok (JArray features) →
  Forall is_feature features →
  ∃ rows o3 tail r w',
    Forall2 (λ f row, row_statement table srid target_srid f = Ok row)
      features rows
    ∧ ingest_geojson_to_postgis file_path table_name source_srid
        target_srid w
      = (r, w',
         (o1 ++ o2
          ++ [Input confirm_prompt; Execute (Stmt create_table_sql []);
              Print (PyStr.nl +:+ "Inserting " +:+ pretty (length features)
                     +:+ " features into the database...")]
          ++ o3 ++ Commit :: tail)%list)
    ∧ attempts o3 = rows
    ∧ reported o3 = refusals (replay db rows)
    ∧ commits (o1 ++ o2 ++ o3) = 0
    ∧ match (db_commit (db_after db rows)).2 with
      | None =>
          r = Ok true
          ∧ tail = [Print (PyStr.nl +:+ "Completed: "
                           +:+ pretty (accepted (replay db rows))
                           +:+ " out of " +:+ pretty (length features)
                           +:+ " features inserted successfully.");
                    Print ("Data was automatically transformed from EPSG:"
                           +:+ pretty srid +:+ " to EPSG:"
                           +:+ pretty target_srid)]
      | Some msg =>
          r = Ok false
          ∧ tail = [PrintError "Error ingesting GeoJSON: " (DatabaseError msg)]
      end.
Proof.
  intros table Hexamine Hplan Hstdin Hyes Hcreate Hfeatures Hrows.
  destruct (features_rows table srid target_srid features Hrows) as (rows & Hall).
  destruct (insert_features_run table srid target_srid (length features)
              features rows Hall 0
              (with_db (mkWorld (w_files w2) (w_readonly w2) stdin (w_db w2)) db))
    as (o3 & Hloop & Hatt & Hrep & Hcom).
  cbn [w_db with_db] in Hloop, Hrep.
  assert (Hq1 : Forall quiet o1).
  { destruct (examine_geojson_quiet file_path w) as (r & o & Hrun & Hq).
    rewrite Hexamine in Hrun. simplify_eq. assumption. }
  assert (Hq2 : commits o2 = 0).
  { destruct (plan_table_run table info source_srid target_srid w1)
      as (o & Hq & [(e & Hrun)|(cs & ty & s & Hrun)]);
      cbv zeta in Hrun; rewrite Hplan in Hrun; simplify_eq.
    rewrite commits_app, (quiet_no_commit o Hq). reflexivity. }
  exists rows, o3.
  unfold ingest_geojson_to_postgis, catch, bind. fold table.
  rewrite Hexamine. unfold ingest_document, bind. rewrite Hplan.
  cbn [fst snd]. unfold confirm_and_load, bind, input. rewrite Hstdin.
  rewrite Hyes. cbn [negb]. unfold create_and_load, bind, cursor_execute.
  cbn [w_db]. rewrite Hcreate. unfold lift. rewrite Hfeatures.
  cbn [Py.len Py.iter]. unfold print, emit.
  cbn [w_db with_db w_files w_readonly w_stdin].
  unfold with_db in Hloop |- *. cbn [w_db w_files w_readonly w_stdin] in Hloop |- *.
  rewrite Hloop. unfold conn_commit. cbn [w_db].
  destruct (db_commit (db_after db rows)) as [db' [msg|]]; cbn [snd];
    unfold ret; cbn [app]; repeat (rewrite <- !app_assoc; cbn [app]);
    (eexists _, _, _; split; [exact Hall|];
     split; [reflexivity|];
     split; [exact Hatt|]; split; [exact Hrep|];
     split; [|split; reflexivity];
     rewrite !commits_app, (quiet_no_commit o1 Hq1), Hq2, Hcom; reflexivity).
Qed.

(** *** What the database phase may emit *)

Section DatabasePhase.

Context (P : event → Prop) (Hquiet : ∀ e, quiet e → P e).

Lemma cursor_execute_obeys (stmt : statement) :
  P (Execute stmt) →
  obeys (DB:=DB) same_files P (λ _, True) (cursor_execute stmt).
Proof.
  intros HP w. unfold cursor_execute.
  destruct (db_execute (w_db w) stmt) as [db [msg|]]; cbn;
    (split; [reflexivity|]; split; [repeat constructor; exact HP|done]).
Qed.

Lemma conn_commit_obeys :
  P Commit → obeys (DB:=DB) same_files P (λ _, True) conn_commit.
Proof.
  intros HP w. unfold conn_commit.
  destruct (db_commit (w_db w)) as [db [msg|]]; cbn;
    (split; [reflexivity|]; split; [repeat constructor; exact HP|done]).
Qed.

Lemma input_obeys (prompt : string) :
  P (Input prompt) →
  obeys (DB:=DB) same_files P (λ _, True) (input prompt).
Proof.
  intros HP w. unfold input.
  destruct (w_stdin w); cbn;
    (split; [reflexivity|]; split; [repeat constructor; exact HP|done]).
Qed.

Ltac phase_step :=
  first
    [ apply obeys_ret; apply _
    | apply obeys_raise; [apply _|exact I]
    | apply obeys_lift; [apply _|intros; exact I]
    | apply obeys_emit; [apply _|apply Hquiet; exact I]
    | apply obeys_bind; [apply _| |intros ?]
    | progress unfold print
    | case_match ].

Context (table_name : string) (source_srid target_srid : Z).
Context (Hrow : ∀ feature row,
            row_statement table_name source_srid target_srid feature = Ok row →
            P (Execute row)).
Context (Hcommit : P Commit).

Lemma insert_feature_obeys (total : nat) (feature : json) (inserted : nat) :
  obeys (DB:=DB) same_files P (λ _, True)
    (insert_feature table_name source_srid target_srid total feature inserted).
Proof.
  unfold insert_feature.
  apply obeys_bind_lift; [apply _| |done]. intros row Hstmt.
  eapply obeys_catch; [apply _| |intros e _; repeat phase_step].
  apply obeys_bind;
    [apply _|apply cursor_execute_obeys; eapply Hrow, Hstmt|intros ?].
  repeat phase_step.
Qed.

Lemma insert_features_obeys (total : nat) (features : list json)
      (inserted : nat) :
  obeys (DB:=DB) same_files P (λ _, True)
    (insert_features table_name source_srid target_srid total features
       inserted).
Proof.
  revert inserted.
  induction features as [|f fs IH]; intros inserted; cbn [insert_features].
  - apply obeys_ret; apply _.
  - apply obeys_bind; [apply _|apply insert_feature_obeys|intros ?]. apply IH.
Qed.

Lemma create_and_load_obeys (create_table_sql : string) (raw_data : json) :
  P (Execute (Stmt create_table_sql [])) →
  obeys (DB:=DB) same_files P (λ _, True)
    (create_and_load table_name create_table_sql source_srid target_srid
       raw_data).
Proof.
  intros Hcreate. unfold create_and_load.
  apply obeys_bind; [apply _|apply cursor_execute_obeys, Hcreate|intros ?].
  do 4 (apply obeys_bind; [apply _|repeat phase_step|intros ?]).
  apply obeys_bind; [apply _|apply insert_features_obeys|intros ?].
  apply obeys_bind; [apply _|apply conn_commit_obeys, Hcommit|intros ?].
  repeat phase_step.
Qed.

Lemma confirm_and_load_obeys (create_table_sql : string) (raw_data : json) :
  P (Input confirm_prompt) →
  P (Execute (Stmt create_table_sql [])) →
  obeys (DB:=DB) same_files P (λ _, True)
    (confirm_and_load table_name create_table_sql source_srid target_srid
       raw_data).
Proof.
  intros Hinput Hcreate. unfold confirm_and_load.
  apply obeys_bind; [apply _|apply input_obeys, Hinput|intros answer].
  case_match; [repeat phase_step|apply create_and_load_obeys, Hcreate].
Qed.

End DatabasePhase.

Lemma bind_emits_first {A B} (m : M A) (k : A → M B) (w : World DB)
      (ev : event) :
  (∃ r w1, m w = (r, w1, [ev])) → ∃ r w' o, bind m k w = (r, w', ev :: o).
Proof.
  intros (r & w1 & Hm). unfold bind. rewrite Hm. destruct r as [a|e].
  - destruct (k a w1) as [[r' w'] o']. eexists _, _, _. reflexivity.
  - eexists _, _, _. reflexivity.
Qed.

Lemma create_and_load_head
      (table_name create_table_sql : string) (source_srid target_srid : Z)
      (raw_data : json) (w : World DB) :
  ∃ r w' o,
    create_and_load table_name create_table_sql source_srid target_srid
      raw_data w
    = (r, w', Execute (Stmt create_table_sql []) :: o)
    ∧ w_files w' = w_files w.
Proof.
  assert (Hhead : ∃ r w' o,
             create_and_load table_name create_table_sql source_srid
               target_srid raw_data w
             = (r, w', Execute (Stmt create_table_sql []) :: o)).
  { unfold create_and_load. apply bind_emits_first. unfold cursor_execute.
    destruct (db_execute (w_db w) (Stmt create_table_sql [])) as [db [msg|]];
      eexists _, _; reflexivity. }
  destruct Hhead as (r & w' & o & Hrun).
  exists r, w', o. split; [exact Hrun|].
  destruct (create_and_load_obeys (λ _, True) (λ _ _, I) table_name
              source_srid target_srid (λ _ _ _, I) I create_table_sql
              raw_data I w) as (Hfiles & _ & _).
  rewrite Hrun in Hfiles. exact Hfiles.
Qed.

(** The run of [ingest_geojson_to_postgis], phase by phase: console
    output only, then the side file and the question, then, on a
    positive answer alone, the statements. *)
Lemma ingest_phases (file_path table_name : string) (source_srid : option Z)
      (target_srid : Z) (w : World DB) :
  let table := PyStr.replace "-" "_" table_name in
  ∃ o0 rest r w',
    ingest_geojson_to_postgis file_path table_name source_srid target_srid w
    = (r, w', (o0 ++ rest)%list)
    ∧ Forall quiet o0
    ∧ ((rest = [] ∧ r = Ok false ∧ w' = w)
       ∨ (∃ columns_sql postgis_type rest',
             let create_table_sql :=
               create_table_statement table columns_sql postgis_type
                 target_srid in
             rest = WriteFile (structure_file table) create_table_sql
                    :: Input confirm_prompt :: rest'
             ∧ w_files w'
               = <[structure_file table
                   := list_byte_of_string create_table_sql]> (w_files w)
             ∧ ((Forall quiet rest' ∧ r = Ok false ∧ w_db w' = w_db w
                 ∧ ∀ answer, head (w_stdin w) = Some answer →
                             confirmed (PyStr.lower answer) = false)
                ∨ (∃ answer rest'',
                      head (w_stdin w) = Some answer
                      ∧ confirmed (PyStr.lower answer) = true
                      ∧ rest' = Execute (Stmt create_table_sql [])
                                :: rest'')))).
Proof.
  intros table.
  unfold ingest_geojson_to_postgis, catch, bind. fold table.
  destruct (examine_geojson_quiet file_path w) as (r1 & o1 & -> & Hq1).
  destruct r1 as [info|]; cycle 1.
  { exists o1, [], (Ok false), w. cbn.
    split; [reflexivity|]. split; [assumption|]. left. done. }
  unfold ingest_document, bind.
  destruct (plan_table_run table info source_srid target_srid w)
    as (o2 & Hq2 & [(e & ->)|(cs & ty & srid & Hplan)]).
  { exists (o1 ++ o2 ++ [PrintError "Error ingesting GeoJSON: " e])%list, [],
      (Ok false), w.
    cbn. rewrite !app_nil_r, <- app_assoc.
    split; [reflexivity|]. split; [|left; done].
    rewrite !Forall_app. repeat split; try assumption. repeat constructor. }
  cbv zeta in Hplan. rewrite Hplan. cbn [fst snd].
  exists (o1 ++ o2)%list.
  unfold confirm_and_load, bind, input; cbn [w_stdin w_files w_readonly w_db].
  destruct (w_stdin w) as [|answer stdin] eqn:Hstdin.
  { eexists _, _, _. split.
    { cbn. rewrite <- !app_assoc. cbn. reflexivity. }
    split; [apply Forall_app; split; assumption|].
    right. exists cs, ty, [PrintError "Error ingesting GeoJSON: " EOFError].
    cbn. split; [reflexivity|]. split; [reflexivity|].
    left. split; [repeat constructor|]. split; [reflexivity|].
    split; [reflexivity|]. intros ? [=]. }
  destruct (confirmed (PyStr.lower answer)) eqn:Hyes; cbn [negb].
  - destruct (create_and_load_head table
                (create_table_statement table cs ty target_srid) srid
                target_srid (raw_data info)
                (mkWorld (<[structure_file table
                            := list_byte_of_string
                                 (create_table_statement table cs ty
                                    target_srid)]> (w_files w))
                         (w_readonly w) stdin (w_db w)))
      as (r & w' & o & -> & Hfiles).
    cbn [w_files] in Hfiles.
    destruct r as [b|e]; cbn; rewrite ?app_nil_r, <- ?app_assoc; cbn.
    + eexists _, _, _. split; [rewrite <- app_assoc; reflexivity|].
      split; [apply Forall_app; split; assumption|].
      right. exists cs, ty. eexists. cbn.
      split; [reflexivity|]. split; [exact Hfiles|].
      right. exists answer. eexists. split; [reflexivity|].
      split; [exact Hyes|reflexivity].
    + eexists _, _, _. split; [rewrite <- app_assoc; reflexivity|].
      split; [apply Forall_app; split; assumption|].
      right. exists cs, ty. eexists. cbn.
      split; [reflexivity|]. split; [exact Hfiles|].
      right. exists answer. eexists. split; [reflexivity|].
      split; [exact Hyes|reflexivity].
  - cbn; rewrite ?app_nil_r, <- ?app_assoc; cbn.
    eexists _, _, _. split; [rewrite <- app_assoc; reflexivity|].
    split; [apply Forall_app; split; assumption|].
    right. exists cs, ty, [Print "Operation cancelled by user."].
    cbn. split; [reflexivity|]. split; [reflexivity|].
    left. split; [repeat constructor|]. split; [reflexivity|].
    split; [reflexivity|]. intros ? [= <-]. exact Hyes.
Qed.

Lemma split_after_quiet (o0 l pre post : list event) (x : event) :
  (o0 ++ l = pre ++ x :: post)%list → Forall quiet o0 → ¬ quiet x →
  ∃ pre', pre = (o0 ++ pre')%list ∧ l = (pre' ++ x :: post)%list.
Proof.
  revert pre. induction o0 as [|a o0 IH]; intros pre Heq Hq Hx.
  - exists pre. split; [reflexivity|exact Heq].
  - apply Forall_cons in Hq as [Ha Hq].
    destruct pre as [|p pre]; cbn in Heq; simplify_eq; [contradiction|].
    destruct (IH pre ltac:(assumption) Hq Hx) as (pre' & -> & ->).
    exists pre'. split; reflexivity.
Qed.

Lemma attempts_app (o1 o2 : list event) :
  attempts (o1 ++ o2) = (attempts o1 ++ attempts o2)%list.
Proof. apply omap_app. Qed.

(** C7: in every run, a statement is only ever executed after the
    question has been put and answered, and when the answer, in lower
    case, is neither yes nor y (or there is none), the function returns
    False, no statement is executed, nothing is committed and the
    database is as it was. *)
Theorem nothing_executed_unconfirmed
        (file_path table_name : string) (source_srid : option Z)
        (target_srid : Z) (w : World DB) :
  let run :=
    ingest_geojson_to_postgis file_path table_name source_srid target_srid w in
  (∀ pre stmt post,
      run.2 = (pre ++ Execute stmt :: post)%list → Input confirm_prompt ∈ pre)
  ∧ (∀ proceed, confirmed proceed = true ↔ proceed = "yes" ∨ proceed = "y")
  ∧ ((∀ answer, head (w_stdin w) = Some answer →
                confirmed (PyStr.lower answer) = false) →
     run.1.1 = Ok false
     ∧ attempts run.2 = []
     ∧ commits run.2 = 0
     ∧ w_db run.1.2 = w_db w).
Proof.
  intros run. subst run.
  destruct (ingest_phases file_path table_name source_srid target_srid w)
    as (o0 & rest & r & w' & -> & Hq0 & Hcases).
  cbn [fst snd]. split; [|split].
  - intros pre stmt post Heq.
    destruct (split_after_quiet _ _ _ _ _ Heq Hq0 ltac:(cbn; tauto))
      as (pre' & -> & Hrest).
    destruct Hcases as [(-> & _)|(cs & ty & rest' & -> & _)].
    + destruct pre'; discriminate.
    + destruct pre' as [|e1 [|e2 pre']]; cbn in Hrest; simplify_eq.
      set_solver.
  - intros proceed. unfold confirmed.
    rewrite orb_true_iff, !String.eqb_eq. reflexivity.
  - intros Hno.
    destruct Hcases as [(-> & -> & ->)|(cs & ty & rest' & -> & _ & Hrest)].
    + rewrite app_nil_r.
      split; [reflexivity|]. split; [apply quiet_no_attempt, Hq0|].
      split; [apply quiet_no_commit, Hq0|reflexivity].
    + destruct Hrest as [(Hq & -> & Hdb & _)|(answer & ? & Hhead & Hyes & _)].
      * split; [reflexivity|].
        rewrite attempts_app, commits_app, (quiet_no_attempt _ Hq0),
          (quiet_no_commit _ Hq0).
        unfold attempts, commits in *; cbn.
        pose proof (quiet_no_attempt _ Hq) as Ha.
        pose proof (quiet_no_commit _ Hq) as Hc.
        unfold attempts, commits in Ha, Hc. rewrite Ha, Hc.
        split; [reflexivity|]. split; [reflexivity|exact Hdb].
      * rewrite (Hno answer Hhead) in Hyes. discriminate.
Qed.

(** C6: in every run that executes a statement, the first statement
    executed is the CREATE TABLE statement for the sanitized table name,
    and before it is executed its exact text has been written to the
    file named after that table name followed by _table_structure.sql;
    when the run ends, that file holds this text. *)
Theorem statement_written_before_executed
        (file_path table_name : string) (source_srid : option Z)
        (target_srid : Z) (w : World DB) (pre post : list event)
        (stmt : statement) :
  let table := PyStr.replace "-" "_" table_name in
  let run :=
    ingest_geojson_to_postgis file_path table_name source_srid target_srid w in
  run.2 = (pre ++ Execute stmt :: post)%list →
  attempts pre = [] →
  WriteFile (structure_file table) (sql stmt) ∈ pre
  ∧ w_files run.1.2 !! structure_file table
    = Some (list_byte_of_string (sql stmt))
  ∧ ∃ columns_sql postgis_type,
      stmt = Stmt (create_table_statement table columns_sql postgis_type
                     target_srid) [].
Proof.
  intros table run. subst run.
  destruct (ingest_phases file_path table_name source_srid target_srid w)
    as (o0 & rest & r & w' & -> & Hq0 & Hcases).
  fold table in Hcases. cbn [fst snd]. intros Heq Hfirst.
  destruct (split_after_quiet _ _ _ _ _ Heq Hq0 ltac:(cbn; tauto))
    as (pre' & -> & Hrest).
  destruct Hcases as [(-> & _)|(cs & ty & rest' & -> & Hfiles & Hcases)].
  { destruct pre'; discriminate. }
  destruct pre' as [|e1 [|e2 pre']]; cbn in Hrest; simplify_eq.
  destruct Hcases as [(Hq & _)|(answer & rest'' & _ & _ & Hexec)].
  { apply Forall_app in Hq as [_ Hq]. apply Forall_cons in Hq as [[] _]. }
  rewrite attempts_app in Hfirst. apply app_eq_nil in Hfirst as [_ Hfirst].
  destruct pre' as [|e3 pre']; cbn in Hexec; simplify_eq.
  cbn [sql]. split; [set_solver|].
  split; [rewrite Hfiles; apply lookup_insert_eq|].
  exists cs, ty. reflexivity.
Qed.

(** *** The table name *)

Lemma replace_length (old new : ascii) (s : string) :
  String.length (PyStr.replace old new s) = String.length s.
Proof. induction s as [|c s IH]; cbn; [reflexivity|]. rewrite IH. reflexivity. Qed.

Lemma replace_get (old new : ascii) (s : string) (i : nat) :
  String.get i (PyStr.replace old new s)
  = (λ c, if Ascii.eqb c old then new else c) <$> String.get i s.
Proof.
  revert i. induction s as [|c s IH]; intros i; cbn; [reflexivity|].
  destruct i as [|i]; [reflexivity|]. apply IH.
Qed.

Lemma quiet_names_table table target_srid e :
  quiet e → names_table table target_srid e.
Proof. destruct e; cbn; tauto. Qed.

(** C10: the table name used by the run is the given name with each
    hyphen replaced by an underscore and every other character left as
    it is, in place.  This name stands as it is in every text of the
    run: a file the run writes is named by it followed by
    _table_structure.sql, and a statement the run executes is, character
    by character, the CREATE TABLE text with the name after CREATE TABLE
    IF NOT EXISTS or an INSERT text with the name after INSERT INTO. *)
Theorem table_name_sanitized
        (file_path table_name : string) (source_srid : option Z)
        (target_srid : Z) (w : World DB) :
  let table := PyStr.replace "-" "_" table_name in
  String.length table = String.length table_name
  ∧ (∀ i, String.get i table
          = (λ c, if Ascii.eqb c "-" then "_"%char else c)
              <$> String.get i table_name)
  ∧ Forall (names_table table target_srid)
      (ingest_geojson_to_postgis file_path table_name source_srid
         target_srid w).2.
Proof.
  intros table. split; [apply replace_length|]. split; [apply replace_get|].
  unfold ingest_geojson_to_postgis, catch, bind. fold table.
  destruct (examine_geojson_quiet file_path w) as (r1 & o1 & -> & Hq1).
  assert (Hn1 : Forall (names_table table target_srid) o1).
  { eapply Forall_impl; [exact Hq1|apply quiet_names_table]. }
  destruct r1 as [info|]; [|cbn; rewrite app_nil_r; exact Hn1].
  unfold ingest_document, bind.
  destruct (plan_table_run table info source_srid target_srid w)
    as (o2 & Hq2 & [(e & ->)|(cs & ty & srid & Hplan)]).
  { cbn. rewrite !Forall_app. repeat split; try assumption.
    - eapply Forall_impl; [exact Hq2|apply quiet_names_table].
    - repeat constructor. }
  cbv zeta in Hplan. rewrite Hplan. cbn [fst snd].
  match goal with
  | |- context [confirm_and_load ?t ?c ?s ?g ?d ?w2] =>
      destruct (confirm_and_load_obeys (names_table table target_srid)
                  (quiet_names_table table target_srid) t s g
                  ltac:(intros f row Hrow;
                        destruct (row_statement_sql _ _ _ _ _ Hrow)
                          as (pn & ph & Hsql);
                        right; exists pn, ph, s; rewrite Hsql; reflexivity)
                  I c d I ltac:(left; exists cs, ty; reflexivity) w2)
        as (_ & Hn3 & _);
      destruct (confirm_and_load t c s g d w2) as [[r w'] o3]
  end.
  cbn in Hn3.
  assert (Hn2 : Forall (names_table table target_srid)
                  (o2 ++ [WriteFile (structure_file table)
                            (create_table_statement table cs ty target_srid)])).
  { apply Forall_app. split; [|repeat constructor].
    eapply Forall_impl; [exact Hq2|apply quiet_names_table]. }
  apply Forall_app in Hn2 as [Hn2 Hwrite].
  destruct r as [b|e]; cbn; rewrite !Forall_app; repeat split;
    try assumption; repeat constructor.
Qed.

(** *** Further properties of [examine_geojson] *)

(** X1: [examine_geojson] never raises, changes nothing and only prints
    and opens the file for reading.  When it returns a description it has
    reported no error; when it returns nothing it has reported exactly one
    error, as the last thing it printed. *)
Theorem examine_reports_or_returns (file_path : string) (w : World DB) :
  ∃ r o,
    examine_geojson file_path w = (Ok r, w, o)
    ∧ match r with
      | Some info =>
          Forall plain o ∧ examine_document file_path w = (Ok info, w, o)
      | None =>
          ∃ o' e, o = (o' ++ [PrintError "Error examining GeoJSON: " e])%list
                  ∧ Forall plain o'
      end.
Proof.
  assert (Hdoc : obeys (DB:=DB) eq plain (λ _, True) (examine_document file_path)).
  { apply examine_document_obeys; [apply load_document_obeys|intros; exact I]. }
  destruct (examine_geojson_run file_path _ w Hdoc)
    as (o & Hplain & [(info & -> & Hinfo)|(e & _ & ->)]);
    eexists _, _; (split; [reflexivity|]).
  - split; assumption.
  - exists o, e. split; [reflexivity|assumption].
Qed.

(** X20: a feature whose geometry is null, which GeoJSON allows for a
    feature without location, ends the examination: the test of line 40
    raises TypeError on it, whatever the features before it are (counted
    or skipped) and whatever follows it.  The error is reported,
    [examine_geojson] returns None, and [ingest_geojson_to_postgis]
    returns False with nothing more printed and the world unchanged. *)
Theorem null_geometry_is_not_examined
        (file_path table_name : string) (source_srid : option Z)
        (target_srid : Z) (w : World DB) (members : list (string * json))
        (before after : list json) (marks : list (option string))
        (unlocated : list (string * json)) :
  (load_document file_path encodings_to_try w).1.1 = Ok (JObject members) →
  Py.assoc "features" members
  = Some (JArray (before ++ JObject unlocated :: after)) →
  Forall2 marked before marks →
  Py.assoc "geometry" unlocated = Some JNull →
  ∃ o,
    Forall plain o
    ∧ examine_geojson file_path w
      = (Ok None, w, (o ++ [PrintError "Error examining GeoJSON: " TypeError])%list)
    ∧ ingest_geojson_to_postgis file_path table_name source_srid target_srid w
      = (Ok false, w,
         (o ++ [PrintError "Error examining GeoJSON: " TypeError])%list).
Proof.
  intros Hload Hfeatures Hmarks Hnull.
  destruct (load_document_obeys file_path encodings_to_try w) as (Hw & Ho & _).
  assert (Hscan : scan_features (JObject members)
                    (length (before ++ JObject unlocated :: after))
                  = Raise TypeError).
  { unfold scan_features. rewrite length_app. cbn [length].
    replace (0 <? length before + S (length after))%nat with true
      by (symmetry; apply Nat.ltb_lt; lia).
    cbn [Py.getitem]. rewrite Hfeatures. cbn [rbind].
    assert (Hfirst : ∃ fm, Py.first (JArray (before ++ JObject unlocated :: after))
                           = Ok (JObject fm)).
    { destruct Hmarks as [|f m fs ms (fm & -> & _) _]; eexists; reflexivity. }
    destruct Hfirst as (fm & ->). cbn [rbind Py.get Py.iter].
    rewrite collect_geometry_types_app.
    rewrite (collect_geometry_types_marked before marks (∅, false) Hmarks).
    cbn [rbind collect_geometry_types].
    unfold add_geometry_type, Py.contains, Py.getitem. rewrite Hnull.
    rewrite bool_decide_true by eauto. reflexivity. }
  assert (Hexamine : examine_geojson file_path w
                     = (Ok None, w,
                        ((load_document file_path encodings_to_try w).2
                         ++ [PrintError "Error examining GeoJSON: " TypeError])%list)).
  { unfold examine_geojson, examine_document, catch, bind, lift.
    destruct (load_document file_path encodings_to_try w) as [[r w1] o1].
    cbn in Hload, Hw. subst r w1.
    cbn [Py.get]. rewrite Hfeatures. cbn [Py.len]. rewrite Hscan.
    cbn. rewrite ?app_nil_r. reflexivity. }
  exists (load_document file_path encodings_to_try w).2.
  split; [exact Ho|]. split; [exact Hexamine|].
  unfold ingest_geojson_to_postgis, catch, bind. rewrite Hexamine.
  cbn. rewrite ?app_nil_r. reflexivity.
Qed.

(** X2: when the file does not exist it is opened once, as utf-8; the
    other encodings are not tried, the error is reported by
    [examine_geojson], and [ingest_geojson_to_postgis] returns False
    without printing anything of its own and without any other effect. *)
Theorem missing_file_is_reported
        (file_path table_name : string) (source_srid : option Z)
        (target_srid : Z) (w : World DB) :
  w_files w !! file_path = None →
  ingest_geojson_to_postgis file_path table_name source_srid target_srid w
  = (Ok false, w,
     [OpenRead file_path "utf-8";
      PrintError "Error examining GeoJSON: " FileNotFoundError]).
Proof.
  intros Hfile.
  unfold ingest_geojson_to_postgis, examine_geojson, examine_document, catch,
    bind, encodings_to_try.
  cbn [load_document]. unfold catch, open_and_load, bind, emit, read_bytes.
  rewrite Hfile. reflexivity.
Qed.

Lemma set_order_empty : set_order ∅ = [].
Proof.
  apply Permutation_nil_r. rewrite set_order_perm, elements_empty. reflexivity.
Qed.

Lemma resolve_empty : resolve_geometry_type ∅ = None.
Proof.
  unfold resolve_geometry_type.
  rewrite !(bool_decide_false (_ ∈ ∅)) by set_solver.
  rewrite bool_decide_false by (intros Hne; apply Hne; reflexivity).
  reflexivity.
Qed.

(** X3: a document without features (no features member, or an empty
    list) is examined without error, with 0 features, no geometry type and
    no properties; it is then never ingested:
    [ingest_geojson_to_postgis] fails on the missing properties, reports
    the error and returns False, having written no file, asked no question
    and executed no statement. *)
Theorem empty_collection_is_rejected
        (file_path table_name : string) (source_srid : option Z)
        (target_srid : Z) (w : World DB) (members : list (string * json)) :
  (load_document file_path encodings_to_try w).1.1 = Ok (JObject members) →
  Py.assoc "features" members = None
  ∨ Py.assoc "features" members = Some (JArray []) →
  (∃ o, examine_geojson file_path w
        = (Ok (Some (Info 0 None JNull (JObject members))), w, o))
  ∧ ∃ o e,
      ingest_geojson_to_postgis file_path table_name source_srid target_srid w
      = (Ok false, w, (o ++ [PrintError "Error ingesting GeoJSON: " e])%list)
      ∧ Forall quiet o
      ∧ (is_Some source_srid → e = AttributeError).
Proof.
  intros Hload Hfeatures.
  destruct (load_document_obeys file_path encodings_to_try w) as (Hw & Ho & _).
  destruct (load_document file_path encodings_to_try w) as [[r w1] o1] eqn:Hrun.
  cbn in Hload, Hw, Ho. subst r w1.
  assert (Hexamine :
            examine_geojson file_path w
            = (Ok (Some (Info 0 None JNull (JObject members))), w,
               (o1 ++ [Print (PyStr.nl +:+ "GeoJSON Analysis:");
                       Print "Total features: 0";
                       Print "Geometry types found: ";
                       Print "Selected geometry type for table: None";
                       Print "Properties structure:"; PPrint JNull])%list)).
  { unfold examine_geojson, examine_document, catch, bind, lift, print, emit.
    rewrite Hrun.
    assert (Hget : Py.get (JObject members) "features" (JArray [])
                   = Ok (JArray [])).
    { unfold Py.get. destruct Hfeatures as [-> | ->]; reflexivity. }
    rewrite Hget. cbn [Py.len length scan_features Nat.ltb Nat.leb fst snd].
    rewrite resolve_empty, set_order_empty.
    replace (pretty 0%nat) with "0" by (vm_compute; reflexivity).
    cbn -[pretty]. rewrite ?app_nil_r. reflexivity. }
  split; [eexists; exact Hexamine|].
  unfold ingest_geojson_to_postgis, catch, bind. rewrite Hexamine.
  unfold ingest_document, bind, plan_table, bind.
  cbn [raw_data properties geometry_type].
  destruct (choose_source_srid_obeys source_srid (JObject members) w)
    as (Hw2 & Ho2 & _).
  assert (Hgiven : ∀ s, source_srid = Some s →
                        choose_source_srid source_srid (JObject members) w
                        = (Ok s, w, [])).
  { intros s ->. reflexivity. }
  destruct (choose_source_srid source_srid (JObject members) w)
    as [[[srid|e] w2] o2]; cbn in Hw2, Ho2; subst w2.
  - cbn -[pretty].
    match goal with
    | |- context [(Ok false, w, (?pre ++ [_])%list)] =>
        exists pre, AttributeError
    end.
    split; [reflexivity|]. split; [|reflexivity].
    rewrite !Forall_app. repeat split; try assumption; try constructor.
    all: try (eapply Forall_impl; [exact Ho|apply plain_quiet]).
    all: repeat constructor.
  - cbn -[pretty].
    match goal with
    | |- context [(Ok false, w, (?pre ++ [_])%list)] => exists pre, e
    end.
    split; [reflexivity|]. split.
    + rewrite !Forall_app. repeat split; try assumption; try constructor.
      all: try (eapply Forall_impl; [exact Ho|apply plain_quiet]).
      all: repeat constructor.
    + intros [s Hs]. specialize (Hgiven s Hs). discriminate.
Qed.

(** *** Further properties of the loop over the features *)

Lemma not_feature_row table_name source_srid target_srid feature :
  ¬ is_feature feature →
  row_statement table_name source_srid target_srid feature = Raise AttributeError.
Proof.
  intros Hnot. unfold row_statement.
  destruct feature as [| | | | |items|members]; try reflexivity.
  cbn. destruct (Py.assoc "properties" members) as [v|] eqn:Hprops.
  - destruct v; try reflexivity.
    exfalso. apply Hnot. eexists. split; [reflexivity|].
    rewrite Hprops. eexists. reflexivity.
  - exfalso. apply Hnot. eexists. split; [reflexivity|]. rewrite Hprops. exact I.
Qed.

Lemma row_is_feature table_name source_srid target_srid feature row :
  row_statement table_name source_srid target_srid feature = Ok row →
  is_feature feature.
Proof.
  intros Hrow. unfold row_statement in Hrow.
  destruct feature as [| | | | |items|members]; try discriminate.
  exists members. split; [reflexivity|]. cbn in Hrow.
  destruct (Py.assoc "properties" members) as [v|]; [|exact I].
  destruct v; try discriminate. eexists. reflexivity.
Qed.

Lemma insert_features_abort table_name source_srid target_srid total
      good rows bad rest e :
  Forall2 (λ f row, row_statement table_name source_srid target_srid f
                    = Ok row) good rows →
  row_statement table_name source_srid target_srid bad = Raise e →
  ∀ inserted (w : World DB),
    ∃ o, insert_features table_name source_srid target_srid total
           (good ++ bad :: rest) inserted w
         = (Raise e, with_db w (db_after (w_db w) rows), o)
         ∧ attempts o = rows
         ∧ reported o = refusals (replay (w_db w) rows)
         ∧ commits o = 0.
Proof.
  intros Hall Hbad.
  induction Hall as [|f row fs rows Hrow _ IH]; intros inserted w.
  - exists []. cbn [app insert_features]. unfold bind, insert_feature, bind, lift.
    rewrite Hbad. destruct w; repeat split; reflexivity.
  - cbn [app insert_features]. unfold bind.
    rewrite (insert_feature_run _ _ _ _ _ row) by assumption.
    cbn [replay db_after].
    destruct (db_execute (w_db w) row) as [db [msg|]] eqn:Hexec; cbn [fst].
    + destruct (IH inserted (with_db w db)) as (o & -> & Hatt & Hrep & Hcom).
      eexists. split; [reflexivity|].
      unfold attempts, reported, commits in *.
      cbn. rewrite Hatt, Hrep. repeat split; try reflexivity. exact Hcom.
    + destruct (IH (S inserted) (with_db w db)) as (o & -> & Hatt & Hrep & Hcom).
      eexists. split; [reflexivity|].
      unfold attempts, reported, commits in *.
      destruct (progress_due (S inserted) total);
        cbn; rewrite ?Hatt, ?Hrep; repeat split; try reflexivity; exact Hcom.
Qed.

(** X4: a row is built exactly for a feature that is an object whose
    properties, when present, are an object.  Any other feature in the
    sequence (a feature with null properties, say) raises outside the
    per-row handler and ends the whole run: the features before it have
    been tried, nothing is committed, no later feature is tried, the error
    is reported and the function returns False. *)
Theorem malformed_feature_aborts
        (file_path table_name : string) (source_srid : option Z)
        (target_srid : Z) (w w1 w2 : World DB) (info : geojson_info)
        (o1 o2 : list event) (create_table_sql : string) (srid : Z)
        (answer : string) (stdin : list string) (db : DB)
        (good rest : list json) (bad : json) :
  let table := PyStr.replace "-" "_" table_name in
  examine_geojson file_path w = (Ok (Some info), w1, o1) →
  plan_table table info source_srid target_srid w1
  = (Ok (create_table_sql, srid), w2, o2) →
  w_stdin w2 = answer :: stdin →
  confirmed (PyStr.lower answer) = true →
  db_execute (w_db w2) (Stmt create_table_sql []) = (db, None) →
  Py.getitem (raw_data info) "features" = Ok (JArray (good ++ bad :: rest)) →
  Forall is_feature good →
  ¬ is_feature bad →
  (∀ f, (∃ row, row_statement table srid target_srid f = Ok row)
        ↔ is_feature f)
  ∧ ∃ rows o3 w',
      Forall2 (λ f row, row_statement table srid target_srid f = Ok row)
        good rows
      ∧ ingest_geojson_to_postgis file_path table_name source_srid
          target_srid w
        = (Ok false, w',
           (o1 ++ o2
            ++ [Input confirm_prompt; Execute (Stmt create_table_sql []);
                Print (PyStr.nl +:+ "Inserting "
                       +:+ pretty (length (good ++ bad :: rest))
                       +:+ " features into the database...")]
            ++ o3
            ++ [PrintError "Error ingesting GeoJSON: " AttributeError])%list)
      ∧ attempts o3 = rows
      ∧ commits (o1 ++ o2 ++ o3) = 0
      ∧ w_db w' = db_after db rows.
Proof.
  intros table Hexamine Hplan Hstdin Hyes Hcreate Hfeatures Hgood Hbad.
  split.
  { intros f. split.
    - intros (row & Hrow). eapply row_is_feature, Hrow.
    - apply is_feature_row. }
  destruct (features_rows table srid target_srid good Hgood) as (rows & Hall).
  destruct (insert_features_abort table srid target_srid
              (length (good ++ bad :: rest)) good rows bad rest AttributeError
              Hall (not_feature_row _ _ _ _ Hbad) 0
              (with_db (mkWorld (w_files w2) (w_readonly w2) stdin (w_db w2)) db))
    as (o3 & Hloop & Hatt & _ & Hcom).
  cbn [w_db with_db] in Hloop.
  assert (Hq1 : Forall quiet o1).
  { destruct (examine_geojson_quiet file_path w) as (r & o & Hrun & Hq).
    rewrite Hexamine in Hrun. simplify_eq. assumption. }
  assert (Hq2 : commits o2 = 0).
  { destruct (plan_table_run table info source_srid target_srid w1)
      as (o & Hq & [(e & Hrun)|(cs & ty & s & Hrun)]);
      cbv zeta in Hrun; rewrite Hplan in Hrun; simplify_eq.
    rewrite commits_app, (quiet_no_commit o Hq). reflexivity. }
  exists rows, o3.
  unfold ingest_geojson_to_postgis, catch, bind. fold table.
  rewrite Hexamine. unfold ingest_document, bind. rewrite Hplan.
  cbn [fst snd]. unfold confirm_and_load, bind, input. rewrite Hstdin.
  rewrite Hyes. cbn [negb]. unfold create_and_load, bind, cursor_execute.
  cbn [w_db]. rewrite Hcreate. unfold lift. rewrite Hfeatures.
  cbn [Py.len Py.iter]. unfold print, emit.
  cbn [w_db with_db w_files w_readonly w_stdin].
  unfold with_db in Hloop |- *. cbn [w_db w_files w_readonly w_stdin] in Hloop |- *.
  rewrite Hloop.
  unfold ret; cbn [app]; repeat (rewrite <- !app_assoc; cbn [app]).
  eexists. split; [exact Hall|]. split; [reflexivity|].
  split; [exact Hatt|]. split; [|reflexivity].
  rewrite !commits_app, (quiet_no_commit o1 Hq1), Hq2, Hcom. reflexivity.
Qed.

(** *** What the result of [ingest_geojson_to_postgis] says *)

Lemma len_iter (v : json) (n : nat) (l : list json) :
  Py.len v = Ok n → Py.iter v = Ok l → length l = n.
Proof.
  destruct v; cbn; intros [= <-] [= <-]; rewrite ?length_map; try reflexivity.
  induction s as [|c s IH]; cbn; [reflexivity|]. rewrite IH. reflexivity.
Qed.

(** The loop, over any sequence of values: it commits nothing and, when
    it completes, it has tried every feature once. *)
Lemma insert_features_any table_name source_srid target_srid total features :
  ∀ inserted (w : World DB),
    ∃ r w' o,
      insert_features table_name source_srid target_srid total features
        inserted w = (r, w', o)
      ∧ commits o = 0
      ∧ (length (attempts o) ≤ length features)%nat
      ∧ ∀ n, r = Ok n →
             (inserted ≤ n)%nat ∧ (n ≤ inserted + length features)%nat
             ∧ length (attempts o) = length features.
Proof.
  induction features as [|f fs IH]; intros inserted w.
  - eexists _, _, _. split; [reflexivity|]. cbn.
    split; [reflexivity|]. split; [lia|]. intros n [= <-]. lia.
  - cbn [insert_features]. unfold bind.
    destruct (row_statement table_name source_srid target_srid f)
      as [row|e] eqn:Hrow.
    + rewrite (insert_feature_run _ _ _ _ _ row) by assumption.
      destruct (db_execute (w_db w) row) as [db [msg|]].
      * destruct (IH inserted (with_db w db))
          as (r & w' & o & -> & Hcom & Hle & Hok).
        eexists _, _, _. split; [reflexivity|].
        unfold attempts, commits in *. cbn.
        split; [exact Hcom|]. split; [lia|].
        intros n Hn. specialize (Hok n Hn). lia.
      * destruct (IH (S inserted) (with_db w db))
          as (r & w' & o & -> & Hcom & Hle & Hok).
        eexists _, _, _. split; [reflexivity|].
        unfold attempts, commits in *.
        destruct (progress_due (S inserted) total); cbn;
          (split; [exact Hcom|]; split; [lia|];
           intros n Hn; specialize (Hok n Hn); lia).
    + unfold insert_feature, bind, lift. rewrite Hrow.
      eexists _, _, _. split; [reflexivity|]. cbn.
      split; [reflexivity|]. split; [lia|]. intros n [=].
Qed.

(** What follows a positive answer: it never returns False; it raises
    before the commit, or with the commit that fails as its last event, or
    it returns True after the commit and the two closing messages. *)
Lemma create_and_load_outcome
      (table_name create_table_sql : string) (source_srid target_srid : Z)
      (raw_data : json) (w : World DB) :
  ∃ r w' o,
    create_and_load table_name create_table_sql source_srid target_srid
      raw_data w = (r, w', o)
    ∧ ((∃ e, r = Raise e
             ∧ (commits o = 0
                ∨ ∃ pre, o = (pre ++ [Commit])%list ∧ commits pre = 0))
       ∨ (r = Ok true
          ∧ ∃ pre inserted total,
              o = (pre ++ [Commit; Print (completed_message inserted total);
                           Print (transformed_message source_srid target_srid)])%list
              ∧ commits pre = 0
              ∧ (inserted ≤ total)%nat
              ∧ length (attempts pre) = S total)).
Proof.
  unfold create_and_load, bind, cursor_execute, lift, print, emit.
  destruct (db_execute (w_db w) (Stmt create_table_sql [])) as [db [msg|]].
  { eexists _, _, _. split; [reflexivity|]. left. eexists. split; [reflexivity|].
    left. reflexivity. }
  destruct (Py.getitem raw_data "features") as [features|e]; cycle 1.
  { eexists _, _, _. split; [reflexivity|]. left. eexists. split; [reflexivity|].
    left. reflexivity. }
  destruct (Py.len features) as [total|e] eqn:Hlen; cycle 1.
  { eexists _, _, _. split; [reflexivity|]. left. eexists. split; [reflexivity|].
    left. reflexivity. }
  destruct (Py.iter features) as [all|e] eqn:Hiter; cycle 1.
  { eexists _, _, _. split; [reflexivity|]. left. eexists. split; [reflexivity|].
    left. reflexivity. }
  pose proof (len_iter _ _ _ Hlen Hiter) as Hall.
  destruct (insert_features_any table_name source_srid target_srid total all 0
              (with_db w db)) as (r & w3 & o3 & -> & Hcom & _ & Hok).
  destruct r as [inserted|e]; cycle 1.
  { eexists _, _, _. split; [reflexivity|]. left. eexists. split; [reflexivity|].
    left. unfold commits in *. cbn. rewrite ?app_nil_r. exact Hcom. }
  destruct (Hok inserted eq_refl) as (_ & Hle & Hatt).
  unfold conn_commit.
  destruct (db_commit (w_db w3)) as [db' [msg|]].
  - eexists _, _, _. split; [reflexivity|]. left. eexists. split; [reflexivity|].
    right.
    exists (Execute (Stmt create_table_sql [])
            :: Print (PyStr.nl +:+ "Inserting " +:+ pretty total
                      +:+ " features into the database...") :: o3).
    split; [cbn; rewrite <- ?app_assoc; reflexivity|].
    unfold commits in *. cbn. exact Hcom.
  - eexists _, _, _. split; [reflexivity|]. right. split; [reflexivity|].
    exists (Execute (Stmt create_table_sql [])
            :: Print (PyStr.nl +:+ "Inserting " +:+ pretty total
                      +:+ " features into the database...") :: o3),
      inserted, total.
    split; [cbn; rewrite <- ?app_assoc; reflexivity|].
    split; [unfold commits in *; cbn; exact Hcom|].
    split; [lia|]. unfold attempts in *. cbn. rewrite Hatt, Hall. reflexivity.
Qed.

Lemma commits_cons (e : event) (o : list event) :
  commits (e :: o)
  = (match e with Commit => 1 | _ => 0 end + commits o)%nat.
Proof. destruct e; reflexivity. Qed.

Ltac count_commits :=
  repeat (rewrite commits_app || rewrite commits_cons);
  change (commits []) with 0%nat.

(** X5: [ingest_geojson_to_postgis] never raises: it returns True or
    False.  It commits at most once.  It returns True only after the table
    has been created, every feature has been tried once and the commit has
    returned (the commit and the two closing messages are then the last
    events), whatever the number of rows the database accepted: the
    number in the closing message is only known to be at most the number
    of features. *)
Theorem result_follows_commit
        (file_path table_name : string) (source_srid : option Z)
        (target_srid : Z) (w : World DB) :
  ∃ b w' o,
    ingest_geojson_to_postgis file_path table_name source_srid target_srid w
    = (Ok b, w', o)
    ∧ (commits o ≤ 1)%nat
    ∧ (b = true →
       ∃ pre inserted total srid,
         o = (pre ++ [Commit; Print (completed_message inserted total);
                      Print (transformed_message srid target_srid)])%list
         ∧ commits pre = 0
         ∧ (inserted ≤ total)%nat
         ∧ length (attempts pre) = S total).
Proof.
  unfold ingest_geojson_to_postgis, catch, bind.
  set (table := PyStr.replace "-" "_" table_name).
  destruct (examine_geojson_quiet file_path w) as (r1 & o1 & -> & Hq1).
  pose proof (quiet_no_commit _ Hq1) as Hc1.
  pose proof (quiet_no_attempt _ Hq1) as Ha1.
  destruct r1 as [info|]; cycle 1.
  { eexists _, _, _. split; [reflexivity|]. cbn -[commits attempts].
    split; [count_commits; lia|discriminate]. }
  unfold ingest_document, bind.
  destruct (plan_table_run table info source_srid target_srid w)
    as (o2 & Hq2 & [(e & ->)|(cs & ty & srid & Hplan)]).
  { pose proof (quiet_no_commit _ Hq2) as Hc2.
    eexists _, _, _. split; [reflexivity|]. cbn -[commits attempts].
    split; [count_commits; lia|discriminate]. }
  cbv zeta in Hplan. rewrite Hplan. cbn [fst snd].
  pose proof (quiet_no_commit _ Hq2) as Hc2.
  pose proof (quiet_no_attempt _ Hq2) as Ha2.
  unfold confirm_and_load, bind, input; cbn [w_stdin w_files w_readonly w_db].
  destruct (w_stdin w) as [|answer stdin].
  { eexists _, _, _. split; [reflexivity|]. cbn -[commits attempts].
    split; [count_commits; lia|discriminate]. }
  destruct (negb (confirmed (PyStr.lower answer))).
  { eexists _, _, _. split; [reflexivity|]. cbn -[commits attempts].
    split; [count_commits; lia|discriminate]. }
  match goal with
  | |- context [create_and_load ?t ?c ?s ?g ?d ?w2] =>
      destruct (create_and_load_outcome t c s g d w2)
        as (r & w' & o & -> & Hout)
  end.
  destruct Hout as [(e & -> & Hcom)|(-> & pre & inserted & total & -> & Hcom & Hle & Hatt)].
  - eexists _, _, _. split; [reflexivity|]. cbn -[commits attempts].
    split; [|discriminate].
    destruct Hcom as [Hcom|(pre & -> & Hcom)]; count_commits; lia.
  - eexists _, _, _. split; [reflexivity|]. cbn -[commits attempts].
    split; [count_commits; lia|].
    intros _.
    exists (o1 ++ (o2 ++ [WriteFile (structure_file table)
                           (create_table_statement table cs ty target_srid)])
            ++ Input confirm_prompt :: pre)%list, inserted, total, srid.
    split; [rewrite ?app_nil_r, <- ?app_assoc; cbn [app];
            rewrite <- ?app_assoc; reflexivity|].
    split; [count_commits; lia|].
    split; [exact Hle|].
    rewrite !attempts_app, Ha1, Ha2. cbn. exact Hatt.
Qed.

(** *** The spatial references of a run *)

Lemma plan_table_shows (table_name : string) (info : geojson_info)
      (source_srid : option Z) (target_srid : Z) (w : World DB) :
  ∃ o, Forall quiet o
       ∧ ((∃ e, plan_table table_name info source_srid target_srid w
                = (Raise e, w, o))
          ∨ (∃ columns_sql postgis_type srid,
                (∀ s, source_srid = Some s → srid = s)
                ∧ Print ("Source SRID: " +:+ pretty srid +:+ ", Target SRID: "
                         +:+ pretty target_srid) ∈ o
                ∧ plan_table table_name info source_srid target_srid w
                  = (Ok (create_table_statement table_name columns_sql
                           postgis_type target_srid, srid),
                     mkWorld (<[structure_file table_name
                                := list_byte_of_string
                                     (create_table_statement table_name
                                        columns_sql postgis_type target_srid)]>
                                (w_files w))
                             (w_readonly w) (w_stdin w) (w_db w),
                     (o ++ [WriteFile (structure_file table_name)
                              (create_table_statement table_name columns_sql
                                 postgis_type target_srid)])%list))).
Proof.
  unfold plan_table, bind.
  destruct (choose_source_srid_obeys source_srid (raw_data info) w)
    as (Hw & Ho & _).
  assert (Hgiven : ∀ s, source_srid = Some s →
                        choose_source_srid source_srid (raw_data info) w
                        = (Ok s, w, [])).
  { intros s ->. reflexivity. }
  destruct (choose_source_srid source_srid (raw_data info) w)
    as [[[srid|e] w1] o1]; cbn in Hw, Ho; subst w1.
  - unfold lift. destruct (Py.items (properties info)) as [members|e].
    + unfold print, emit, write_text; cbn -[pretty].
      destruct (bool_decide (structure_file table_name ∈ w_readonly w)).
      * eexists. split; [|left; eexists; reflexivity].
        apply Forall_app; split; [assumption|repeat constructor].
      * exists (o1 ++ [Print (PyStr.nl +:+ "Proposed table structure:");
                       Print (create_table_statement table_name
                                (PyStr.join ", " (map column members))
                                (postgis_type_of (geometry_type info))
                                target_srid);
                       Print ("Source SRID: " +:+ pretty srid
                              +:+ ", Target SRID: " +:+ pretty target_srid)])%list.
        split; [apply Forall_app; split; [assumption|repeat constructor]|].
        right. eexists _, _, srid.
        split; [intros s Hs; specialize (Hgiven s Hs); congruence|].
        split; [|cbn -[pretty]; rewrite <- app_assoc; reflexivity].
        apply elem_of_app. right.
        do 2 apply list_elem_of_further. apply list_elem_of_here.
    + eexists. split; [|left; eexists; reflexivity].
      apply Forall_app; split; [assumption|constructor].
  - eexists. split; [|left; eexists; reflexivity]. assumption.
Qed.

Lemma quiet_uses_srids table srid target_srid e :
  quiet e → uses_srids table srid target_srid e.
Proof. destruct e; cbn; tauto. Qed.

(** X6: a run uses one source SRID and one target SRID throughout: every
    INSERT statement it executes is the INSERT text in which
    ST_SetSRID gives the geometry the same source SRID and ST_Transform
    takes it to the target SRID of the call, the SRID that the CREATE
    TABLE text declares for the geometry column; this source SRID is the
    one passed to the function when one is passed, and it is the one
    shown to the operator in the line Source SRID: ..., Target SRID: ...
    before the question. *)
Theorem one_srid_pair_per_run
        (file_path table_name : string) (source_srid : option Z)
        (target_srid : Z) (w : World DB) :
  let table := PyStr.replace "-" "_" table_name in
  let o :=
    (ingest_geojson_to_postgis file_path table_name source_srid target_srid
       w).2 in
  ∃ srid,
    (∀ s, source_srid = Some s → srid = s)
    ∧ Forall (uses_srids table srid target_srid) o
    ∧ (attempts o ≠ [] →
       Print ("Source SRID: " +:+ pretty srid +:+ ", Target SRID: "
              +:+ pretty target_srid) ∈ o).
Proof.
  intros table o. subst o.
  unfold ingest_geojson_to_postgis, catch, bind. fold table.
  destruct (examine_geojson_quiet file_path w) as (r1 & o1 & -> & Hq1).
  pose proof (quiet_no_attempt _ Hq1) as Ha1.
  assert (Hu1 : ∀ srid, Forall (uses_srids table srid target_srid) o1).
  { intros srid. eapply Forall_impl; [exact Hq1|apply quiet_uses_srids]. }
  destruct r1 as [info|]; cycle 1.
  { exists (default 4326%Z source_srid). cbn -[attempts pretty].
    rewrite app_nil_r. split; [intros s ->; reflexivity|].
    split; [apply Hu1|]. intros Hne. contradiction. }
  unfold ingest_document, bind.
  destruct (plan_table_shows table info source_srid target_srid w)
    as (o2 & Hq2 & [(e & ->)|(cs & ty & srid & Hgiven & Hshown & Hplan)]).
  { exists (default 4326%Z source_srid). cbn -[attempts pretty].
    split; [intros s ->; reflexivity|]. split.
    - rewrite !Forall_app. repeat split; [apply Hu1| |repeat constructor].
      eapply Forall_impl; [exact Hq2|apply quiet_uses_srids].
    - rewrite !attempts_app, Ha1, (quiet_no_attempt _ Hq2). cbn. congruence. }
  rewrite Hplan. cbn [fst snd].
  exists srid. split; [exact Hgiven|].
  match goal with
  | |- context [confirm_and_load ?t ?c ?s ?g ?d ?w2] =>
      destruct (confirm_and_load_obeys (uses_srids table srid target_srid)
                  (quiet_uses_srids table srid target_srid) t s g
                  ltac:(intros f row Hrow;
                        destruct (row_statement_sql _ _ _ _ _ Hrow)
                          as (pn & ph & Hsql);
                        right; exists pn, ph; rewrite Hsql; reflexivity)
                  I c d I ltac:(left; exists cs, ty; reflexivity) w2)
        as (_ & Hu3 & _);
      destruct (confirm_and_load t c s g d w2) as [[r w'] o3]
  end.
  cbn in Hu3.
  assert (Hu2 : Forall (uses_srids table srid target_srid) o2).
  { eapply Forall_impl; [exact Hq2|apply quiet_uses_srids]. }
  assert (Hin : Print ("Source SRID: " +:+ pretty srid +:+ ", Target SRID: "
                       +:+ pretty target_srid)
                ∈ (o1 ++ (o2 ++ [WriteFile (structure_file table)
                                   (create_table_statement table cs ty
                                      target_srid)]) ++ o3)%list).
  { apply elem_of_app. right. apply elem_of_app. left.
    apply elem_of_app. left. exact Hshown. }
  destruct r as [b|e]; cbn -[attempts pretty].
  - rewrite ?app_nil_r. split; [|intros _; exact Hin].
    rewrite !Forall_app. repeat split; try assumption; [apply Hu1|].
    repeat constructor.
  - split.
    + rewrite !Forall_app. repeat split; try assumption; [apply Hu1| |].
      all: repeat constructor.
    + intros _. apply elem_of_app. left. exact Hin.
Qed.

(** *** Progress lines *)





(** *** The coordinate reference system of the document *)

Lemma rev_app_rev_app (s1 s2 s3 : string) :
  String.rev_app (String.rev_app s1 s2) s3 = String.rev_app s2 (s1 +:+ s3).
Proof.
  revert s2 s3. induction s1 as [|c s1 IH]; intros s2 s3; cbn; [reflexivity|].
  rewrite IH. reflexivity.
Qed.

Lemma append_empty (s : string) : s +:+ EmptyString = s.
Proof.
  induction s as [|c s IH]; [reflexivity|].
  change (String c (s +:+ EmptyString) = String c s). rewrite IH. reflexivity.
Qed.

Lemma all_chars_rev_app (p : ascii → bool) (s1 s2 : string) :
  all_chars p (String.rev_app s1 s2) = all_chars p s1 && all_chars p s2.
Proof.
  revert s2. induction s1 as [|c s1 IH]; intros s2; cbn; [reflexivity|].
  rewrite IH. cbn. destruct (p c), (all_chars p s1), (all_chars p s2); reflexivity.
Qed.

Lemma lstrip_clean (s : string) :
  all_chars (λ c, negb (PyStr.is_space c)) s = true → PyStr.lstrip s = s.
Proof.
  destruct s as [|c r]; cbn; [reflexivity|].
  destruct (PyStr.is_space c); [discriminate|reflexivity].
Qed.

(** A string without white space is left as it is by [strip]. *)
Lemma strip_clean (s : string) :
  all_chars (λ c, negb (PyStr.is_space c)) s = true → PyStr.strip s = s.
Proof.
  intros Hclean. unfold PyStr.strip. rewrite (lstrip_clean s Hclean).
  rewrite lstrip_clean.
  - unfold String.rev. rewrite rev_app_rev_app. cbn. apply append_empty.
  - unfold String.rev. rewrite all_chars_rev_app, Hclean. reflexivity.
Qed.

Lemma all_chars_pretty_go (p : ascii → bool) (x : N) (s : string) :
  (∀ d, p (pretty_N_char d) = true) →
  all_chars p s = true → all_chars p (pretty_N_go x s) = true.
Proof.
  intros Hp. revert s.
  induction (N.lt_wf_0 x) as [x _ IH]; intros s Hs.
  destruct (decide (0 < x)%N) as [Hpos|Hzero].
  - rewrite pretty_N_go_step by assumption.
    apply IH; [apply N.div_lt; [assumption|reflexivity]|].
    cbn. rewrite Hp, Hs. reflexivity.
  - replace x with 0%N by lia. rewrite pretty_N_go_0. exact Hs.
Qed.

Lemma pretty_char_value (d : N) :
  (d < 10)%N →
  PyStr.is_digit (pretty_N_char d) = true
  ∧ (Z.of_nat (nat_of_ascii (pretty_N_char d)) - 48)%Z = Z.of_N d.
Proof.
  intros Hd.
  assert (d = 0 ∨ d = 1 ∨ d = 2 ∨ d = 3 ∨ d = 4 ∨ d = 5 ∨ d = 6 ∨ d = 7
          ∨ d = 8 ∨ d = 9)%N as Hcases by lia.
  repeat destruct Hcases as [-> | Hcases]; try subst d; split; reflexivity.
Qed.

(** Reading the digits that [pretty] writes gives the number back. *)
Lemma digits_pretty_go (x : N) :
  (0 < x)%N →
  ∃ k : Z, (0 ≤ k)%Z ∧ ∀ s b acc,
    PyStr.digits (pretty_N_go x s) b acc
    = PyStr.digits s true (acc * 10 ^ k + Z.of_N x)%Z.
Proof.
  induction (N.lt_wf_0 x) as [x _ IH]. intros Hpos.
  destruct (pretty_char_value (x `mod` 10)%N) as (Hdigit & Hvalue).
  { apply N.mod_lt. discriminate. }
  pose proof (N.div_mod x 10 ltac:(discriminate)) as Hx.
  apply (f_equal Z.of_N) in Hx. rewrite N2Z.inj_add, N2Z.inj_mul in Hx.
  change (Z.of_N 10) with 10%Z in Hx.
  destruct (decide (0 < x `div` 10)%N) as [Hdiv|Hdiv].
  - destruct (IH (x `div` 10)%N) as (k & Hk & Hread);
      [apply N.div_lt; [assumption|reflexivity]|assumption|].
    exists (k + 1)%Z. split; [lia|]. intros s b acc.
    rewrite pretty_N_go_step by assumption. rewrite Hread.
    cbn [PyStr.digits]. rewrite Hdigit, Hvalue. f_equal.
    rewrite Hx, Z.pow_add_r, Z.pow_1_r by lia. ring.
  - apply N.nlt_ge, N.le_0_r in Hdiv.
    exists 1%Z. split; [lia|]. intros s b acc.
    rewrite pretty_N_go_step by assumption.
    rewrite Hdiv, pretty_N_go_0.
    cbn [PyStr.digits]. rewrite Hdigit, Hvalue. f_equal.
    rewrite Hx, Hdiv, Z.pow_1_r. change (Z.of_N 0) with 0%Z. ring.
Qed.

Lemma int_of_digit_first (c : ascii) (r : string) :
  PyStr.is_digit c = true →
  PyStr.strip (String c r) = String c r →
  PyStr.int (String c r) = PyStr.digits (String c r) false 0.
Proof.
  intros Hdigit Hstrip. unfold PyStr.int. rewrite Hstrip.
  destruct c as [[] [] [] [] [] [] [] []]; try discriminate; reflexivity.
Qed.

Lemma pretty_positive_go (q : positive) :
  pretty q = pretty_N_go (Npos q) EmptyString.
Proof. reflexivity. Qed.

Lemma pretty_digit_chars (d : N) :
  PyStr.is_digit (pretty_N_char d) = true
  ∧ negb (PyStr.is_space (pretty_N_char d)) = true
  ∧ negb (Ascii.eqb (pretty_N_char d) ":") = true.
Proof.
  unfold pretty_N_char. repeat case_match; repeat split; reflexivity.
Qed.

Lemma int_pretty_positive (q : positive) :
  PyStr.int (pretty q) = Some (Zpos q)
  ∧ PyStr.digits (pretty q) false 0 = Some (Zpos q)
  ∧ all_chars (λ c, negb (PyStr.is_space c)) (pretty q) = true
  ∧ all_chars (λ c, negb (Ascii.eqb c ":")) (pretty q) = true.
Proof.
  rewrite pretty_positive_go.
  destruct (digits_pretty_go (Npos q) ltac:(reflexivity)) as (k & _ & Hread).
  assert (Hclean : all_chars (λ c, negb (PyStr.is_space c))
                     (pretty_N_go (Npos q) EmptyString) = true).
  { apply all_chars_pretty_go; [intros d; apply pretty_digit_chars|reflexivity]. }
  assert (Hdigits : all_chars PyStr.is_digit (pretty_N_go (Npos q) EmptyString)
                    = true).
  { apply all_chars_pretty_go; [intros d; apply pretty_digit_chars|reflexivity]. }
  assert (Hvalue : PyStr.digits (pretty_N_go (Npos q) EmptyString) false 0
                   = Some (Zpos q)).
  { rewrite Hread. cbn [PyStr.digits]. f_equal. }
  split; [|split; [exact Hvalue|split; [exact Hclean|]]].
  - destruct (pretty_N_go (Npos q) EmptyString) as [|c r] eqn:Hgo.
    { cbn in Hvalue. discriminate. }
    rewrite int_of_digit_first; [exact Hvalue| |apply strip_clean, Hclean].
    cbn in Hdigits. apply andb_true_iff in Hdigits as [Hc _]. exact Hc.
  - apply all_chars_pretty_go; [intros d; apply pretty_digit_chars|reflexivity].
Qed.

(** [int(str(n)) == n]. *)
Lemma int_pretty (n : Z) :
  PyStr.int (pretty n) = Some n
  ∧ all_chars (λ c, negb (Ascii.eqb c ":")) (pretty n) = true.
Proof.
  destruct n as [|q|q].
  - split; reflexivity.
  - destruct (int_pretty_positive q) as (Hint & _ & _ & Hcolon).
    split; assumption.
  - destruct (int_pretty_positive q) as (_ & Hvalue & Hclean & Hcolon).
    change (pretty (Zneg q)) with (String "-" (pretty q)).
    split; [|cbn; exact Hcolon].
    unfold PyStr.int. rewrite strip_clean by (cbn; exact Hclean).
    rewrite Hvalue. reflexivity.
Qed.

Lemma split_no_separator (sep : ascii) (s : string) :
  all_chars (λ c, negb (Ascii.eqb c sep)) s = true → PyStr.split sep s = [s].
Proof.
  induction s as [|c s IH]; cbn; [reflexivity|].
  intros Hs. apply andb_true_iff in Hs as [Hc Hs].
  apply negb_true_iff in Hc. rewrite Hc, (IH Hs). reflexivity.
Qed.

(** The last field of a text is what follows its last separator. *)
Lemma split_last_field (sep : ascii) (prefix field : string) :
  all_chars (λ c, negb (Ascii.eqb c sep)) field = true →
  ∃ fields,
    PyStr.split sep (prefix +:+ String sep field) = (fields ++ [field])%list
    ∧ fields ≠ [].
Proof.
  intros Hfield. induction prefix as [|c prefix (fields & IH & Hne)].
  - change (EmptyString +:+ String sep field) with (String sep field).
    cbn [PyStr.split].
    rewrite Ascii.eqb_refl, (split_no_separator sep field Hfield).
    exists [EmptyString]. split; [reflexivity|discriminate].
  - change (String c prefix +:+ String sep field)
      with (String c (prefix +:+ String sep field)).
    cbn [PyStr.split].
    destruct (Ascii.eqb c sep).
    + exists (EmptyString :: fields). rewrite IH. split; [reflexivity|discriminate].
    + rewrite IH. destruct fields as [|f fields]; [contradiction|].
      exists (String c f :: fields). split; [reflexivity|discriminate].
Qed.

(** X8: when no source SRID is passed and the CRS block of the document
    is named by a text that contains EPSG and ends, after its last colon,
    with the decimal form of an integer, that integer is the source SRID,
    whatever it is: urn:ogc:def:crs:EPSG::n and EPSG:n are read as n for
    every n that [int] converts, that is, of no more digits than the
    4300 Python allows in a conversion. *)
Theorem epsg_code_is_read_back
        (members crs_members crs_properties : list (string * json))
        (prefix : string) (n : Z) (w : World DB) :
  (Z.abs n < 10 ^ 4300)%Z →
  Py.assoc "crs" members = Some (JObject crs_members) →
  Py.assoc "type" crs_members = Some (JString "name") →
  Py.assoc "properties" crs_members = Some (JObject crs_properties) →
  Py.assoc "name" crs_properties
  = Some (JString (prefix +:+ ":" +:+ pretty n)) →
  PyStr.contains "EPSG" (prefix +:+ ":" +:+ pretty n) = true →
  choose_source_srid None (JObject members) w
  = (Ok n, w, [Print ("Detected source SRID: " +:+ pretty n)]).
Proof.
  intros _ Hcrs Htype Hprops Hname Hepsg.
  destruct (int_pretty n) as (Hint & Hcolon).
  destruct (split_last_field ":" prefix (pretty n) Hcolon) as (fields & Hsplit & _).
  unfold choose_source_srid, detect_crs, bind, lift, catch.
  unfold Py.contains at 1. rewrite Hcrs. rewrite bool_decide_true by eauto.
  unfold Py.getitem at 1. rewrite Hcrs.
  unfold Py.get at 1. rewrite Htype. cbn [Py.is_str String.eqb Ascii.eqb Bool.eqb].
  unfold Py.contains at 1. rewrite Hprops. rewrite bool_decide_true by eauto.
  unfold Py.getitem at 1. rewrite Hprops.
  unfold Py.get at 1. rewrite Hname.
  unfold Py.contains at 1. rewrite Hepsg.
  unfold Py.split.
  change (prefix +:+ ":" +:+ pretty n) with (prefix +:+ String ":" (pretty n)).
  rewrite Hsplit, last_snoc.
  change (default EmptyString (Some (pretty n))) with (pretty n). rewrite Hint.
  reflexivity.
Qed.

(** X9: when no source SRID is passed, choosing it leaves the world as
    it is and ends in one of three ways: an SRID read from the CRS block,
    shown by one line; the default 4326, shown by one line; or an
    AttributeError or a TypeError when the document, its CRS block or the
    name in it does not have the expected type, with nothing printed.  The
    ValueError of a name that does not end with an integer is never
    raised: the default is taken. *)
Theorem source_srid_outcomes (raw_data : json) (w : World DB) :
  (∃ srid, choose_source_srid None raw_data w
           = (Ok srid, w, [Print ("Detected source SRID: " +:+ pretty srid)]))
  ∨ choose_source_srid None raw_data w
    = (Ok 4326%Z, w, [Print "No CRS specified in GeoJSON. Assuming EPSG:4326"])
  ∨ ∃ e, choose_source_srid None raw_data w = (Raise e, w, [])
         ∧ (e = AttributeError ∨ e = TypeError).
Proof.
  assert (Hdefault : ("No CRS specified in GeoJSON. Assuming EPSG:"
                      +:+ pretty 4326%Z)
                     = "No CRS specified in GeoJSON. Assuming EPSG:4326")
    by (vm_compute; reflexivity).
  unfold choose_source_srid, detect_crs, bind, lift, catch, print, emit.
  rewrite Hdefault.
  destruct (Py.contains "crs" raw_data) as [has_crs|e] eqn:Hhas; cycle 1.
  { right; right. exists e. split; [reflexivity|].
    destruct raw_data; cbn in Hhas; simplify_eq; auto. }
  destruct has_crs; [|right; left; reflexivity].
  destruct (Py.getitem raw_data "crs") as [crs|e] eqn:Hcrs; cycle 1.
  { right; right. exists e. split; [reflexivity|].
    destruct raw_data; cbn in Hhas, Hcrs; simplify_eq; auto.
    case_bool_decide as Hsome; [|discriminate].
    destruct Hsome as [v Hv]. rewrite Hv in Hcrs. discriminate. }
  destruct crs as [| | | | | |crs_members];
    try (right; right; exists AttributeError; split; [reflexivity|auto]).
  cbn [Py.get].
  destruct (Py.is_str "name"
              match Py.assoc "type" crs_members with
              | Some v => v
              | None => JNull
              end); [|right; left; reflexivity].
  cbn [Py.contains Py.getitem].
  destruct (Py.assoc "properties" crs_members) as [crs_properties|];
    [|rewrite bool_decide_false by (intros [? ?]; discriminate);
      right; left; reflexivity].
  rewrite bool_decide_true by eauto.
  destruct crs_properties as [| | | | | |properties];
    try (right; right; exists AttributeError; split; [reflexivity|auto]).
  cbn [Py.get].
  destruct (match Py.assoc "name" properties with
            | Some v => v
            | None => JString EmptyString
            end) as [| | | |name|items|members];
    try (right; right; exists TypeError; split; [reflexivity|auto]).
  - cbn [Py.contains Py.split].
    destruct (PyStr.contains "EPSG" name); [|right; left; reflexivity].
    destruct (PyStr.int (default EmptyString (last (PyStr.split ":" name))))
      as [srid|].
    + left. exists srid. reflexivity.
    + right; left. reflexivity.
  - cbn [Py.contains Py.split].
    destruct (existsb (Py.is_str "EPSG") items); [|right; left; reflexivity].
    right; right. exists AttributeError. split; [reflexivity|auto].
  - cbn [Py.contains Py.split].
    destruct (bool_decide (is_Some (Py.assoc "EPSG" members)));
      [|right; left; reflexivity].
    right; right. exists AttributeError. split; [reflexivity|auto].
Qed.

(** X10: a document whose crs member is not an object, as the null that
    GeoJSON allows for an unassigned CRS, is examined without error and
    then not ingested when no source SRID is passed: reading the type of
    the CRS block raises AttributeError, the error is reported and the run
    returns False with the world unchanged, before the table structure is
    shown or written.  *)
Theorem crs_that_is_no_object_aborts
        (file_path table_name : string) (target_srid : Z) (w : World DB)
        (info : geojson_info) (o : list event)
        (members : list (string * json)) (crs : json) :
  examine_geojson file_path w = (Ok (Some info), w, o) →
  raw_data info = JObject members →
  Py.assoc "crs" members = Some crs →
  (∀ crs_members, crs ≠ JObject crs_members) →
  ingest_geojson_to_postgis file_path table_name None target_srid w
  = (Ok false, w,
     (o ++ [PrintError "Error ingesting GeoJSON: " AttributeError])%list).
Proof.
  intros Hexamine Hraw Hcrs Hshape.
  unfold ingest_geojson_to_postgis, catch, bind. rewrite Hexamine.
  unfold ingest_document, bind, plan_table, bind.
  assert (Hchoose : choose_source_srid None (raw_data info) w
                    = (Raise AttributeError, w, [])).
  { rewrite Hraw.
    unfold choose_source_srid, detect_crs, bind, lift.
    cbn [Py.contains Py.getitem]. rewrite Hcrs.
    rewrite bool_decide_true by eauto.
    destruct crs as [| | | | | |crs_members]; try reflexivity.
    destruct (Hshape crs_members eq_refl). }
  rewrite Hchoose. cbn. rewrite ?app_nil_r. reflexivity.
Qed.

(** *** The scripts: connection and cursor *)

Lemma quiet_within_session (e : event) : quiet e → within_session e.
Proof. destruct e; cbn; tauto. Qed.

Lemma bind_trace {A B} (P : event → Prop) (m : M A) (k : A → M B)
      (w : World DB) :
  Forall P (m w).2 → (∀ a w1, Forall P (k a w1).2) → Forall P (bind m k w).2.
Proof.
  intros Hm Hk. unfold bind.
  destruct (m w) as [[[a|e] w1] o1]; cbn in Hm; [|exact Hm].
  specialize (Hk a w1). destruct (k a w1) as [[r w2] o2]; cbn in *.
  apply Forall_app. split; assumption.
Qed.

Lemma bind_ends_session {A B} (m : M A) (k : A → M B) (w : World DB) :
  Forall within_session (m w).2 →
  (∀ a w1, ends_session (k a w1)) →
  ends_session (bind m k w).
Proof.
  intros Hm Hk. unfold bind.
  destruct (m w) as [[[a|e] w1] o1]; cbn in Hm; [|exact Hm].
  specialize (Hk a w1).
  destruct (k a w1) as [[[b|e] w2] o2]; unfold ends_session in *; cbn in *.
  - destruct Hk as (body & -> & Hbody). exists (o1 ++ body)%list.
    split; [rewrite app_assoc; reflexivity|].
    apply Forall_app. split; assumption.
  - apply Forall_app. split; assumption.
Qed.

Lemma close_ends_session (w : World DB) :
  ends_session ((emit CursorClose ;; emit ConnClose) w).
Proof. exists []. split; [reflexivity|constructor]. Qed.

Lemma cursor_execute_session (stmt : statement) (w : World DB) :
  Forall within_session (cursor_execute stmt w).2.
Proof.
  unfold cursor_execute.
  destruct (db_execute (w_db w) stmt) as [db [msg|]]; repeat constructor.
Qed.

Lemma input_session (prompt : string) (w : World DB) :
  Forall within_session (input prompt w).2.
Proof. unfold input. destruct (w_stdin w); repeat constructor. Qed.

Lemma srid_of_answer_session (answer : string) (fallback : option Z)
      (w : World DB) :
  Forall within_session (srid_of_answer answer fallback w).2.
Proof. unfold srid_of_answer. repeat case_match; constructor. Qed.

(** [ingest_geojson_to_postgis] returns and neither opens nor closes
    anything of the connection. *)
Lemma ingest_session (file_path table_name : string) (source_srid : option Z)
      (target_srid : Z) (w : World DB) :
  Forall within_session
    (ingest_geojson_to_postgis file_path table_name source_srid target_srid
       w).2.
Proof.
  unfold ingest_geojson_to_postgis, catch, bind.
  destruct (examine_geojson_quiet file_path w) as (r1 & o1 & -> & Hq1).
  assert (Hs1 : Forall within_session o1).
  { eapply Forall_impl; [exact Hq1|apply quiet_within_session]. }
  destruct r1 as [info|]; [|cbn; rewrite app_nil_r; exact Hs1].
  unfold ingest_document, bind.
  destruct (plan_table_run (PyStr.replace "-" "_" table_name) info source_srid
              target_srid w)
    as (o2 & Hq2 & [(e & ->)|(cs & ty & srid & Hplan)]).
  { cbn. rewrite !Forall_app. repeat split; try assumption.
    - eapply Forall_impl; [exact Hq2|apply quiet_within_session].
    - repeat constructor. }
  cbv zeta in Hplan. rewrite Hplan. cbn [fst snd].
  match goal with
  | |- context [confirm_and_load ?t ?c ?s ?g ?d ?w2] =>
      destruct (confirm_and_load_obeys within_session quiet_within_session
                  t s g ltac:(intros; exact I) I c d I I w2)
        as (_ & Hs3 & _);
      destruct (confirm_and_load t c s g d w2) as [[r w'] o3]
  end.
  cbn in Hs3.
  assert (Hs2 : Forall within_session o2).
  { eapply Forall_impl; [exact Hq2|apply quiet_within_session]. }
  destruct r as [b|e]; cbn; rewrite !Forall_app; repeat split;
    try assumption; repeat constructor.
Qed.

Lemma last_close (l : list event) :
  last (l ++ [CursorClose; ConnClose]) = Some ConnClose.
Proof.
  change [CursorClose; ConnClose] with ([CursorClose] ++ [ConnClose])%list.
  rewrite app_assoc, last_snoc. reflexivity.
Qed.

Lemma last_event_differs (body body' : list event) (e : exn) :
  (body ++ [PrintError "Error: " e])%list
  ≠ (Connect :: body' ++ [CursorClose; ConnClose])%list.
Proof.
  intros Heq. apply (f_equal last) in Heq.
  change (Connect :: body' ++ [CursorClose; ConnClose])%list
    with ((Connect :: body') ++ [CursorClose; ConnClose])%list in Heq.
  rewrite (app_assoc _ [CursorClose] [ConnClose]), !last_snoc in Heq.
  discriminate.
Qed.

Lemma failed_session_open (o : list event) :
  failed_session o → (ConnClose ∉ o) ∧ (CursorClose ∉ o) ∧ ¬ closed_session o.
Proof.
  intros (body & e & -> & Hbody).
  assert (Hin : ∀ ev, ev ∈ (body ++ [PrintError "Error: " e])%list →
                      ev = Connect ∨ within_session ev).
  { intros ev [Hev|Hev%list_elem_of_singleton]%elem_of_app;
      [|subst ev; right; exact I].
    destruct Hbody as [->|(body' & -> & Hbody')]; [inversion Hev|].
    apply elem_of_cons in Hev as [->|Hev]; [left; reflexivity|].
    right. rewrite Forall_forall in Hbody'. apply Hbody', Hev. }
  split; [|split].
  - intros [Hc|Hc]%Hin; [discriminate|exact Hc].
  - intros [Hc|Hc]%Hin; [discriminate|exact Hc].
  - intros (body'' & Heq & _). exact (last_event_differs _ _ _ Heq).
Qed.

(** A script of the form [try: connect; rest except Exception: print]
    whose [rest] ends the session. *)
Lemma guarded_session (rest : M unit) (w : World DB) :
  (∀ w1, ends_session (rest w1)) →
  ∃ w' o,
    catch (connect ;; rest) (λ e, emit (PrintError "Error: " e)) w
    = (Ok tt, w', o)
    ∧ (closed_session o ↔ (connect ;; rest) w = (Ok tt, w', o))
    ∧ (closed_session o ∨ failed_session o)
    ∧ (∀ msg, db_connect (w_db w) = Some msg →
              w' = w ∧ o = [PrintError "Error: " (DatabaseError msg)]).
Proof.
  intros Hrest. unfold catch, bind, connect.
  destruct (db_connect (w_db w)) as [msg|] eqn:Hconnect.
  - exists w, [PrintError "Error: " (DatabaseError msg)].
    assert (Hfailed : failed_session [PrintError "Error: " (DatabaseError msg)]).
    { exists [], (DatabaseError msg). split; [reflexivity|left; reflexivity]. }
    split; [reflexivity|]. split; [|split; [right; exact Hfailed|]].
    + split; [|discriminate].
      intros Hclosed. destruct (failed_session_open _ Hfailed) as (_ & _ & Hno).
      contradiction.
    + intros msg' [= <-]. split; reflexivity.
  - specialize (Hrest w). unfold ends_session in Hrest.
    destruct (rest w) as [[[[]|e] w1] o1]; cbn in Hrest |- *.
    + destruct Hrest as (body & -> & Hbody).
      assert (Hclosed : closed_session
                          (Connect :: body ++ [CursorClose; ConnClose])%list).
      { exists body. split; [reflexivity|exact Hbody]. }
      eexists _, _. split; [reflexivity|].
      split; [split; [reflexivity|intros _; exact Hclosed]|].
      split; [left; exact Hclosed|discriminate].
    + assert (Hfailed : failed_session
                          (Connect :: o1 ++ [PrintError "Error: " e])%list).
      { exists (Connect :: o1), e. split; [reflexivity|].
        right. exists o1. split; [reflexivity|exact Hrest]. }
      eexists _, _. split; [reflexivity|].
      split; [|split; [right; exact Hfailed|discriminate]].
      split; [|discriminate].
      intros Hclosed. destruct (failed_session_open _ Hfailed) as (_ & _ & Hno).
      contradiction.
Qed.

(** X11: the script of ingest.py never raises an exception of class
    Exception, and its trace has one of two shapes.  Either nothing was
    raised up to the handler: the trace starts with the connection, ends
    with the closing of the cursor and then of the connection, and
    neither is opened or closed in between.  Or the handler printed an
    error: then the cursor and the connection are closed nowhere in the
    trace, whether the error came from the connection itself, from the
    version query, from a question or from a conversion.  The function
    [ingest_geojson_to_postgis] takes no part in this: it never opens or
    closes the connection, and it returns. *)
Theorem script_session (w : World DB) :
  ∃ w' o,
    main_script w = (Ok tt, w', o)
    ∧ (closed_session o ↔ main_body w = (Ok tt, w', o))
    ∧ (closed_session o
       ∨ (failed_session o ∧ (ConnClose ∉ o) ∧ (CursorClose ∉ o)))
    ∧ (∀ msg, db_connect (w_db w) = Some msg →
              w' = w ∧ o = [PrintError "Error: " (DatabaseError msg)]).
Proof.
  unfold main_script, main_body.
  match goal with
  | |- context [catch (connect ;; ?rest)] =>
      destruct (guarded_session rest w) as (w' & o & Hrun & Hiff & Hshape & Hmsg)
  end.
  { intros w1.
    apply bind_ends_session; [apply cursor_execute_session|intros _ w2].
    apply bind_ends_session; [constructor|intros version w3].
    apply bind_ends_session; [constructor|intros version0 w4].
    apply bind_ends_session; [repeat constructor|intros _ w5].
    apply bind_ends_session; [apply input_session|intros geojson_file w6].
    apply bind_ends_session; [constructor|intros found w7].
    apply bind_ends_session; [|intros _ w8; apply close_ends_session].
    destruct found; [|repeat constructor].
    apply bind_trace; [apply input_session|intros table_name w8].
    apply bind_trace; [apply input_session|intros source w9].
    apply bind_trace; [apply srid_of_answer_session|intros source_srid w10].
    apply bind_trace; [apply input_session|intros target w11].
    apply bind_trace; [apply srid_of_answer_session|intros target_srid w12].
    apply bind_trace; [apply ingest_session|intros b w13]. constructor. }
  exists w', o. split; [exact Hrun|]. split; [exact Hiff|].
  split; [|exact Hmsg].
  destruct Hshape as [Hclosed|Hfailed]; [left; exact Hclosed|].
  right. split; [exact Hfailed|].
  destruct (failed_session_open _ Hfailed) as (H1 & H2 & _). split; assumption.
Qed.

(** X12: main.py never raises an exception of class Exception; it closes
    the cursor and the connection, last and in this order, exactly when
    the connection is made, the version query is accepted and the row it
    fetches has a first field; otherwise it prints the error and leaves
    the connection, if it was made, open. *)
Theorem version_check_session (w : World DB) :
  let query := Stmt "SELECT postgis_version();" [] in
  ∃ w' o,
    version_check w = (Ok tt, w', o)
    ∧ (closed_session o ∨ failed_session o)
    ∧ (closed_session o
       ↔ db_connect (w_db w) = None
         ∧ ∃ db version0,
             db_execute (w_db w) query = (db, None)
             ∧ Py.first (db_fetchone db) = Ok version0
             ∧ w' = with_db w db
             ∧ o = [Connect; Execute query;
                    PrintValue "Connected to PostGIS version: " version0;
                    CursorClose; ConnClose]).
Proof.
  intros query. unfold version_check, version_check_body.
  match goal with
  | |- context [catch (connect ;; ?rest)] =>
      destruct (guarded_session rest w) as (w' & o & Hrun & Hiff & Hshape & Hmsg)
  end.
  { intros w1.
    apply bind_ends_session; [apply cursor_execute_session|intros _ w2].
    apply bind_ends_session; [constructor|intros version w3].
    apply bind_ends_session; [constructor|intros version0 w4].
    apply bind_ends_session; [repeat constructor|intros _ w5].
    apply close_ends_session. }
  exists w', o. split; [exact Hrun|]. split; [exact Hshape|].
  rewrite Hiff. clear Hrun Hiff Hshape Hmsg.
  unfold bind, connect, cursor_execute, fetchone, lift, emit. fold query.
  destruct (db_connect (w_db w)) as [msg|].
  { split; [discriminate|intros [[=] _]]. }
  destruct (db_execute (w_db w) query) as [db [msg|]]; cbn.
  { split; [discriminate|intros (_ & db' & v & [=] & _)]. }
  destruct (Py.first (db_fetchone db)) as [version0|e] eqn:Hfirst; cbn.
  - split.
    + intros [= <- <-]. split; [reflexivity|]. exists db, version0. done.
    + intros (_ & db' & v & [= <-] & Hv & -> & ->).
      rewrite Hfirst in Hv. injection Hv as <-. reflexivity.
  - split; [discriminate|].
    intros (_ & db' & v & [= <-] & Hv & _). rewrite Hfirst in Hv. discriminate.
Qed.

(** *** list_tables.py *)

Section ListTablesProperties.

Context `{!Fetch DB} `{!Display}.

Lemma describe_table_session (table_info : string)
      (columns : list (list json)) (w : World DB) :
  Forall within_session (describe_table table_info columns w).2.
Proof.
  unfold describe_table. case_bool_decide; [repeat constructor|].
  apply bind_trace; [constructor|intros formatted_columns w1].
  apply bind_trace; [repeat constructor|intros _ w2].
  apply bind_trace; [repeat constructor|intros _ w3].
  apply bind_trace; [apply cursor_execute_session|intros _ w4].
  apply bind_trace; [constructor|intros geometry_info w5].
  apply bind_trace; [|intros _ w6].
  { case_bool_decide; [constructor|].
    apply bind_trace; [repeat constructor|intros _ w6]. repeat constructor. }
  apply bind_trace; [apply cursor_execute_session|intros _ w7].
  apply bind_trace; [constructor|intros row w8].
  apply bind_trace; [constructor|intros row_count w9]. repeat constructor.
Qed.

Lemma show_tables_session (tables : list (list json)) (w : World DB) :
  ends_session (show_tables tables w).
Proof.
  unfold show_tables.
  apply bind_ends_session; [repeat constructor|intros _ w1].
  apply bind_ends_session; [repeat constructor|intros _ w2].
  apply bind_ends_session; [apply input_session|intros table_info w3].
  apply bind_ends_session; [|intros _ w4; apply close_ends_session].
  case_match; [constructor|].
  apply bind_trace; [apply cursor_execute_session|intros _ w4].
  apply bind_trace; [constructor|intros columns w5].
  apply describe_table_session.
Qed.

(** X13: [list_tables] never raises an exception of class Exception, and
    its trace has one of three shapes: the session is closed (connection
    first, cursor and connection closed last, in this order); the handler
    printed an error; or the function returned at line 40, which happens
    exactly when the connection is made, the catalog query is accepted
    and it finds no table.  The connection is closed in the first case
    only: an error and the early return both leave it open. *)
Theorem list_tables_session (w : World DB) :
  ∃ w' o,
    list_tables w = (Ok tt, w', o)
    ∧ (closed_session o ∨ failed_session o ∨ o = no_tables_trace)
    ∧ (ConnClose ∈ o ↔ closed_session o)
    ∧ (o = no_tables_trace
       ↔ db_connect (w_db w) = None
         ∧ ∃ db, db_execute (w_db w) (Stmt tables_query []) = (db, None)
                 ∧ db_fetchall db = []).
Proof.
  assert (Hclose : ∀ o, closed_session o → ConnClose ∈ o).
  { intros o (body & -> & _). set_solver. }
  assert (Hopen : ∀ o, failed_session o → ¬ ConnClose ∈ o).
  { intros o Hfailed. apply (failed_session_open o Hfailed). }
  assert (Hfail : ∀ body e, body = [] ∨ (∃ body', body = Connect :: body'
                                           ∧ Forall within_session body') →
                  failed_session (body ++ [PrintError "Error: " e])).
  { intros body e Hbody. exists body, e. split; [reflexivity|exact Hbody]. }
  assert (Hearly : ∀ body e, (body ++ [PrintError "Error: " e])%list
                             ≠ no_tables_trace).
  { intros body e Heq. apply (f_equal last) in Heq.
    rewrite last_snoc in Heq. discriminate. }
  unfold list_tables, list_tables_body, catch.
  unfold bind at 1, connect.
  destruct (db_connect (w_db w)) as [msg|].
  { eexists _, _. split; [reflexivity|]. cbn [app].
    pose proof (Hfail [] (DatabaseError msg) (or_introl eq_refl)) as Hfailed.
    split; [right; left; exact Hfailed|].
    split; [split; [intros Hin; destruct (Hopen _ Hfailed Hin)|apply Hclose]|].
    split; [intros Heq; destruct (Hearly [] _ Heq)|intros [[=] _]]. }
  unfold bind at 1, print, emit. unfold bind at 1, cursor_execute.
  destruct (db_execute (w_db w) (Stmt tables_query [])) as [db [msg|]].
  { eexists _, _. split; [reflexivity|]. cbn [app].
    pose proof (Hfail [Connect; Print "Connected to PostgreSQL database.";
                       Execute (Stmt tables_query [])] (DatabaseError msg)
                  ltac:(right; eexists; split; [reflexivity|repeat constructor]))
      as Hfailed.
    split; [right; left; exact Hfailed|].
    split; [split; [intros Hin; destruct (Hopen _ Hfailed Hin)|apply Hclose]|].
    split; [unfold no_tables_trace; intros [=]|].
    intros (_ & db' & [=] & _). }
  unfold bind at 1, fetchall. cbn [w_db with_db].
  destruct (db_fetchall db) as [|row tables] eqn:Hrows.
  { rewrite bool_decide_true by reflexivity.
    eexists _, _. split; [reflexivity|]. cbn [app].
    change [Connect; Print "Connected to PostgreSQL database.";
            Execute (Stmt tables_query []);
            Print "No tables found in the database."] with no_tables_trace.
    split; [right; right; reflexivity|].
    split; [split|].
    - intros Hin. apply list_elem_of_In in Hin. cbn in Hin.
      repeat destruct Hin as [[=]|Hin]. destruct Hin.
    - intros (body & Heq & _). apply (f_equal last) in Heq.
      change (Connect :: body ++ [CursorClose; ConnClose])%list
        with ((Connect :: body) ++ [CursorClose; ConnClose])%list in Heq.
      rewrite (app_assoc _ [CursorClose] [ConnClose]), last_snoc in Heq.
      discriminate.
    - split; [intros _|reflexivity]. split; [reflexivity|].
      exists db. split; [reflexivity|exact Hrows]. }
  rewrite bool_decide_false by discriminate.
  pose proof (show_tables_session (row :: tables) (with_db w db)) as Hshow.
  unfold ends_session in Hshow.
  destruct (show_tables (row :: tables) (with_db w db)) as [[[[]|e] w1] o1];
    cbn [fst snd app] in Hshow |- *.
  - destruct Hshow as (body & -> & Hbody).
    assert (Hclosed : closed_session
                        (Connect :: Print "Connected to PostgreSQL database."
                         :: Execute (Stmt tables_query [])
                         :: body ++ [CursorClose; ConnClose])%list).
    { exists (Print "Connected to PostgreSQL database."
              :: Execute (Stmt tables_query []) :: body).
      split; [reflexivity|repeat constructor; exact Hbody]. }
    eexists _, _. split; [reflexivity|].
    split; [left; exact Hclosed|].
    split; [split; [intros _; exact Hclosed|apply Hclose]|].
    split.
    + intros Heq. apply (f_equal last) in Heq.
      assert (Hlast : last no_tables_trace = Some ConnClose).
      { rewrite <- Heq.
        exact (last_close (Connect :: Print "Connected to PostgreSQL database."
                           :: Execute (Stmt tables_query []) :: body)). }
      discriminate Hlast.
    + intros (_ & db' & [= <-] & Hnone). rewrite Hrows in Hnone. discriminate.
  - pose proof (Hfail (Connect :: Print "Connected to PostgreSQL database."
                       :: Execute (Stmt tables_query []) :: o1) e
                  ltac:(right; eexists; split;
                        [reflexivity|repeat constructor; exact Hshow]))
      as Hfailed.
    eexists _, _. split; [reflexivity|].
    split; [right; left; exact Hfailed|].
    split; [split; [intros Hin; destruct (Hopen _ Hfailed Hin)|apply Hclose]|].
    split; [|intros (_ & db' & [= <-] & Hnone); rewrite Hrows in Hnone;
              discriminate].
    intros Heq.
    destruct (Hearly (Connect :: Print "Connected to PostgreSQL database."
                      :: Execute (Stmt tables_query []) :: o1) e Heq).
Qed.

Lemma attempts_bind_print {B} (text : string) (k : unit → M B) (w : World DB) :
  attempts (bind (print text) k w).2 = attempts (k tt w).2.
Proof.
  unfold bind, print, emit. destruct (k tt w) as [[r w2] o2]. reflexivity.
Qed.

Lemma attempts_bind_execute {B} (stmt : statement) (k : unit → M B)
      (w : World DB) :
  attempts (bind (cursor_execute stmt) k w).2
  = stmt :: match db_execute (w_db w) stmt with
            | (db, None) => attempts (k tt (with_db w db)).2
            | (_, Some _) => []
            end.
Proof.
  unfold bind, cursor_execute.
  destruct (db_execute (w_db w) stmt) as [db [msg|]]; [reflexivity|].
  destruct (k tt (with_db w db)) as [[r w2] o2]. reflexivity.
Qed.

Lemma attempts_bind_input {B} (prompt : string) (k : string → M B)
      (w : World DB) :
  attempts (bind (input prompt) k w).2
  = match w_stdin w with
    | [] => []
    | line :: rest =>
        attempts (k line (mkWorld (w_files w) (w_readonly w) rest (w_db w))).2
    end.
Proof.
  unfold bind, input. destruct (w_stdin w) as [|line rest]; [reflexivity|].
  destruct (k line _) as [[r w2] o2]. reflexivity.
Qed.

Lemma attempts_bind_connect {B} (k : unit → M B) (w : World DB) :
  attempts (bind connect k w).2
  = match db_connect (w_db w) with
    | None => attempts (k tt w).2
    | Some _ => []
    end.
Proof.
  unfold bind, connect. destruct (db_connect (w_db w)); [reflexivity|].
  destruct (k tt w) as [[r w2] o2]. reflexivity.
Qed.

Lemma attempts_bind_fetchall {B} (k : list (list json) → M B) (w : World DB) :
  attempts (bind fetchall k w).2 = attempts (k (db_fetchall (w_db w)) w).2.
Proof.
  unfold bind, fetchall. destruct (k _ w) as [[r w2] o2]. reflexivity.
Qed.

Lemma attempts_bind_prefix {A B} (m : M A) (k : A → M B) (w : World DB)
      (stmts : list statement) :
  attempts (m w).2 `prefix_of` stmts →
  (∀ a w1, attempts (k a w1).2 = []) →
  attempts (bind m k w).2 `prefix_of` stmts
  ∧ attempts (bind m k w).2 = attempts (m w).2.
Proof.
  intros Hm Hk. unfold bind.
  destruct (m w) as [[[a|e] w1] o1]; cbn [snd] in *; [|done].
  specialize (Hk a w1). destruct (k a w1) as [[r w2] o2]; cbn [snd] in *.
  rewrite attempts_app, Hk, app_nil_r. done.
Qed.

Lemma describe_table_statements (table_info : string)
      (columns : list (list json)) (w : World DB) :
  attempts (describe_table table_info columns w).2
  `prefix_of` [Stmt geometry_query [JString table_info];
               Stmt (count_query table_info) []].
Proof.
  unfold describe_table, bind, lift, print, emit, cursor_execute, fetchall,
    fetchone, ret.
  repeat case_match; simplify_eq; cbn [snd attempts omap app];
    by eexists.
Qed.

Lemma show_tables_statements (tables : list (list json)) (w : World DB) :
  ∃ table_info,
    attempts (show_tables tables w).2
    `prefix_of` [Stmt columns_query [JString table_info];
                 Stmt geometry_query [JString table_info];
                 Stmt (count_query table_info) []]
    ∧ (attempts (show_tables tables w).2 ≠ [] →
       head (w_stdin w) = Some table_info ∧ table_info ≠ EmptyString).
Proof.
  unfold show_tables. rewrite !attempts_bind_print.
  rewrite attempts_bind_input.
  destruct (w_stdin w) as [|table_info stdin].
  { exists EmptyString. split; [by eexists|].
    intros Hne. destruct Hne. reflexivity. }
  exists table_info.
  match goal with
  | |- context [bind ?m ?k ?w1] =>
      destruct (attempts_bind_prefix m k w1
                  [Stmt columns_query [JString table_info];
                   Stmt geometry_query [JString table_info];
                   Stmt (count_query table_info) []])
        as (Hprefix & Hsame); [|intros; reflexivity|];
      [|destruct (bind m k w1) as [[r w2] o2]]
  end.
  - destruct (String.eqb_spec table_info EmptyString) as [->|Hne];
      [by eexists|].
    rewrite attempts_bind_execute. apply prefix_cons.
    destruct (db_execute _ _) as [db [msg|]]; [by eexists|].
    unfold bind, fetchall.
    match goal with
    | |- context [describe_table ?t ?c ?w1] =>
        pose proof (describe_table_statements t c w1) as Hdesc;
        destruct (describe_table t c w1) as [[r w2] o2]
    end.
    exact Hdesc.
  - cbn [snd app attempts omap] in Hprefix, Hsame |- *.
    split; [exact Hprefix|]. intros Hne. split; [reflexivity|].
    intros ->. apply Hne. rewrite Hsame. reflexivity.
Qed.

(** X14: the statements [list_tables] executes are, in this order, a
    prefix of four: the catalog query, the query of the columns, the query
    of the geometry columns and the row count, all for the same table
    name.  When more than the first one is executed, the name is the
    answer of the operator, it is not empty and the catalog query found a
    table.  The two queries on the catalog take the name as a bound
    parameter; the row count is asked by the text SELECT COUNT, a star
    in brackets, FROM, the name as it was typed and a semicolon, with no
    bound value. *)
Theorem catalog_statements_in_order (w : World DB) :
  ∃ table_info,
    attempts (list_tables w).2 `prefix_of` catalog_statements table_info
    ∧ ((2 ≤ length (attempts (list_tables w).2))%nat →
       head (w_stdin w) = Some table_info ∧ table_info ≠ EmptyString
       ∧ ∃ db, db_execute (w_db w) (Stmt tables_query []) = (db, None)
               ∧ db_fetchall db ≠ []).
Proof.
  unfold catalog_statements.
  assert (Hcatch : attempts (list_tables w).2 = attempts (list_tables_body w).2).
  { unfold list_tables, catch.
    destruct (list_tables_body w) as [[[[]|e] w1] o1]; [reflexivity|].
    cbn. rewrite attempts_app, app_nil_r. reflexivity. }
  rewrite Hcatch. unfold list_tables_body.
  rewrite attempts_bind_connect.
  destruct (db_connect (w_db w)) as [msg|].
  { exists EmptyString. cbn. split; [by eexists|lia]. }
  rewrite attempts_bind_print, attempts_bind_execute.
  destruct (db_execute (w_db w) (Stmt tables_query [])) as [db [msg|]].
  { exists EmptyString. cbn. split; [by eexists|lia]. }
  rewrite attempts_bind_fetchall. cbn [w_db with_db].
  case_bool_decide as Hrows.
  { exists EmptyString. cbn. split; [by eexists|intros Hlen; lia]. }
  destruct (show_tables_statements (db_fetchall db) (with_db w db))
    as (table_info & Hprefix & Hasked).
  exists table_info.
  destruct (show_tables (db_fetchall db) (with_db w db)) as [[r w2] o2].
  cbn [snd app] in Hprefix, Hasked |- *.
  split; [apply prefix_cons; exact Hprefix|].
  cbn [length]. intros Hlen.
  destruct Hasked as (Hhead & Hne); [intros Hnil; rewrite Hnil in Hlen; cbn in Hlen; lia|].
  split; [exact Hhead|]. split; [exact Hne|]. exists db. done.
Qed.

Lemma format_column_outcome (col : list json) :
  match format_column col with
  | Ok row => formatted col row
  | Raise e => unformattable e col
  end.
Proof.
  destruct col as [|name [|dtype [|max_length [|nullable [|extra col]]]]];
    try (left; split; [reflexivity|cbn; lia]).
  unfold format_column.
  destruct (PyValue.truthy max_length) eqn:Htruthy; cbn.
  - destruct dtype; cbn;
      try (right; split; [reflexivity|];
           eexists _, _, _, _; repeat split; [exact Htruthy|done|done]);
      eexists _, _, _, _, _; repeat split; rewrite Htruthy; reflexivity.
  - eexists _, _, _, _, _. repeat split. rewrite Htruthy. reflexivity.
Qed.

(** X15: the loop of lines 69-74 makes one row of three fields from each
    row of four fields, in order: the name, the type, followed by the
    maximum length in brackets when this length is truthy, and YES or NO,
    YES for a nullable field that is exactly YES.  It fails exactly on a
    row that has not four fields (ValueError) or whose type can not be
    extended by a text (TypeError). *)
Theorem format_columns_outcome (columns : list (list json)) :
  match format_columns columns with
  | Ok rows => Forall2 formatted columns rows
  | Raise e => Exists (unformattable e) columns
  end.
Proof.
  induction columns as [|col columns IH]; cbn; [constructor|].
  pose proof (format_column_outcome col) as Hcol.
  destruct (format_column col) as [row|e]; cbn; [|left; exact Hcol].
  destruct (format_columns columns) as [rows|e]; cbn.
  - constructor; assumption.
  - right. exact IH.
Qed.

End ListTablesProperties.

(** *** query_1.py *)

Section QueryOneProperties.

Context `{!Fetch DB} `{!Display} `{!Text}.

Local Abbreviation Q := (Q DB).

Lemma qbind_trace {A B} (P : event → Prop) (m : Q A) (k : A → Q B)
      (w : World DB) :
  Forall P (m w).2 →
  (∀ a w1 o1, m w = (Returned a, w1, o1) → Forall P (k a w1).2) →
  Forall P (qbind m k w).2.
Proof.
  intros Hm Hk. unfold qbind.
  destruct (m w) as [[[a|e] w1] o1]; cbn in Hm; [|exact Hm].
  specialize (Hk a w1 o1 eq_refl). destruct (k a w1) as [[r w2] o2]; cbn in *.
  apply Forall_app. split; assumption.
Qed.

Lemma up_trace {A} (P : event → Prop) (m : M A) (w : World DB) :
  Forall P (m w).2 → Forall P (up m w).2.
Proof. unfold up. destruct (m w) as [[[a|e] w1] o1]; trivial. Qed.

Lemma qfinally_trace {A} (P : event → Prop) (m : Q A) (cleanup : Q unit)
      (w : World DB) :
  Forall P (m w).2 → (∀ w1, Forall P (cleanup w1).2) →
  Forall P (qfinally m cleanup w).2.
Proof.
  intros Hm Hc. unfold qfinally. destruct (m w) as [[r w1] o1]; cbn in Hm.
  specialize (Hc w1). destruct (cleanup w1) as [[[[]|e] w2] o2]; cbn in *;
    apply Forall_app; split; assumption.
Qed.

Lemma qcatch_trace {A} (P : event → Prop) (m : Q A) (h : raised → Q A)
      (w : World DB) :
  Forall P (m w).2 → (∀ e w1, Forall P (h e w1).2) →
  Forall P (qcatch m h w).2.
Proof.
  intros Hm Hh. unfold qcatch. destruct (m w) as [[[a|e] w1] o1]; cbn in Hm;
    [exact Hm|].
  specialize (Hh e w1). destruct (h e w1) as [[r w2] o2]; cbn in *.
  apply Forall_app; split; assumption.
Qed.

Lemma next_named_upper (target : string) (cols : list json) (c : string) :
  next_named target cols = Returned c → str_upper c = target.
Proof.
  induction cols as [|v cols IH]; cbn; [discriminate|].
  destruct v; try discriminate.
  destruct (String.eqb_spec (str_upper s) target) as [Heq|Hne]; [|exact IH].
  intros [= <-]. exact Heq.
Qed.

Section Trace.

Context (P : event → Prop) (Hquiet : ∀ e, quiet e → P e).
Context (Hclose : P CursorClose) (Hinput : ∀ prompt, P (Input prompt)).
Context (Hcolumns : ∀ table,
            P (Execute (Stmt column_names_query
                          [JString "public"; JString table]))).
Context (Hdams : ∀ name_col type_col,
            str_upper name_col = "NAME" → str_upper type_col = "TYPE" →
            P (Execute (Stmt (dams_query name_col type_col "geom")
                          [JInt 50]))).
Context (Hplants : ∀ name_col_pp type_col_pp fuel_col cap_col name_col_dam
                     dam_name,
            str_upper name_col_pp = "NAME" → str_upper type_col_pp = "TYPE" →
            str_upper fuel_col = "PRIM_FUEL" →
            str_upper cap_col = "SUMMER_CAP" →
            str_upper name_col_dam = "NAME" →
            P (Execute (Stmt (plants_query name_col_pp type_col_pp fuel_col
                                cap_col "geom" "geom" name_col_dam)
                          [dam_name]))).

Lemma print_trace (text : string) (w : World DB) :
  Forall P (up (print text) w).2.
Proof. repeat constructor. apply Hquiet. exact I. Qed.

Lemma execute_trace (stmt : statement) (w : World DB) :
  P (Execute stmt) → Forall P (up (cursor_execute stmt) w).2.
Proof.
  intros HP. apply up_trace. unfold cursor_execute.
  destruct (db_execute (w_db w) stmt) as [db [msg|]]; repeat constructor;
    exact HP.
Qed.

Lemma with_cursor_trace {A} (body : Q A) (w : World DB) :
  Forall P (body w).2 → Forall P (with_cursor body w).2.
Proof.
  intros Hbody. apply qfinally_trace; [exact Hbody|].
  intros w1. repeat constructor. exact Hclose.
Qed.

Lemma get_actual_column_names_trace (table : string) (w : World DB) :
  Forall P (get_actual_column_names table "public" w).2.
Proof.
  apply with_cursor_trace.
  apply qbind_trace; [apply execute_trace, Hcolumns|intros _ w1 _ _].
  apply qbind_trace; [constructor|intros rows w2 _ _]. apply up_trace. constructor.
Qed.

Lemma list_available_dams_trace (w : World DB) :
  Forall P (list_available_dams 50 w).2.
Proof.
  unfold list_available_dams.
  apply qbind_trace; [|intros rows w1 _ _].
  { apply with_cursor_trace.
    apply qbind_trace; [apply get_actual_column_names_trace|].
    intros dam_cols w1 _ _.
    apply qbind_trace; [constructor|intros name_col w2 o2 Hname].
    apply qbind_trace; [constructor|intros type_col w3 o3 Htype].
    injection Hname as Hname _ _. injection Htype as Htype _ _.
    apply qbind_trace; [|intros _ w4 _ _; constructor].
    apply execute_trace, Hdams; eapply next_named_upper; eassumption. }
  apply qbind_trace; [apply print_trace|intros _ w2 _ _].
  apply qbind_trace; [apply up_trace; constructor|intros shown w3 _ _].
  apply qbind_trace; [apply print_trace|intros _ w4 _ _]. constructor.
Qed.

Lemma analyze_trace (dam_name : json) (w : World DB) :
  Forall P (analyze_power_plants_at_risk dam_name w).2.
Proof.
  unfold analyze_power_plants_at_risk.
  apply qbind_trace; [|intros rows w1 _ _].
  { apply with_cursor_trace.
    apply qbind_trace; [apply get_actual_column_names_trace|].
    intros dam_cols w1 _ _.
    apply qbind_trace; [constructor|intros name_col_dam w2 o2 Hcol1].
    apply qbind_trace; [apply get_actual_column_names_trace|].
    intros pp_cols w3 _ _.
    apply qbind_trace; [constructor|intros name_col_pp w4 o4 Hcol2].
    apply qbind_trace; [constructor|intros type_col_pp w5 o5 Hcol3].
    apply qbind_trace; [constructor|intros fuel_col w6 o6 Hcol4].
    apply qbind_trace; [constructor|intros cap_col w7 o7 Hcol5].
    injection Hcol1 as Hcol1 _ _. injection Hcol2 as Hcol2 _ _. injection Hcol3 as Hcol3 _ _.
    injection Hcol4 as Hcol4 _ _. injection Hcol5 as Hcol5 _ _.
    apply qbind_trace; [|intros _ w8 _ _; constructor].
    apply execute_trace, Hplants; eapply next_named_upper; eassumption. }
  apply qbind_trace; [apply print_trace|intros _ w2 _ _].
  apply qbind_trace; [|intros _ w3 _ _; constructor].
  case_bool_decide; apply print_trace.
Qed.

Lemma report_dams_trace (dam_names : list json) (w : World DB) :
  Forall P (report_dams dam_names w).2.
Proof.
  revert w. induction dam_names as [|dam rest IH]; intros w; cbn [report_dams];
    [constructor|].
  apply qbind_trace; [apply print_trace|intros _ w1 _ _].
  apply qbind_trace; [apply print_trace|intros _ w2 _ _].
  apply qbind_trace; [apply print_trace|intros _ w3 _ _].
  apply qbind_trace; [apply analyze_trace|intros plants w4 _ _].
  apply qbind_trace; [apply print_trace|intros _ w5 _ _]. apply IH.
Qed.

Lemma analysis_trace (w : World DB) : Forall P (analysis w).2.
Proof.
  unfold analysis.
  apply qbind_trace; [apply list_available_dams_trace|intros dams w1 _ _].
  apply qbind_trace; [apply print_trace|intros _ w2 _ _].
  apply qbind_trace; [|intros answer w3 _ _].
  { apply up_trace. unfold input. destruct (w_stdin w2); repeat constructor;
      apply Hinput. }
  apply qbind_trace; [|intros selected w4 _ _].
  { case_match; [apply up_trace|]; constructor. }
  apply qbind_trace; [apply up_trace; constructor|intros upper w5 _ _].
  apply qbind_trace; [|intros dam_names w6 _ _; apply report_dams_trace].
  case_match; [apply up_trace|]; constructor.
Qed.

Lemma guarded_analysis (w : World DB) :
  ∃ w' o, qcatch analysis report_error w = (Returned tt, w', o) ∧ Forall P o.
Proof.
  pose proof (analysis_trace w) as Htrace. unfold qcatch.
  destruct (analysis w) as [[[[]|e] w1] o1]; cbn in Htrace.
  - eexists _, _. split; [reflexivity|exact Htrace].
  - destruct e as [x| |msg]; cbn; eexists _, _; (split; [reflexivity|]);
      (apply Forall_app; split; [exact Htrace|]);
      repeat constructor; apply Hquiet; exact I.
Qed.

End Trace.

Lemma qbind_run {A B} (m : Q A) (k : A → Q B) (w : World DB) :
  qbind m k w
  = match m w with
    | (Returned a, w1, o1) =>
        let '(r, w2, o2) := k a w1 in (r, w2, (o1 ++ o2)%list)
    | (Thrown e, w1, o1) => (Thrown e, w1, o1)
    end.
Proof. reflexivity. Qed.

Lemma connect_to_db_run (w : World DB) :
  connect_to_db w
  = match db_connect (w_db w) with
    | Some msg =>
        (Returned None, w,
         [PrintError "Error connecting to database: " (DatabaseError msg)])
    | None =>
        (Returned (Some tt), w,
         [Connect; Print "Connected to PostgreSQL database."])
    end.
Proof.
  unfold connect_to_db, qcatch, qbind, up, connect, print, emit.
  destruct (db_connect (w_db w)); reflexivity.
Qed.

(** X16: [main] of query_1.py.  When the connection fails the error is
    printed by [connect_to_db] and the assertion, which stands outside the
    [try], raises AssertionError: nothing is opened and nothing catches
    it.  When the connection is made, [main] returns whatever happens
    in the analysis (a failing statement, a missing column, the end of
    the input), and the connection is closed exactly once, as the last
    event: the [finally] clause runs on every path. *)
Theorem main_closes_connection (w : World DB) :
  match db_connect (w_db w) with
  | Some msg =>
      main w
      = (Thrown (AssertionError "Database connection failed."), w,
         [PrintError "Error connecting to database: " (DatabaseError msg)])
  | None =>
      ∃ w' body,
        main w
        = (Returned tt, w',
           (Connect :: Print "Connected to PostgreSQL database."
            :: body ++ [ConnClose])%list)
        ∧ Forall keeps_connection body
  end.
Proof.
  unfold main. rewrite qbind_run, connect_to_db_run.
  destruct (db_connect (w_db w)) as [msg|]; [reflexivity|].
  destruct (guarded_analysis keeps_connection) with (w := w)
    as (w' & o & Hrun & Htrace); try (intros; exact I).
  { intros []; cbn; tauto. }
  unfold qfinally. rewrite Hrun. cbn.
  exists w', o. split; [reflexivity|exact Htrace].
Qed.

(** X17: every statement query_1.py executes is the query of the column
    names of a table, the query of the dams or the query of the power
    plants of a dam.  The text of a statement is fixed up to the column
    names spliced into it, each of which is a column whose upper-case
    form is NAME, TYPE, PRIM_FUEL or SUMMER_CAP as the place requires;
    the name of the dam, typed by the operator or read from the rows, only
    ever is a bound value. *)
Theorem dam_name_is_bound (w : World DB) :
  Forall query_statement (main w).2.
Proof.
  unfold main. rewrite qbind_run, connect_to_db_run.
  destruct (db_connect (w_db w)) as [msg|]; [repeat constructor|].
  destruct (guarded_analysis query_statement) with (w := w)
    as (w' & o & Hrun & Htrace); try (intros; exact I).
  - intros []; cbn; tauto.
  - intros table. left. exists table. reflexivity.
  - intros n t Hn Ht. right; left. exists n, t. done.
  - intros a b c d e dam Ha Hb Hc Hd He. right; right.
    exists a, b, c, d, e, dam. done.
  - unfold qfinally. rewrite Hrun. cbn.
    repeat constructor. apply Forall_app. split; [exact Htrace|repeat constructor].
Qed.

(** X18: the column looked for is the first one, in the order of the
    catalog, whose upper-case form is the target, and it is returned in
    its own case.  The search raises StopIteration exactly when every
    column is a string and none matches, and AttributeError exactly when
    a column that is not a string comes before any match. *)
Theorem next_named_first (target : string) (cols : list json) :
  match next_named target cols with
  | Returned c =>
      ∃ before after,
        cols = ((JString <$> before) ++ JString c :: after)%list
        ∧ str_upper c = target
        ∧ Forall (λ b, str_upper b ≠ target) before
  | Thrown e =>
      ∃ before,
        Forall (λ b, str_upper b ≠ target) before
        ∧ ((e = StopIteration ∧ cols = JString <$> before)
           ∨ (e = Builtin AttributeError
              ∧ ∃ v after, cols = ((JString <$> before) ++ v :: after)%list
                           ∧ ∀ s, v ≠ JString s))
  end.
Proof.
  induction cols as [|v cols IH]; cbn.
  { exists []. split; [constructor|left; done]. }
  destruct v as [| | | |s| |];
    try (exists []; split; [constructor|right; split; [reflexivity|]];
         eexists _, cols; split; [reflexivity|discriminate]).
  destruct (String.eqb_spec (str_upper s) target) as [Heq|Hne].
  { exists [], cols. split; [reflexivity|]. split; [exact Heq|constructor]. }
  destruct (next_named target cols) as [c|e].
  - destruct IH as (before & after & -> & Hc & Hbefore).
    exists (s :: before), after. split; [reflexivity|].
    split; [exact Hc|constructor; assumption].
  - destruct IH as (before & Hbefore & Hcase).
    exists (s :: before). split; [constructor; assumption|].
    destruct Hcase as [[-> ->]|(-> & v & after & -> & Hv)].
    + left. done.
    + right. split; [reflexivity|]. exists v, after. done.
Qed.

End QueryOneProperties.

End Properties.

(** ** The properties on concrete runs *)

Import Fixture.

(** With every row accepted but the second, the run ends with the tally
    2 out of 3. *)
Example partial_failure_tally :
  let run :=
    ingest_geojson_to_postgis "stations.geojson" "my-stations" None 4326
      stations_world in
  run.1.1 = Ok true
  ∧ last run.2
    = Some (Print "Data was automatically transformed from EPSG:4326 to EPSG:4326")
  ∧ Print (PyStr.nl +:+ "Completed: 2 out of 3 features inserted successfully.")
    ∈ run.2
  ∧ reported run.2
    = [("Error inserting feature: ", DatabaseError "can't adapt type 'dict'")]
  ∧ commits run.2 = 1
  ∧ length (attempts run.2) = 4.
Proof.
  intros run. repeat split; try (vm_compute; reflexivity).
  apply list_elem_of_In. vm_compute. tauto.
Qed.

(** With codecs that all refuse the file, the error of the last turn is
    raised and reported. *)
Example all_encodings_refused :
  examine_geojson (H:=seven_bit_runtime) "cafe.geojson" cafe_world
  = (Ok None, cafe_world,
     [OpenRead "cafe.geojson" "utf-8"; OpenRead "cafe.geojson" "latin-1";
      OpenRead "cafe.geojson" "cp1252";
      PrintError "Error examining GeoJSON: "
        (Exception "Could not decode file with any of these encodings: ['utf-8', 'latin-1', 'cp1252']")]).
Proof. vm_compute. reflexivity. Qed.

(** C5: when the server has no PostGIS extension the version query of the
    script raises, the error is printed and the run ends with the
    connection still open ([conn.close()] is never reached); the same
    happens when the standard input ends at the first question.  When
    nothing raises, as for a file that does not exist, the connection is
    closed. *)
Theorem connection_left_open :
  let no_extension := main_script (mkWorld ∅ ∅ [] PlainPostgres) in
  let end_of_input := main_script (world "stations.geojson" stations_text []) in
  let no_file := main_script (world "stations.geojson" stations_text ["x"]) in
  no_extension.2
  = [Connect; Execute (Stmt "SELECT postgis_version();" []);
     PrintError "Error: " (DatabaseError no_postgis)]
  ∧ (ConnClose ∉ no_extension.2)
  ∧ end_of_input.2
    = [Connect; Execute (Stmt "SELECT postgis_version();" []);
       PrintValue "Connected to PostGIS version: "
         (JString "3.4 USE_GEOS=1 USE_PROJ=1 USE_STATS=1");
       Input "Enter the path to your GeoJSON file: ";
       PrintError "Error: " EOFError]
  ∧ (ConnClose ∉ end_of_input.2)
  ∧ no_file.2
    = [Connect; Execute (Stmt "SELECT postgis_version();" []);
       PrintValue "Connected to PostGIS version: "
         (JString "3.4 USE_GEOS=1 USE_PROJ=1 USE_STATS=1");
       Input "Enter the path to your GeoJSON file: ";
       Print "File not found: x"; CursorClose; ConnClose].
Proof.
  intros no_extension end_of_input no_file.
  assert (H1 : no_extension.2
               = [Connect; Execute (Stmt "SELECT postgis_version();" []);
                  PrintError "Error: " (DatabaseError no_postgis)])
    by (vm_compute; reflexivity).
  assert (H2 : end_of_input.2
               = [Connect; Execute (Stmt "SELECT postgis_version();" []);
                  PrintValue "Connected to PostGIS version: "
                    (JString "3.4 USE_GEOS=1 USE_PROJ=1 USE_STATS=1");
                  Input "Enter the path to your GeoJSON file: ";
                  PrintError "Error: " EOFError])
    by (vm_compute; reflexivity).
  split; [exact H1|]. split; [rewrite H1; set_solver|].
  split; [exact H2|]. split; [rewrite H2; set_solver|].
  vm_compute. reflexivity.
Qed.

(** C3: the loop handles the error of an [execute] row by row, and a
    feature from which no row can be built ends the whole run.  Of three
    points, the first is refused by the database: the error is reported
    and the loop goes on, as the claim says.  The second has null
    properties: building its row raises AttributeError outside the
    handler of the row, the third point is never tried, nothing is
    committed, no closing message is printed and the function returns
    False. *)
Theorem row_failure_aborts_batch :
  let run :=
    ingest_geojson_to_postgis (H:=Cases.extended_runtime) "mixed.geojson"
      "mixed" None 4326 Cases.mixed_world in
  Py.getitem Cases.mixed "features"
  = Ok (JArray [ feature (point 1 2)
                   [("label", JObject [("nested", JString "A")])];
                 JObject [("type", JString "Feature");
                          ("geometry", point 3 4); ("properties", JNull)];
                 feature (point 5 6) [("label", JString "C")] ])
  ∧ run.1.1 = Ok false
  ∧ reported run.2
    = [("Error inserting feature: ", DatabaseError "can't adapt type 'dict'");
       ("Error ingesting GeoJSON: ", AttributeError)]
  ∧ length (attempts run.2) = 2
  ∧ commits run.2 = 0
  ∧ last run.2 = Some (PrintError "Error ingesting GeoJSON: " AttributeError)
  ∧ pending (w_db run.1.2) = take 1 (attempts run.2)
  ∧ durable (w_db run.1.2) = [].
Proof. intros run. repeat split; vm_compute; reflexivity. Qed.

(** C1 fails as stated: a collection of polygons only keeps the type
    Polygon. *)
Lemma all_polygons_stay_polygon :
  ∃ info,
    (examine_geojson "parcels.geojson" parcels_world).1.1 = Ok (Some info)
    ∧ raw_data info = parcels
    ∧ Forall2 has_label
        [ feature (geometry "Polygon") [("id", JInt 1)];
          feature (geometry "Polygon") [("id", JInt 2)];
          feature (geometry "Polygon") [("id", JInt 3)] ]
        ["Polygon"; "Polygon"; "Polygon"]
    ∧ geometry_type info = Some "Polygon"
    ∧ geometry_type info ≠ Some "MultiPolygon".
Proof.
  eexists. split; [vm_compute; reflexivity|]. cbn.
  split; [reflexivity|]. split; [|split; [reflexivity|discriminate]].
  repeat constructor; eexists _, _; repeat split; reflexivity.
Qed.

(** Two districts, one polygon and one made of several polygons, and
    then three, the second of which has no geometry: the type of the
    table is MultiPolygon in both collections. *)
Lemma geometry_type_resolution_witness :
  (∃ info o,
      examine_geojson "districts.geojson" districts_world
      = (Ok (Some info), districts_world, o)
      ∧ geometry_type info = Some "MultiPolygon")
  ∧ ∃ info o,
      examine_geojson (H:=Cases.extended_runtime) "sparse.geojson"
        Cases.sparse_world
      = (Ok (Some info), Cases.sparse_world, o)
      ∧ feature_count info = 3
      ∧ geometry_type info = Some "MultiPolygon".
Proof.
  split.
  - destruct (geometry_type_resolution "districts.geojson" districts_world
                [("type", JString "FeatureCollection");
                 ("features",
                  JArray [ feature (geometry "Polygon") [("id", JInt 1)];
                           feature (geometry "MultiPolygon") [("id", JInt 2)] ])]
                [ feature (geometry "Polygon") [("id", JInt 1)];
                  feature (geometry "MultiPolygon") [("id", JInt 2)] ]
                [Some "Polygon"; Some "MultiPolygon"])
      as (info & o & Hrun & _ & _ & Hmulti & _).
    + vm_compute. reflexivity.
    + reflexivity.
    + repeat constructor; eexists; (split; [reflexivity|]); cbn; eauto.
    + exists info, o. split; [exact Hrun|]. apply Hmulti.
      apply list_elem_of_In. cbn. tauto.
  - destruct (geometry_type_resolution (H:=Cases.extended_runtime)
                "sparse.geojson" Cases.sparse_world
                [("type", JString "FeatureCollection");
                 ("features",
                  JArray [ feature (geometry "Polygon") [("id", JInt 1)];
                           Cases.unlocated;
                           feature (geometry "MultiPolygon") [("id", JInt 3)] ])]
                [ feature (geometry "Polygon") [("id", JInt 1)];
                  Cases.unlocated;
                  feature (geometry "MultiPolygon") [("id", JInt 3)] ]
                [Some "Polygon"; None; Some "MultiPolygon"])
      as (info & o & Hrun & _ & Hcount & Hmulti & _).
    + vm_compute. reflexivity.
    + reflexivity.
    + repeat constructor; eexists; (split; [reflexivity|]); cbn; eauto.
    + exists info, o. split; [exact Hrun|]. split; [exact Hcount|].
      apply Hmulti. apply list_elem_of_In. cbn. tauto.
Defined.

(** The three stations, the second of which is refused. *)
Lemma failed_rows_are_skipped_witness :
  ∃ r w' o1 o2 e1 e2 e3 o3 tail,
    ingest_geojson_to_postgis "stations.geojson" "my-stations" None 4326
      stations_world
    = (r, w', (o1 ++ o2 ++ [e1; e2; e3] ++ o3 ++ Commit :: tail)%list)
    ∧ length (attempts o3) = 3
    ∧ commits (o1 ++ o2 ++ o3) = 0.
Proof.
  edestruct (failed_rows_are_skipped "stations.geojson" "my-stations" None
               4326%Z stations_world)
    as (rows & o3 & tail & r & w' & Hall & Hrun & Hatt & _ & Hcom & _).
  - vm_compute. reflexivity.
  - vm_compute. reflexivity.
  - reflexivity.
  - reflexivity.
  - vm_compute. reflexivity.
  - reflexivity.
  - repeat constructor; eexists; (split; [reflexivity|]); cbn; eauto.
  - eexists r, w', _, _, _, _, _, o3, tail. split; [exact Hrun|].
    split; [|exact Hcom].
    rewrite Hatt. apply Forall2_length in Hall. rewrite <- Hall. reflexivity.
Defined.

(** A file in latin-1 is read at the second turn of the loop. *)
Lemma encodings_tried_in_order_witness :
  load_document "cafe.geojson" encodings_to_try cafe_world
  = (Ok cafe, cafe_world,
     [OpenRead "cafe.geojson" "utf-8"; OpenRead "cafe.geojson" "latin-1"]).
Proof.
  destruct (encodings_tried_in_order "cafe.geojson" (bytes_of cafe_text)
              cafe_world ltac:(vm_compute; reflexivity))
    as (_ & Hstop & _).
  pose proof (Hstop ["utf-8"] "latin-1" ["cp1252"] (code_points cafe_text)
                eq_refl
                ltac:(constructor; [vm_compute; reflexivity|constructor])
                ltac:(vm_compute; reflexivity)) as Hrun.
  rewrite Hrun. vm_compute. reflexivity.
Defined.

(** The latin-1 codec of the runtime is total. *)
Lemma decode_error_unreachable_witness :
  (∀ bytes, is_Some (codec_decode "latin-1" bytes))
  ∧ ∀ msg,
      (load_document "cafe.geojson" encodings_to_try cafe_world).1.1
      ≠ Raise (Exception msg).
Proof.
  assert (Hlatin1 : ∀ bytes, is_Some (codec_decode "latin-1" bytes)).
  { intros bytes. eexists. reflexivity. }
  split; [exact Hlatin1|].
  apply (decode_error_unreachable "cafe.geojson" cafe_world Hlatin1).
Defined.

(** The first statement of the run on the stations is the CREATE TABLE
    statement, written to my_stations_table_structure.sql before. *)
Lemma statement_written_before_executed_witness :
  let run :=
    ingest_geojson_to_postgis "stations.geojson" "my-stations" None 4326
      stations_world in
  let create := default (Stmt EmptyString []) (head (attempts run.2)) in
  run.2 = (take 13 run.2 ++ Execute create :: drop 14 run.2)%list
  ∧ attempts (take 13 run.2) = []
  ∧ WriteFile "my_stations_table_structure.sql" (sql create) ∈ take 13 run.2
  ∧ w_files run.1.2 !! "my_stations_table_structure.sql"
    = Some (list_byte_of_string (sql create)).
Proof.
  intros run create.
  assert (H1 : run.2 = (take 13 run.2 ++ Execute create :: drop 14 run.2)%list)
    by (vm_compute; reflexivity).
  assert (H2 : attempts (take 13 run.2) = []) by (vm_compute; reflexivity).
  split; [exact H1|]. split; [exact H2|].
  destruct (statement_written_before_executed "stations.geojson" "my-stations"
              None 4326%Z stations_world (take 13 run.2) (drop 14 run.2)
              create H1 H2) as (Hwritten & Hfile & _).
  split; [exact Hwritten|exact Hfile].
Defined.

(** The operator answers no. *)
Lemma nothing_executed_unconfirmed_witness :
  let run :=
    ingest_geojson_to_postgis "typed.geojson" "typed" None 4326 declined_world in
  (∀ answer, head (w_stdin declined_world) = Some answer →
             confirmed (PyStr.lower answer) = false)
  ∧ run.1.1 = Ok false
  ∧ attempts run.2 = []
  ∧ commits run.2 = 0
  ∧ w_db run.1.2 = w_db declined_world.
Proof.
  intros run.
  assert (Hno : ∀ answer, head (w_stdin declined_world) = Some answer →
                          confirmed (PyStr.lower answer) = false).
  { intros answer [= <-]. reflexivity. }
  split; [exact Hno|].
  destruct (nothing_executed_unconfirmed "typed.geojson" "typed" None 4326%Z
              declined_world) as (_ & _ & Hdeclined).
  exact (Hdeclined Hno).
Defined.

(** A document in Web Mercator, and one without a CRS block. *)
Lemma source_srid_detection_witness :
  choose_source_srid None mercator mercator_world
  = (Ok 3857%Z, mercator_world, [Print "Detected source SRID: 3857"])
  ∧ choose_source_srid None parcels parcels_world
    = (Ok 4326%Z, parcels_world,
       [Print "No CRS specified in GeoJSON. Assuming EPSG:4326"]).
Proof.
  split.
  - apply (source_srid_detection
             [("type", JString "FeatureCollection"); ("crs", mercator_crs);
              ("features",
               JArray [feature (point 1 2) [("label", JString "A")]])]
             mercator_world).
    reflexivity.
  - apply (source_srid_detection
             [("type", JString "FeatureCollection");
              ("features",
               JArray [ feature (geometry "Polygon") [("id", JInt 1)];
                        feature (geometry "Polygon") [("id", JInt 2)];
                        feature (geometry "Polygon") [("id", JInt 3)] ])]
             parcels_world).
    reflexivity.
Defined.

(** C4 fails as stated: a file that parses under none of the three
    encodings, because it is not JSON, ends the loop at its first turn with
    the parse error; latin-1 and cp1252 are not tried and the error that
    names the encodings is not raised. *)
Lemma parse_error_ends_the_loop :
  Forall (λ e, ∃ text, codec_decode e (bytes_of broken_text) = Some text
                       ∧ json_loads text = None) encodings_to_try
  ∧ load_document "broken.geojson" encodings_to_try broken_world
    = (Raise JSONDecodeError, broken_world, [OpenRead "broken.geojson" "utf-8"])
  ∧ examine_geojson "broken.geojson" broken_world
    = (Ok None, broken_world,
       [OpenRead "broken.geojson" "utf-8";
        PrintError "Error examining GeoJSON: " JSONDecodeError]).
Proof.
  split; [|split; vm_compute; reflexivity].
  repeat constructor; eexists; split; vm_compute; reflexivity.
Qed.

(** main.py on a server with PostGIS and on one without. *)
Example version_check_runs :
  (version_check (world "x" "x" [])).2
  = [Connect; Execute (Stmt "SELECT postgis_version();" []);
     PrintValue "Connected to PostGIS version: "
       (JString "3.4 USE_GEOS=1 USE_PROJ=1 USE_STATS=1");
     CursorClose; ConnClose]
  ∧ (version_check (mkWorld ∅ ∅ [] PlainPostgres)).2
    = [Connect; Execute (Stmt "SELECT postgis_version();" []);
       PrintError "Error: " (DatabaseError no_postgis)].
Proof. split; vm_compute; reflexivity. Qed.

(** A path that names no file. *)
Lemma missing_file_is_reported_witness :
  ingest_geojson_to_postgis "nowhere.geojson" "parcels" None 4326 parcels_world
  = (Ok false, parcels_world,
     [OpenRead "nowhere.geojson" "utf-8";
      PrintError "Error examining GeoJSON: " FileNotFoundError]).
Proof.
  apply (missing_file_is_reported "nowhere.geojson" "parcels" None 4326%Z
           parcels_world).
  vm_compute. reflexivity.
Defined.

(** The collection of the cafe has no feature. *)
Lemma empty_collection_is_rejected_witness :
  ∃ o e,
    ingest_geojson_to_postgis "cafe.geojson" "cafe" (Some 4326%Z) 4326
      cafe_world
    = (Ok false, cafe_world,
       (o ++ [PrintError "Error ingesting GeoJSON: " e])%list)
    ∧ e = AttributeError.
Proof.
  destruct (empty_collection_is_rejected "cafe.geojson" "cafe" (Some 4326%Z)
              4326%Z cafe_world
              [("type", JString "FeatureCollection");
               ("name", JString ("caf" +:+ String (ascii_of_nat 195)
                                   (String (ascii_of_nat 169) EmptyString)));
               ("features", JArray [])])
    as (_ & o & e & Hrun & _ & He).
  - vm_compute. reflexivity.
  - right. reflexivity.
  - exists o, e. split; [exact Hrun|]. apply He. eexists. reflexivity.
Defined.

(** The second of three points has null properties: the first row is
    tried, the third is not, and nothing is committed. *)
Lemma malformed_feature_aborts_witness :
  ∃ w' o,
    ingest_geojson_to_postgis (H:=Cases.extended_runtime) "orphans.geojson"
      "orphans" None 4326 Cases.orphans_world
    = (Ok false, w', o)
    ∧ last o = Some (PrintError "Error ingesting GeoJSON: " AttributeError)
    ∧ length (pending (w_db w')) = 2
    ∧ durable (w_db w') = [].
Proof.
  edestruct (malformed_feature_aborts (H:=Cases.extended_runtime)
               "orphans.geojson" "orphans" None 4326%Z Cases.orphans_world)
    with (answer := "y") (stdin := @nil string)
         (good := [feature (point 1 2) [("label", JString "A")]])
         (rest := [feature (point 5 6) [("label", JString "C")]])
         (bad := Cases.bare)
    as (_ & rows & o3 & w' & Hall & Hrun & Hatt & Hcom & Hdb).
  - vm_compute. reflexivity.
  - vm_compute. reflexivity.
  - reflexivity.
  - reflexivity.
  - vm_compute. reflexivity.
  - reflexivity.
  - repeat constructor. eexists. split; [reflexivity|]. cbn. eauto.
  - intros (members & [= <-] & Hprops). cbn in Hprops.
    destruct Hprops as (props & [=]).
  - eexists w', _. split; [exact Hrun|]. clear Hrun Hatt Hcom.
    inversion Hall as [|f row fs rows' Hrow Hrest]; subst.
    inversion Hrest; subst. vm_compute in Hrow. injection Hrow as <-.
    split; [rewrite !app_assoc; apply last_snoc|].
    rewrite Hdb. split; vm_compute; reflexivity.
Defined.


(** The CRS block of the document in Web Mercator. *)
Lemma epsg_code_is_read_back_witness :
  choose_source_srid None mercator mercator_world
  = (Ok 3857%Z, mercator_world, [Print "Detected source SRID: 3857"]).
Proof.
  apply (epsg_code_is_read_back
           [("type", JString "FeatureCollection"); ("crs", mercator_crs);
            ("features",
             JArray [feature (point 1 2) [("label", JString "A")]])]
           [("type", JString "name");
            ("properties",
             JObject [("name", JString "urn:ogc:def:crs:EPSG::3857")])]
           [("name", JString "urn:ogc:def:crs:EPSG::3857")]
           "urn:ogc:def:crs:EPSG:" 3857%Z mercator_world);
    reflexivity.
Defined.

(** A document whose CRS is null. *)
Lemma crs_that_is_no_object_aborts_witness :
  ∃ o,
    ingest_geojson_to_postgis (H:=Cases.extended_runtime) "unassigned.geojson"
      "unassigned" None 4326 Cases.unassigned_world
    = (Ok false, Cases.unassigned_world,
       (o ++ [PrintError "Error ingesting GeoJSON: " AttributeError])%list).
Proof.
  eexists.
  eapply (crs_that_is_no_object_aborts (H:=Cases.extended_runtime)
            "unassigned.geojson" "unassigned" 4326%Z Cases.unassigned_world
            _ _ _ JNull).
  - vm_compute. reflexivity.
  - reflexivity.
  - reflexivity.
  - discriminate.
Defined.

(** A feature without location beside a district of several polygons. *)
Lemma null_geometry_is_not_examined_witness :
  ∃ o,
    ingest_geojson_to_postgis (H:=Cases.extended_runtime) "adrift.geojson"
      "adrift" None 4326 Cases.adrift_world
    = (Ok false, Cases.adrift_world,
       (o ++ [PrintError "Error examining GeoJSON: " TypeError])%list).
Proof.
  destruct (null_geometry_is_not_examined (H:=Cases.extended_runtime)
              "adrift.geojson" "adrift" None 4326%Z Cases.adrift_world
              [("type", JString "FeatureCollection");
               ("features",
                JArray [ feature (geometry "MultiPolygon") [("id", JInt 1)];
                         JObject [("type", JString "Feature");
                                  ("geometry", JNull);
                                  ("properties", JObject [("id", JInt 2)])] ])]
              [feature (geometry "MultiPolygon") [("id", JInt 1)]] []
              [Some "MultiPolygon"]
              [("type", JString "Feature"); ("geometry", JNull);
               ("properties", JObject [("id", JInt 2)])])
    as (o & _ & _ & Hrun).
  - vm_compute. reflexivity.
  - reflexivity.
  - repeat constructor; eexists; (split; [reflexivity|]); cbn; eauto.
  - reflexivity.
  - exists o. exact Hrun.
Defined.

Import Catalog.

(** On a database with the table roads, named by the operator, the four
    statements are executed and the session is closed; with a name that
    is not a table name the count is not asked; without tables the
    function returns with the connection open. *)
Example list_tables_runs :
  let known := list_tables (Catalog.roads_world ["roads"]) in
  let unknown := list_tables (Catalog.roads_world ["rivers"]) in
  let none := list_tables Catalog.empty_world in
  attempts known.2 = catalog_statements "roads"
  ∧ reported known.2 = []
  ∧ PrintValue (PyStr.nl +:+ "Total rows: ") (JInt 12) ∈ known.2
  ∧ last known.2 = Some ConnClose
  ∧ attempts unknown.2 = take 2 (catalog_statements "rivers")
  ∧ Print "Table 'rivers' not found or has no columns." ∈ unknown.2
  ∧ last unknown.2 = Some ConnClose
  ∧ none.2 = no_tables_trace.
Proof.
  intros known unknown none.
  repeat split; try (vm_compute; reflexivity);
    apply list_elem_of_In; vm_compute; tauto.
Qed.

(** The two rows of the schema of roads. *)
Example roads_schema :
  format_columns Catalog.roads_columns
  = Ok [ [JString "id"; JString "integer"; JString "NO"];
         [JString "name"; JString "character varying(80)"; JString "YES"] ].
Proof. vm_compute. reflexivity. Qed.

Import Dams.

(** query_1.py on the two dams.  The answer all is read as ALL: each dam
    is analysed, by three statements each.  At the end of the input the
    error is reported and the connection is closed all the same. *)
Example query_main_runs :
  let all := main (Dams.world ["  all "]) in
  let eof := main (Dams.world []) in
  all.1.1 = Returned tt
  ∧ map params (attempts all.2)
    = [ [JString "public"; JString "utah_dams"]; [JInt 50];
        [JString "public"; JString "utah_dams"];
        [JString "public"; JString "power_plants"]; [JString "Deer Creek"];
        [JString "public"; JString "utah_dams"];
        [JString "public"; JString "power_plants"]; [JString "Echo"] ]
  ∧ reported all.2 = []
  ∧ last all.2 = Some ConnClose
  ∧ eof.1.1 = Returned tt
  ∧ reported eof.2 = [("Error during analysis: ", EOFError)]
  ∧ last eof.2 = Some ConnClose.
Proof. intros all eof. repeat split; vm_compute; reflexivity. Qed.
